(** * btgym/server.py: the coordination core of the backtesting server

    A shallow embedding of [_BTgymAnalyzer.next] (the per-tick hook of an
    episode), of [BTgymServer._comm_with_timeout], [BTgymServer.get_data]
    and of the control-mode part of [BTgymServer.run], followed by the
    properties of the specification that concern them.

    Python dictionaries are finite maps keyed by strings; Python floats
    are IEEE 754 binary64 numbers ([SpecFloat] with precision 53 and
    maximal exponent 1024); the two ZeroMQ sockets are modelled with the
    request/reply discipline of their socket types; the engine
    (backtrader strategy, renderer, data sample objects) is external and
    enters as section variables. *)

From Stdlib Require Import ZArith Lia Bool.
From Stdlib Require Import Floats.SpecFloat.
From stdpp Require Import gmap strings list fin_maps.

Set Warnings "-register-all".
Open Scope Z_scope.

(** ** Python values carried by messages

    [VObj h] is an instance of a class of the engine (a data sample, a
    statistics record), named by a handle. Such an object is
    used through its methods and attributes only: it has no item access,
    no iteration and no [in], it is hashable and true. *)

Inductive pyval : Type :=
| VNone
| VBool (b : bool)
| VInt (z : Z)
| VStr (s : string)
| VObj (handle : nat)
| VList (l : list pyval)
| VTuple (l : list pyval)
| VDict (d : gmap string pyval).

(** A message is a [dict]; the keys used are [ctrl], [action], [mode],
    [kwargs] (controller side) and [ctrl], [sample], [stat] (data side). *)
Abbreviation Msg := (gmap string pyval).

(** [v == s] for a string literal [s]: only a [str] equals a [str]. *)
Definition eq_str (v : pyval) (s : string) : bool :=
  match v with
  | VStr t => String.eqb t s
  | _ => false
  end.

(** Truth value of an object, as taken by [if] and [or]. *)
Definition truthy (v : pyval) : bool :=
  match v with
  | VNone => false
  | VBool b => b
  | VInt z => negb (z =? 0)
  | VStr s => negb (String.eqb s "")
  | VObj _ => true
  | VList l | VTuple l => negb (bool_decide (l = []))
  | VDict d => negb (bool_decide (d = ∅))
  end.

(** [k in d] for a dict. *)
Definition has_key (d : Msg) (k : string) : bool :=
  match d !! k with
  | Some _ => true
  | None => false
  end.

(** [s in t] for two strings: [s] occurs in [t]. *)
Fixpoint is_prefix (s t : string) : bool :=
  match s, t with
  | EmptyString, _ => true
  | String a s', String b t' => if Ascii.eqb a b then is_prefix s' t' else false
  | String _ _, EmptyString => false
  end.

Fixpoint str_in (s t : string) : bool :=
  if is_prefix s t then true
  else match t with
       | EmptyString => false
       | String _ t' => str_in s t'
       end.

(** The characters of a string, as iterating it yields them. *)
Fixpoint chars (s : string) : list pyval :=
  match s with
  | EmptyString => []
  | String a s' => VStr (String a EmptyString) :: chars s'
  end.

(** [hash(v)] succeeds: lists and dicts are unhashable, a tuple is
    hashable when its elements are. *)
Fixpoint hashable (v : pyval) : bool :=
  match v with
  | VList _ | VDict _ => false
  | VTuple l => forallb hashable l
  | _ => true
  end.

(** [v is None]. *)
Definition is_none (v : pyval) : bool :=
  match v with
  | VNone => true
  | _ => false
  end.

(** ** Python floats

    A [float] is an IEEE 754 binary64 number; [+], [*] and [<=] round to
    nearest, ties to even. An [int] that meets a [float] in an operation
    is converted first; 0, 2 and 300 convert exactly. [random.random()]
    is [k / 2^53] for an integer [0 <= k < 2^53]. *)

Definition float : Type := spec_float.

Definition float_of_int (z : Z) : float := binary_normalize 53 1024 z 0 false.
Definition float_add (x y : float) : float := SFadd 53 1024 x y.
Definition float_mul (x y : float) : float := SFmul 53 1024 x y.
Definition float_le (x y : float) : bool := SFleb x y.
Definition random_float (k : Z) : float := binary_normalize 53 1024 k (-53) false.

Definition nl : string := String (Ascii.ascii_of_nat 10) EmptyString.

(** ** Outcomes and the controller socket

    [run] creates the controller socket as [zmq.REP] with [RCVTIMEO = -1]:
    requests and replies alternate strictly (the reminder in [run]:
    messages do go in pairs). A receive while a reply is owed, and a send
    while none is owed, are refused by the socket with [ZMQError] (EFSM);
    a receive with no request pending waits without bound. *)

Inductive exn : Type :=
| ZMQError_EFSM           (* operation cannot be accomplished in current state *)
| ZMQError_ENOTSOCK       (* operation on a closed socket *)
| KeyError (k : string)
| AttributeError (attr : string)
| TypeError
| IndexError
| ValueError
| ZeroDivisionError
| AssertionError (msg : string)
| ConnectionError (msg : string)
| RuntimeError (msg : string).

Inductive event : Type :=
| CtlRecv (m : Msg)            (* self.socket.recv_pyobj() returned m *)
| CtlSend (p : pyval)          (* self.socket.send_pyobj(p) *)
| CtlClose                     (* self.socket.close() *)
| CtlDestroy                   (* self.context.destroy() *)
| DataSend (m : Msg)           (* self.data_socket.send_pyobj(m) *)
| DataRecv (v : pyval)         (* self.data_socket.recv_pyobj() returned v *)
| DataFail (status : string)   (* a data-socket operation failed *)
| Sleep (units : Z)            (* time.sleep(pause), pause = units * 2^-52 s *)
| SetOpt (data_side : bool) (rcv : bool) (ms : Z)   (* setsockopt(RCVTIMEO / SNDTIMEO, ms) *)
| Attach (data_side : bool) (address : string)      (* socket.bind / socket.connect *)
| Rendered (mode : pyval) (send_img : bool).   (* self.render.render(...) *)

(** One exchange with the data provider, as the data socket sees it: the
    send or the receive may time out ([EAGAIN]) or fail otherwise, or the
    provider's reply arrives. *)
Inductive xchg : Type :=
| SendTimeout
| SendFault
| RecvTimeout
| RecvFault
| Reply (v : pyval).

Section Server.

(** The renderer is external: a call takes the requested mode(s), the
    step snapshot and the [send_img] flag, and returns the payload. *)
Variable Renderer : Type.
Variable render_fn : Renderer -> pyval -> pyval -> bool -> pyval * Renderer.

(** The data provider and the random generator are external: the outcome
    of the [n]-th exchange on the data socket, and the [n]-th draw of
    [random.random()], given by the integer [0 <= k < 2^53] for which it
    is [k / 2^53]. A pause [random.random() * 2] is then exactly [k]
    units of [2^-52] seconds, and is logged as such. *)
Variable provider : nat -> xchg.
Variable random_draw : nat -> Z.

(** [str.format] of a message: the text Python prints for it. *)
Variable repr : pyval -> string.

Record World : Type := mkWorld {
  ctl_owes : bool;          (* a request was received and not yet answered *)
  ctl_closed : bool;
  ctl_inbox : list Msg;     (* the requests the controller will send *)
  data_waiting : bool;      (* REQ socket: a request is out, its reply is not in *)
  data_closed : bool;
  exchanges : nat;          (* data-socket exchanges started so far *)
  draws : nat;              (* random numbers drawn so far *)
  renderer : Renderer;
  trace : list event
}.

Definition emit (e : event) (w : World) : World :=
  mkWorld (ctl_owes w) (ctl_closed w) (ctl_inbox w) (data_waiting w)
          (data_closed w) (exchanges w) (draws w) (renderer w) (trace w ++ [e]).

Inductive result (A : Type) : Type :=
| Ok (a : A) (w : World)
| Raise (e : exn) (w : World)
| Block (w : World)          (* waiting in recv_pyobj for a request *)
| Diverge (w : World).       (* the loop bound of the model was reached *)

Arguments Ok {A} a w.
Arguments Raise {A} e w.
Arguments Block {A} w.
Arguments Diverge {A} w.

Definition M (A : Type) : Type := World -> result A.

Definition ret {A} (a : A) : M A := fun w => Ok a w.

Definition bind {A B} (c : M A) (k : A -> M B) : M B :=
  fun w => match c w with
           | Ok a w' => k a w'
           | Raise e w' => Raise e w'
           | Block w' => Block w'
           | Diverge w' => Diverge w'
           end.

Definition raise {A} (e : exn) : M A := fun w => Raise e w.

Notation "x <- c ;; k" := (bind c (fun x => k))
  (at level 100, c at next level, right associativity).
Notation "c ;;; k" := (bind c (fun _ => k))
  (at level 100, right associativity).

(** [self.socket.recv_pyobj()] on the REP socket. *)
Definition ctl_recv : M Msg := fun w =>
  if ctl_closed w then Raise ZMQError_ENOTSOCK w
  else if ctl_owes w then Raise ZMQError_EFSM w
  else match ctl_inbox w with
       | [] => Block w
       | m :: rest =>
           Ok m (mkWorld true (ctl_closed w) rest (data_waiting w)
                         (data_closed w) (exchanges w) (draws w) (renderer w)
                         (trace w ++ [CtlRecv m]))
       end.

(** [self.socket.send_pyobj(p)] on the REP socket. *)
Definition ctl_send (p : pyval) : M unit := fun w =>
  if ctl_closed w then Raise ZMQError_ENOTSOCK w
  else if ctl_owes w then
    Ok tt (mkWorld false (ctl_closed w) (ctl_inbox w) (data_waiting w)
                   (data_closed w) (exchanges w) (draws w) (renderer w)
                   (trace w ++ [CtlSend p]))
  else Raise ZMQError_EFSM w.

(** [self.socket.close()] and [self.context.destroy()]. *)
Definition ctl_close : M unit := fun w =>
  Ok tt (mkWorld (ctl_owes w) true (ctl_inbox w) (data_waiting w)
                 (data_closed w) (exchanges w) (draws w) (renderer w)
                 (trace w ++ [CtlClose])).

Definition ctx_destroy : M unit := fun w =>
  Ok tt (mkWorld (ctl_owes w) true (ctl_inbox w) (data_waiting w)
                 (data_closed w) (exchanges w) (draws w) (renderer w)
                 (trace w ++ [CtlDestroy])).

(** [self.render.render(mode, step_to_render=snap, send_img=flag)]. *)
Definition render_call (mode snap : pyval) (flag : bool) : M pyval := fun w =>
  let '(img, r) := render_fn (renderer w) mode snap flag in
  Ok img (mkWorld (ctl_owes w) (ctl_closed w) (ctl_inbox w) (data_waiting w)
                  (data_closed w) (exchanges w) (draws w) r
                  (trace w ++ [Rendered mode flag])).

(** ** The per-tick hook: [_BTgymAnalyzer]

    The strategy is external. The hook reads and writes its attributes
    [action], [last_action], [iteration], [broker_message] and the
    parameter [p.skip_frame]; everything else of the engine is opaque.
    Its query methods read the strategy and return a Python object. *)

Variable Engine : Type.

Record Strategy : Type := mkStrategy {
  action : pyval;
  last_action : pyval;
  iteration : Z;
  skip_frame : Z;
  broker_message : string;
  engine : Engine
}.

Variable _get_done : Strategy -> bool.
Variable get_info : Strategy -> pyval.
Variable _get_raw_state : Strategy -> pyval.
Variable get_state : Strategy -> pyval.
Variable get_reward : Strategy -> pyval.
(** [strategy.close()] and [strategy.env.runstop()] act on the engine. *)
Variable close_position : Engine -> Engine.
Variable runstop : Engine -> Engine.

Record Analyzer : Type := mkAnalyzer {
  message : option Msg;
  step_to_render : pyval;
  render_at_stop : list string;
  info_list : list pyval;
  strategy : Strategy
}.

Definition set_action (v : pyval) (s : Strategy) : Strategy :=
  mkStrategy v (last_action s) (iteration s) (skip_frame s)
             (broker_message s) (engine s).

Definition set_last_action (v : pyval) (s : Strategy) : Strategy :=
  mkStrategy (action s) v (iteration s) (skip_frame s)
             (broker_message s) (engine s).

Definition set_engine (e : Engine) (s : Strategy) : Strategy :=
  mkStrategy (action s) (last_action s) (iteration s) (skip_frame s)
             (broker_message s) e.

Definition set_message (m : Msg) (a : Analyzer) : Analyzer :=
  mkAnalyzer (Some m) (step_to_render a) (render_at_stop a) (info_list a)
             (strategy a).

Definition set_strategy (s : Strategy) (a : Analyzer) : Analyzer :=
  mkAnalyzer (message a) (step_to_render a) (render_at_stop a) (info_list a) s.

Definition set_info_list (l : list pyval) (a : Analyzer) : Analyzer :=
  mkAnalyzer (message a) (step_to_render a) (render_at_stop a) l (strategy a).

Definition set_step_to_render (v : pyval) (a : Analyzer) : Analyzer :=
  mkAnalyzer (message a) v (render_at_stop a) (info_list a) (strategy a).

(** [early_stop]: final renderings (kept by the renderer, not sent), then
    [strategy.close()] and [strategy.env.runstop()]. *)
Definition early_stop (a : Analyzer) : M Analyzer :=
  _ <- render_call (VList (VStr <$> render_at_stop a)) (step_to_render a) false ;;
  ret (set_strategy
         (set_engine (runstop (close_position (engine (strategy a))))
                     (strategy a)) a).

(** How the [while 'ctrl' in self.message] loop is left. *)
Inductive loop_exit : Type :=
| Returned (a : Analyzer)         (* [return None] after [_done] *)
| Fallthrough (a : Analyzer).     (* the message has no [ctrl] key *)

(** The control actions loop of [next]. Every round ends in a receive, so
    [n] rounds need [n] pending requests. *)
Fixpoint ctrl_loop (n : nat) (a : Analyzer) (m : Msg) : M loop_exit :=
  match m !! "ctrl" with
  | None => ret (Fallthrough a)
  | Some c =>
      match n with
      | O => fun w => Diverge w
      | S n' =>
          (if eq_str c "_render" then
             match m !! "mode" with
             | None => raise (KeyError "mode")
             | Some mode =>
                 img <- render_call mode (step_to_render a) true ;;
                 ctl_send img
             end
           else ret tt) ;;;
          if eq_str c "_done" then
            ctl_send (VStr "_DONE SIGNAL RECEIVED") ;;;
            a' <- early_stop a ;;
            ret (Returned a')
          else
            m' <- ctl_recv ;;
            ctrl_loop n' (set_message m' a) m'
      end
  end.

(** The end of [next]: fallback to control mode if done, housekeeping. *)
Definition housekeeping (a : Analyzer) : Analyzer :=
  set_strategy
    (mkStrategy (action (strategy a)) (last_action (strategy a))
                (iteration (strategy a) + 1) (skip_frame (strategy a))
                "-" (engine (strategy a))) a.

Definition finish (is_done : bool) (a : Analyzer) : M Analyzer :=
  a' <- (if is_done then early_stop a else ret a) ;;
  ret (housekeeping a').

(** The communication gate: [iteration % skip_frame == 0 or is_done]. *)
Definition gate (s : Strategy) : bool :=
  (iteration s mod skip_frame s =? 0) || _get_done s.

(** The statements of [next] before the gate. *)
Definition begin_tick (a : Analyzer) : Analyzer :=
  set_strategy (set_action (VStr "hold") (strategy a))
               (set_info_list (info_list a ++ [get_info (strategy a)]) a).

(** The 4-tuple sent for a communicated tick. *)
Definition reply_tuple (state reward : pyval) (is_done : bool) (info : pyval) : pyval :=
  VTuple [state; reward; VBool is_done; VList [info]].

Definition snapshot (raw state reward : pyval) (is_done : bool) (infos : list pyval) : pyval :=
  VTuple [VDict {[ "human" := raw ]}; state; reward; VBool is_done; VList infos].

(** The rest of a communicated tick once the control actions loop is
    left: store the action, send the 4-tuple, back up the step for
    rendering, reset the info list. *)
Definition respond (raw_state state reward : pyval) (is_done : bool)
    (r : loop_exit) : M Analyzer :=
  match r with
  | Returned a' => ret a'
  | Fallthrough a1 =>
      match message a1 ≫= (.!! "action") with
      | Some act =>
          let a2 := set_strategy
                      (set_last_action act (set_action act (strategy a1))) a1 in
          match last (info_list a2) with
          | None => raise IndexError
          | Some latest =>
              ctl_send (reply_tuple state reward is_done latest) ;;;
              finish is_done
                (set_info_list []
                   (set_step_to_render
                      (snapshot raw_state state reward is_done (info_list a2))
                      a2))
          end
      | None =>
          raise (AssertionError
                   ("No <action> key recieved:" +:+ nl +:+ "COMM recieved: "
                    +:+ repr (VDict (default ∅ (message a1)))))
      end
  end.

Definition next (a0 : Analyzer) : M Analyzer := fun w0 =>
  let is_done := _get_done (strategy a0) in
  let a := begin_tick a0 in
  let s := strategy a in
  if skip_frame s =? 0 then Raise ZeroDivisionError w0
  else if (iteration s mod skip_frame s =? 0) || is_done then
    (let raw_state := _get_raw_state s in
     let state := get_state s in
     let reward := get_reward s in
     m <- ctl_recv ;;
     r <- ctrl_loop (length (ctl_inbox w0)) (set_message m a) m ;;
     respond raw_state state reward is_done r) w0
  else finish is_done a w0.

(** ** [BTgymServer]: exchanges with the data provider *)

Record response : Type := mkResponse {
  status : string;
  r_message : pyval
}.

Definition set_data (waiting : bool) (e : list event) (w : World) : World :=
  mkWorld (ctl_owes w) (ctl_closed w) (ctl_inbox w) waiting (data_closed w)
          (S (exchanges w)) (draws w) (renderer w) (trace w ++ e).

(** [_comm_with_timeout(self.data_socket, msg)]: the socket is [zmq.REQ]
    with finite timeouts. Every [ZMQError] is caught and reported in
    [status]; a send while the previous reply is still outstanding, or on
    a closed socket, is such an error other than [EAGAIN]. *)
Definition _comm_with_timeout (msg : Msg) : M response := fun w =>
  if data_closed w || data_waiting w then
    Ok (mkResponse "send_failed_for_unknown_reason" VNone)
       (emit (DataFail "send_failed_for_unknown_reason") w)
  else
    match provider (exchanges w) with
    | SendTimeout =>
        Ok (mkResponse "send_failed_due_to_connect_timeout" VNone)
           (set_data false [DataFail "send_failed_due_to_connect_timeout"] w)
    | SendFault =>
        Ok (mkResponse "send_failed_for_unknown_reason" VNone)
           (set_data false [DataFail "send_failed_for_unknown_reason"] w)
    | RecvTimeout =>
        Ok (mkResponse "receive_failed_due_to_connect_timeout" VNone)
           (set_data true [DataSend msg;
                           DataFail "receive_failed_due_to_connect_timeout"] w)
    | RecvFault =>
        Ok (mkResponse "receive_failed_for_unknown_reason" VNone)
           (set_data true [DataSend msg;
                           DataFail "receive_failed_for_unknown_reason"] w)
    | Reply v =>
        Ok (mkResponse "ok" v) (set_data false [DataSend msg; DataRecv v] w)
    end.

(** Seconds to wait for the data provider ([self.wait_for_data_reset]),
    and the number of [2^-52]-second units in a second. *)
Definition wait_for_data_reset : Z := 300.
Definition second : Z := 2 ^ 52.

(** [pause = random.random() * 2; time.sleep(pause)]. *)
Definition sleep_random : M float := fun w =>
  let k := random_draw (draws w) in
  Ok (float_mul (random_float k) (float_of_int 2))
     (mkWorld (ctl_owes w) (ctl_closed w) (ctl_inbox w) (data_waiting w)
              (data_closed w) (exchanges w) (S (draws w)) (renderer w)
              (trace w ++ [Sleep k])).

(** The readiness test of [get_data]:
    [assert 'Dataset not ready' in data_server_response['message']['ctrl']]
    under [except (AssertionError, KeyError)]. *)
Inductive readiness : Type :=
| NotReady                 (* the assertion holds *)
| Break                    (* AssertionError or KeyError: leave the loop *)
| Fault (e : exn).         (* any other exception propagates *)

Definition check_ready (v : pyval) : readiness :=
  match v with
  | VDict d =>
      match d !! "ctrl" with
      | None => Break
      | Some (VStr c) => if str_in "Dataset not ready" c then NotReady else Break
      | Some (VList l) | Some (VTuple l) =>
          if existsb (fun x => eq_str x "Dataset not ready") l then NotReady else Break
      | Some (VDict d') => if has_key d' "Dataset not ready" then NotReady else Break
      | Some _ => Fault TypeError
      end
  | _ => Fault TypeError
  end.

Definition unreachable_msg (st : string) : string :=
  "BtgymServer_sampling_attempt: data_server unreachable with status: <"
  +:+ st +:+ ">.".

(** The two requests [get_data] sends to the data provider. *)
Definition data_request (reset_kwargs : Msg) : Msg :=
  {[ "ctrl" := VStr "_get_data"; "kwargs" := VDict reset_kwargs ]}.

Definition stop_msg : Msg := {[ "ctrl" := VStr "_stop" ]}.

Definition fatal : exn :=
  RuntimeError "Failed to assert Domain dataset is ready. Exiting.".

(** The [while True] loop of [get_data]; [wait] is the accumulated pause,
    a float from the first [wait += pause] on. *)
Fixpoint get_data_loop (n : nat) (reset_kwargs : Msg) (wait : float) : M response :=
  match n with
  | O => fun w => Diverge w
  | S n' =>
      resp <- _comm_with_timeout (data_request reset_kwargs) ;;
      if str_in (status resp) "ok" then
        match check_ready (r_message resp) with
        | NotReady =>
            if float_le wait (float_of_int wait_for_data_reset) then
              pause <- sleep_random ;;
              get_data_loop n' reset_kwargs (float_add wait pause)
            else
              _ <- _comm_with_timeout stop_msg ;;
              ctl_close ;;;
              ctx_destroy ;;;
              raise fatal
        | Break => ret resp
        | Fault e => raise e
        end
      else raise (ConnectionError (unreachable_msg (status resp)))
  end.

(** The data sample objects are external. A sample reaches the server
    pickled in a reply of the data provider, so [get_data] and [run] work
    on an object of their own, and what its methods do at their first
    call is given with the object: what [describe()], [reset()] and
    [set_logger(...)] return or raise, and the attribute [filename]. *)
Variable describe : nat -> exn + pyval.
Variable reset : nat -> exn + pyval.
Variable set_logger : nat -> exn + pyval.
Variable filename : nat -> exn + pyval.

Definition lift {A} (r : exn + A) : M A :=
  match r with
  | inl e => raise e
  | inr a => ret a
  end.

(** [v.name] or [v.name(...)]: the values of the built-in types have no
    attribute of the names used here. *)
Definition attr (name : string) (f : nat -> exn + pyval) (v : pyval) : M pyval :=
  match v with
  | VObj h => lift (f h)
  | _ => raise (AttributeError name)
  end.

Definition subscript (v : pyval) (k : string) : M pyval :=
  match v with
  | VDict d => match d !! k with
               | Some x => ret x
               | None => raise (KeyError k)
               end
  | _ => raise TypeError
  end.

(** [get_data], called with the keyword arguments [reset_kwargs], returns
    [trial_sample, trial_stat, dataset_stat]. *)
Definition get_data (n : nat) (reset_kwargs : Msg) : M (pyval * pyval * pyval) :=
  resp <- get_data_loop n reset_kwargs (float_of_int 0) ;;
  trial_sample <- subscript (r_message resp) "sample" ;;
  trial_stat <- attr "describe" describe trial_sample ;;
  attr "reset" reset trial_sample ;;;
  dataset_stat <- subscript (r_message resp) "stat" ;;
  ret (trial_sample, trial_stat, dataset_stat).

(** ** [BTgymServer]: construction and [run] *)

Record BTgymServer : Type := mkServer {
  task : Z;
  network_address : string;
  data_network_address : string;
  connect_timeout : Z       (* server connection timeout in seconds *)
}.

(** [__init__]: [connect_timeout] defaults to 90, [task] to 0. *)
Definition __init__ (network_address data_network_address : string)
    (connect_timeout : option Z) (task : option Z) : BTgymServer :=
  mkServer (default 0 task) network_address data_network_address
           (default 90 connect_timeout).

Definition setsockopt (data_side rcv : bool) (ms : Z) : M unit :=
  fun w => Ok tt (emit (SetOpt data_side rcv ms) w).

Definition attach (data_side : bool) (address : string) : M unit :=
  fun w => Ok tt (emit (Attach data_side address) w).

(** The start of [run]: both sockets are configured from the local
    [connect_timeout = 60], then the data provider is pinged. *)
Definition run_setup (self : BTgymServer) : M unit :=
  let connect_timeout := 60 in
  setsockopt false true (-1) ;;;
  setsockopt false false (connect_timeout * 1000) ;;;
  attach false (network_address self) ;;;
  setsockopt true true (connect_timeout * 1000) ;;;
  setsockopt true false (connect_timeout * 1000) ;;;
  attach true (data_network_address self) ;;;
  resp <- _comm_with_timeout {[ "ctrl" := VStr "ping!" ]} ;;
  if str_in (status resp) "ok" then ret tt
  else raise (ConnectionError
                ("Data_server unreachable with status: <" +:+ status resp +:+ ">.")).

(** How the control-mode loop is left. *)
Inductive ctl_exit : Type :=
| Stopped                          (* [_stop]: [run] returns *)
| Reset (service_input : Msg).     (* [_reset]: [break] into the episode *)

Definition usage_hint : pyval :=
  VDict {[ "ctrl" :=
    VStr "send control keys: <_reset>, <_getstat>, <_render>, <_stop>." ]}.

Definition no_ctrl_reply (service_input : Msg) : pyval :=
  VStr ("No <ctrl> key received:" +:+ "Control mode: received <"
        +:+ repr (VDict service_input) +:+ ">" +:+ nl
        +:+ "Hint: forgot to call reset()?").

(** The control-mode loop: [while True] around one receive. *)
Fixpoint control_loop (n : nat) (episode_result : Msg) : M ctl_exit :=
  match n with
  | O => fun w => Diverge w
  | S n' =>
      service_input <- ctl_recv ;;
      match service_input !! "ctrl" with
      | Some c =>
          if eq_str c "_stop" then
            ctl_send (VStr "Exiting.") ;;;
            ctl_close ;;;
            ctx_destroy ;;;
            ret Stopped
          else if eq_str c "_reset" then
            match service_input !! "kwargs" with
            | None => raise (KeyError "kwargs")
            | Some kw =>
                ctl_send (VStr ("Preparing new episode with kwargs: " +:+ repr kw)) ;;;
                ret (Reset service_input)
            end
          else if eq_str c "_getstat" then
            ctl_send (VDict episode_result) ;;;
            control_loop n' episode_result
          else if eq_str c "_render" && has_key service_input "mode" then
            img <- render_call (default VNone (service_input !! "mode")) VNone true ;;
            ctl_send img ;;;
            control_loop n' episode_result
          else
            ctl_send usage_hint ;;;
            control_loop n' episode_result
      | None =>
          ctl_send (no_ctrl_reply service_input) ;;;
          control_loop n' episode_result
      end
  end.

(** Control mode: the loop takes one request per round, so one round more
    than there are pending requests is never used up. *)
Definition control_mode (episode_result : Msg) : M ctl_exit := fun w =>
  control_loop (S (length (ctl_inbox w))) episode_result w.

(** [DataSampleConfig] comes from the [datafeed] module: the default
    sampling configuration, a dict with string keys. *)
Variable DataSampleConfig : Msg.

(** [list(d)] for a dict [d]: its keys in the order of iteration, which
    the finite map does not record. *)
Variable keys_in_order : Msg -> list string.

(** A dict whose keys need not be strings: its items under string keys,
    and whether it has a key that is no string. *)
Record pydict : Type := mkDict {
  str_items : Msg;
  other_keys : bool
}.

(** The elements iterating [v] yields; [None], numbers and objects are
    not iterable. *)
Definition sequence (v : pyval) : exn + list pyval :=
  match v with
  | VList l | VTuple l => inr l
  | VStr s => inr (chars s)
  | VDict d => inr (VStr <$> keys_in_order d)
  | VNone | VBool _ | VInt _ | VObj _ => inl TypeError
  end.

(** An element of a dictionary update sequence: it must be iterable
    ([TypeError]) and of length 2 ([ValueError]). *)
Definition as_pair (item : pyval) : exn + (pyval * pyval) :=
  match sequence item with
  | inl e => inl e
  | inr [k; v] => inr (k, v)
  | inr _ => inl ValueError
  end.

(** [c[k] = v]: the key must be hashable. *)
Definition set_item (c : pydict) (k v : pyval) : exn + pydict :=
  match k with
  | VStr s => inr (mkDict (<[s := v]> (str_items c)) (other_keys c))
  | _ => if hashable k then inr (mkDict (str_items c) true) else inl TypeError
  end.

(** [c.update(items)] for a sequence of key/value pairs, element by
    element. *)
Fixpoint merge_seq (c : pydict) (items : list pyval) : exn + pydict :=
  match items with
  | [] => inr c
  | item :: rest =>
      match as_pair item with
      | inl e => inl e
      | inr (k, v) =>
          match set_item c k v with
          | inl e => inl e
          | inr c' => merge_seq c' rest
          end
      end
  end.

(** [c.update(x)]: a dict is merged into [c], its items winning; any
    other value is taken as an iterable of key/value pairs. *)
Definition dict_update (c : pydict) (x : pyval) : exn + pydict :=
  match x with
  | VDict d => inr (mkDict (d ∪ str_items c) (other_keys c))
  | _ => match sequence x with
         | inl e => inl e
         | inr items => merge_seq c items
         end
  end.

(** One round of [config.update(service_input['kwargs'][key])] under
    [except KeyError], on [config = copy.deepcopy(DataSampleConfig)]:
    a missing [kwargs] or [key] leaves the default; [kwargs] must be a
    dict to be subscripted by a string. *)
Definition update_config (service_input : Msg) (key : string) : exn + pydict :=
  let config := mkDict DataSampleConfig false in
  match service_input !! "kwargs" with
  | None => inr config
  | Some (VDict kw) =>
      match kw !! key with
      | None => inr config
      | Some x => dict_update config x
      end
  | Some _ => inl TypeError
  end.

(** [self.get_data] called with the dict unpacked into keyword
    arguments: keywords must be strings. *)
Definition call_get_data (n : nat) (kwargs : pydict) : M (pyval * pyval * pyval) :=
  if other_keys kwargs then raise TypeError
  else get_data n (str_items kwargs).

(** The branch of [run] that requests a new trial sample. *)
Definition fetch_trial (n : nat) (trial_config : pydict) : M (pyval * pyval * pyval) :=
  r <- call_get_data n trial_config ;;
  attr "set_logger" set_logger r.1.1 ;;;
  attr "filename" filename r.1.1 ;;;
  ret r.

(** Data preparation after [_reset], up to the point where the trial
    sample is settled: both configurations are parsed, then the trial
    sample is requested from the data provider or the one at hand is
    reused. The arguments and the result are the values of
    [trial_sample, trial_stat, dataset_stat], which are [None] until the
    first trial has been fetched. *)
Definition resolve_trial (n : nat) (service_input : Msg)
    (trial_sample trial_stat dataset_stat : pyval) : M (pyval * pyval * pyval) :=
  episode_config <- lift (update_config service_input "episode_config") ;;
  trial_config <- lift (update_config service_input "trial_config") ;;
  match str_items trial_config !! "get_new" with
  | None => raise (KeyError "get_new")
  | Some get_new =>
      if truthy get_new || is_none trial_sample then
        fetch_trial n trial_config
      else
        attr "filename" filename trial_sample ;;;
        ret (trial_sample, trial_stat, dataset_stat)
  end.

(** ** Observations and auxiliary definitions

    What the statements below observe of an outcome, and the worlds and
    replies they name. *)

Definition world_of {A} (r : result A) : World :=
  match r with
  | Ok _ w | Raise _ w | Block w | Diverge w => w
  end.

(** The loop bound of the model was hit. *)
Definition diverges {A} (r : result A) : Prop :=
  match r with
  | Diverge _ => True
  | _ => False
  end.

(** The replies sent to the controller, in order. *)
Definition replies (t : list event) : list pyval :=
  omap (fun e => match e with CtlSend p => Some p | _ => None end) t.

(** The requests sent to the data provider, in order. *)
Definition data_requests (t : list event) : list Msg :=
  omap (fun e => match e with DataSend m => Some m | _ => None end) t.

(** The controller socket is open and owes no reply: a tick, and a round
    of the control-mode loop, start in this state. *)
Definition idle (w : World) : Prop :=
  ctl_closed w = false /\ ctl_owes w = false.

Definition set_inbox (l : list Msg) (w : World) : World :=
  mkWorld (ctl_owes w) (ctl_closed w) l (data_waiting w) (data_closed w)
          (exchanges w) (draws w) (renderer w) (trace w).

(** The world after a request [m] was received in an idle state. *)
Definition received (m : Msg) (rest : list Msg) (w : World) : World :=
  mkWorld true (ctl_closed w) rest (data_waiting w) (data_closed w)
          (exchanges w) (draws w) (renderer w) (trace w ++ [CtlRecv m]).

(** The world after a reply [p] was sent. *)
Definition replied (p : pyval) (w : World) : World :=
  mkWorld false (ctl_closed w) (ctl_inbox w) (data_waiting w) (data_closed w)
          (exchanges w) (draws w) (renderer w) (trace w ++ [CtlSend p]).

(** The world after the renderer was called. *)
Definition rendered (mode snap : pyval) (flag : bool) (w : World) : World :=
  mkWorld (ctl_owes w) (ctl_closed w) (ctl_inbox w) (data_waiting w)
          (data_closed w) (exchanges w) (draws w)
          (snd (render_fn (renderer w) mode snap flag))
          (trace w ++ [Rendered mode flag]).

Definition image (mode snap : pyval) (flag : bool) (w : World) : pyval :=
  fst (render_fn (renderer w) mode snap flag).

Definition extends (w w' : World) : Prop :=
  exists l, trace w' = trace w ++ l.

Definition mono {A} (c : M A) : Prop :=
  forall w, extends w (world_of (c w)).

(** A render request as the controller sends it in episode mode:
    [{ctrl: '_render', mode: ...}]. *)
Definition is_render (m : Msg) : Prop :=
  m !! "ctrl" = Some (VStr "_render") /\ is_Some (m !! "mode").

Definition mode_of (m : Msg) : pyval := default VNone (m !! "mode").

(** "Halt and wait": a receive followed by the control actions loop. *)
Definition await (n : nat) (a : Analyzer) : M loop_exit :=
  m <- ctl_recv ;; ctrl_loop n (set_message m a) m.

(** The world after a render request [r] was received and answered. *)
Definition answer_render (snap : pyval) (r : Msg) (rest : list Msg) (w : World) : World :=
  let w1 := received r rest w in
  replied (image (mode_of r) snap true w1) (rendered (mode_of r) snap true w1).

Fixpoint render_phase (snap : pyval) (rs tail : list Msg) (w : World) : World :=
  match rs with
  | [] => w
  | r :: rs' => render_phase snap rs' tail (answer_render snap r (rs' ++ tail) w)
  end.

(** The renderings sent back for a run of render requests. *)
Fixpoint render_replies (snap : pyval) (rs : list Msg) (rho : Renderer) : list pyval :=
  match rs with
  | [] => []
  | r :: rs' =>
      fst (render_fn rho (mode_of r) snap true)
      :: render_replies snap rs' (snd (render_fn rho (mode_of r) snap true))
  end.

(** The 4-tuple of the tick: state and reward are taken behind the gate,
    the termination flag and the info record at the start of the tick. *)
Definition tick_tuple (a : Analyzer) : pyval :=
  reply_tuple (get_state (strategy (begin_tick a)))
              (get_reward (strategy (begin_tick a)))
              (_get_done (strategy a))
              (get_info (strategy a)).

(** The analyzer once the action [act] of message [m] is stored and the
    4-tuple is sent. *)
Definition acted (a : Analyzer) (m : Msg) (act : pyval) : Analyzer :=
  let b := begin_tick a in
  let a2 := set_strategy (set_last_action act (set_action act (strategy b)))
                         (set_message m b) in
  set_info_list []
    (set_step_to_render
       (snapshot (_get_raw_state (strategy b)) (get_state (strategy b))
                 (get_reward (strategy b)) (_get_done (strategy a))
                 (info_list a ++ [get_info (strategy a)]))
       a2).

Definition stopped (a : Analyzer) : Analyzer :=
  set_strategy
    (set_engine (runstop (close_position (engine (strategy a)))) (strategy a)) a.

Definition finished (d : bool) (a : Analyzer) : Analyzer :=
  housekeeping (if d then stopped a else a).

Definition finish_world (d : bool) (a : Analyzer) (w : World) : World :=
  if d then rendered (VList (VStr <$> render_at_stop a)) (step_to_render a) false w
  else w.

(** The requests answered in place: every [ctrl] value but [_stop] and
    [_reset], and every message without [ctrl]. *)
Definition in_place (m : Msg) : Prop :=
  match m !! "ctrl" with
  | Some c => eq_str c "_stop" = false /\ eq_str c "_reset" = false
  | None => True
  end.

(** The reply to a request answered in place, and the renderer after it. *)
Definition in_place_reply (episode_result : Msg) (m : Msg) (rho : Renderer)
    : pyval * Renderer :=
  match m !! "ctrl" with
  | Some c =>
      if eq_str c "_getstat" then (VDict episode_result, rho)
      else if eq_str c "_render" && has_key m "mode"
           then render_fn rho (mode_of m) VNone true
           else (usage_hint, rho)
  | None => (no_ctrl_reply m, rho)
  end.

(** The requests and replies on the controller channel, in order. *)
Definition ctl_events (t : list event) : list event :=
  omap (fun e => match e with CtlRecv _ | CtlSend _ => Some e | _ => None end) t.

Fixpoint dialogue (episode_result : Msg) (ms : list Msg) (rho : Renderer) : list event :=
  match ms with
  | [] => []
  | m :: ms' =>
      CtlRecv m :: CtlSend (in_place_reply episode_result m rho).1
      :: dialogue episode_result ms' (in_place_reply episode_result m rho).2
  end.

(** The world after [m] was received and answered in place. *)
Definition answer_in_place (episode_result : Msg) (m : Msg) (rest : list Msg)
    (w : World) : World :=
  let w1 := received m rest w in
  match m !! "ctrl" with
  | Some c =>
      if eq_str c "_getstat" then replied (VDict episode_result) w1
      else if eq_str c "_render" && has_key m "mode"
           then replied (image (mode_of m) VNone true w1)
                        (rendered (mode_of m) VNone true w1)
           else replied usage_hint w1
  | None => replied (no_ctrl_reply m) w1
  end.

Fixpoint serve (episode_result : Msg) (ms tail : list Msg) (w : World) : World :=
  match ms with
  | [] => w
  | m :: ms' =>
      serve episode_result ms' tail (answer_in_place episode_result m (ms' ++ tail) w)
  end.

(** The pauses slept, in order. *)
Definition sleeps (t : list event) : list Z :=
  omap (fun e => match e with Sleep p => Some p | _ => None end) t.

(** The pause made of the [j]-th draw of the generator. *)
Definition pause_of_draw (j : nat) : float :=
  float_mul (random_float (random_draw j)) (float_of_int 2).

(** The accumulated wait after [k] more pauses, drawn from the [j]-th on. *)
Fixpoint waited (wait : float) (j k : nat) : float :=
  match k with
  | O => wait
  | S k' => waited (float_add wait (pause_of_draw j)) (S j) k'
  end.

(** The data socket is open with no reply outstanding. *)
Definition data_idle (w : World) : Prop :=
  data_closed w = false /\ data_waiting w = false.

(** Every exchange succeeds and every reply carries the marker. *)
Definition never_ready : Prop :=
  forall i, exists v, provider i = Reply v /\ check_ready v = NotReady.

(** Every draw of the generator is a positive multiple of [2^-53]
    below 1, so every pause lies strictly between 0 and 2 seconds. *)
Definition positive_draws : Prop :=
  forall j, 0 < random_draw j < 2 * second.

(** The world after a "not ready" exchange and the pause that follows. *)
Definition paused (kw : Msg) (v : pyval) (w : World) : World :=
  mkWorld (ctl_owes w) (ctl_closed w) (ctl_inbox w) false (data_closed w)
          (S (exchanges w)) (S (draws w)) (renderer w)
          (trace w ++ [DataSend (data_request kw); DataRecv v;
                       Sleep (random_draw (draws w))]).

(** The world after the last exchange, the [_stop] exchange and the
    release of the controller channel. *)
Definition gave_up (kw : Msg) (v v2 : pyval) (w : World) : World :=
  mkWorld (ctl_owes w) true (ctl_inbox w) false (data_closed w)
          (S (S (exchanges w))) (draws w) (renderer w)
          (trace w ++ [DataSend (data_request kw); DataRecv v;
                       DataSend stop_msg; DataRecv v2; CtlClose; CtlDestroy]).

(** What comes after the exchange in one round of the loop. *)
Definition after_exchange (n : nat) (kw : Msg) (wait : float) (resp : response) : M response :=
  if str_in (status resp) "ok" then
    match check_ready (r_message resp) with
    | NotReady =>
        if float_le wait (float_of_int wait_for_data_reset) then
          pause <- sleep_random ;;
          get_data_loop n kw (float_add wait pause)
        else
          _ <- _comm_with_timeout stop_msg ;;
          ctl_close ;;;
          ctx_destroy ;;;
          raise fatal
    | Break => ret resp
    | Fault e => raise e
    end
  else raise (ConnectionError (unreachable_msg (status resp))).

(** The events of an exchange on the data socket. *)
Definition is_data_event (e : event) : Prop :=
  match e with
  | DataSend _ | DataFail _ => True
  | _ => False
  end.

(** Two runs agree up to the [get_new] entry of the [kwargs] carried by
    the data requests. *)
Definition without_get_new (m : Msg) : Msg :=
  match m !! "kwargs" with
  | Some (VDict kw) => <["kwargs" := VDict (delete "get_new" kw)]> m
  | _ => m
  end.

Definition erase_get_new (e : event) : event :=
  match e with
  | DataSend m => DataSend (without_get_new m)
  | _ => e
  end.

Definition sim (w1 w2 : World) : Prop :=
  ctl_owes w1 = ctl_owes w2 /\ ctl_closed w1 = ctl_closed w2 /\
  ctl_inbox w1 = ctl_inbox w2 /\ data_waiting w1 = data_waiting w2 /\
  data_closed w1 = data_closed w2 /\ exchanges w1 = exchanges w2 /\
  draws w1 = draws w2 /\ renderer w1 = renderer w2 /\
  erase_get_new <$> trace w1 = erase_get_new <$> trace w2.

Definition rsim {A} (r1 r2 : result A) : Prop :=
  match r1, r2 with
  | Ok a w1, Ok b w2 => a = b /\ sim w1 w2
  | Raise e w1, Raise e' w2 => e = e' /\ sim w1 w2
  | Block w1, Block w2 => sim w1 w2
  | Diverge w1, Diverge w2 => sim w1 w2
  | _, _ => False
  end.

(** [c] after [c.update(u)] for two dicts. *)
Definition over (u c : pydict) : pydict :=
  mkDict (str_items u ∪ str_items c) (other_keys u || other_keys c).

(** The empty dict. *)
Definition no_items : pydict := mkDict ∅ false.

(** ** The rest of the hook and of [run]

    [_BTgymAnalyzer.__init__], the collection of the episode results at
    the end of [run], and the start of [run] up to the first exit from
    control mode. *)

(** [l.remove(x)]: the first occurrence goes; [None] is [ValueError]. *)
Fixpoint remove_first (x : string) (l : list string) : option (list string) :=
  match l with
  | [] => None
  | y :: l' =>
      if String.eqb y x then Some l'
      else match remove_first x l' with
           | Some r => Some (y :: r)
           | None => None
           end
  end.

(** [_BTgymAnalyzer.__init__]: the modes to render at the end of the
    episode are a copy of the renderer's modes without ['episode'] (a
    failing [remove] is passed over); no message, no step to render, an
    empty info list. *)
Definition analyzer_init (render_modes : list string) (s : Strategy) : Analyzer :=
  mkAnalyzer None VNone
             (default render_modes (remove_first "episode" render_modes))
             [] s.

(** [episode.analyzers.getbyname(name).get_analysis()] is external. *)
Variable get_analysis : string -> pyval.

(** The end of an episode in [run]: the names of the episode's analyzers
    without ['_env_analyzer'], then the entries [episode], [runtime],
    [length] and one entry per remaining analyzer are written into the
    [episode_result] dict, which is the same object over the whole
    session. *)
Definition collect_results (episode_result : Msg) (episode_number : Z)
    (elapsed_time data_length : pyval) (names : list string) : exn + Msg :=
  match remove_first "_env_analyzer" names with
  | None => inl ValueError
  | Some analyzers_list =>
      inr (foldl (fun r name => <[name := get_analysis name]> r)
                 (<["length" := data_length]>
                    (<["runtime" := elapsed_time]>
                       (<["episode" := VInt episode_number]> episode_result)))
                 analyzers_list)
  end.

(** [run] from its start to the first exit from control mode:
    [episode_result] is the empty dict. Logging, the initialisation of
    the renderer and the choice of the auxiliary observers lie between
    the ping and the loop; they use neither socket and are left out. *)
Definition run_start (self : BTgymServer) : M ctl_exit :=
  run_setup self ;;;
  control_mode ∅.

(** What a computation may not touch: the data socket, the generator and
    the events of the data side. *)
Definition data_events (t : list event) : list event :=
  omap (fun e => match e with
                 | DataSend _ | DataRecv _ | DataFail _ | Sleep _ => Some e
                 | _ => None
                 end) t.

Definition data_side (w : World) : bool * bool * nat * nat * list event :=
  (data_waiting w, data_closed w, exchanges w, draws w, data_events (trace w)).

(** The controller side, likewise. *)
Definition ctl_side (w : World) : bool * bool * list Msg * list event :=
  (ctl_owes w, ctl_closed w, ctl_inbox w, ctl_events (trace w)).

(** A computation leaves the observation [f] of the world as it is. *)
Definition keeps {B A} (f : World -> B) (c : M A) : Prop :=
  forall w, f (world_of (c w)) = f w.

(** The part of the world the hook has no business with. *)
Definition beyond_hook (w : World) : (bool * bool * nat * nat * list event) * bool :=
  (data_side w, ctl_closed w).

(** What the engine does to the strategy between two calls of the hook. *)
Variable advance : Strategy -> Strategy.

(** [k] consecutive ticks: the engine calls [next] once per tick. *)
Fixpoint run_ticks (k : nat) (a : Analyzer) : M Analyzer :=
  match k with
  | O => ret a
  | S k' =>
      a' <- next a ;;
      run_ticks k' (set_strategy (advance (strategy a')) a')
  end.

(** The world after the sockets are set up and the ping was answered. *)
Definition set_up (self : BTgymServer) (v : pyval) (w : World) : World :=
  set_data false [DataSend {[ "ctrl" := VStr "ping!" ]}; DataRecv v]
    (emit (Attach true (data_network_address self))
       (emit (SetOpt true false 60000)
          (emit (SetOpt true true 60000)
             (emit (Attach false (network_address self))
                (emit (SetOpt false false 60000)
                   (emit (SetOpt false true (-1)) w)))))).

(** * Properties *)

(** ** Basic facts on the socket operations *)

Lemma ctl_recv_idle (w : World) (m : Msg) (rest : list Msg) :
  idle w -> ctl_inbox w = m :: rest ->
  ctl_recv w = Ok m (received m rest w).
Proof.
  intros [Hc Ho] Hi. unfold ctl_recv, received. now rewrite Hc, Ho, Hi.
Qed.

Lemma ctl_recv_empty (w : World) :
  idle w -> ctl_inbox w = [] -> ctl_recv w = Block w.
Proof.
  intros [Hc Ho] Hi. unfold ctl_recv. now rewrite Hc, Ho, Hi.
Qed.

Lemma ctl_recv_owing (w : World) :
  ctl_closed w = false -> ctl_owes w = true -> ctl_recv w = Raise ZMQError_EFSM w.
Proof.
  intros Hc Ho. unfold ctl_recv. now rewrite Hc, Ho.
Qed.

Lemma ctl_send_owing (p : pyval) (w : World) :
  ctl_closed w = false -> ctl_owes w = true ->
  ctl_send p w = Ok tt (replied p w).
Proof.
  intros Hc Ho. unfold ctl_send, replied. now rewrite Hc, Ho.
Qed.

Lemma render_call_eq (mode snap : pyval) (flag : bool) (w : World) :
  render_call mode snap flag w = Ok (image mode snap flag w) (rendered mode snap flag w).
Proof.
  unfold render_call, image, rendered.
  now destruct (render_fn (renderer w) mode snap flag).
Qed.

Lemma early_stop_eq (a : Analyzer) (w : World) :
  early_stop a w =
  Ok (set_strategy
        (set_engine (runstop (close_position (engine (strategy a)))) (strategy a)) a)
     (rendered (VList (VStr <$> render_at_stop a)) (step_to_render a) false w).
Proof.
  unfold early_stop, bind. now rewrite render_call_eq.
Qed.

Lemma eq_str_true (v : pyval) (s : string) : eq_str v s = true -> v = VStr s.
Proof.
  destruct v; simpl; try discriminate.
  intros H. apply String.eqb_eq in H. now subst.
Qed.

(** ** Computations only append to the trace *)

Lemma extends_refl (w : World) : extends w w.
Proof. exists []. now rewrite app_nil_r. Qed.

Lemma extends_trans (w1 w2 w3 : World) :
  extends w1 w2 -> extends w2 w3 -> extends w1 w3.
Proof.
  intros [l1 H1] [l2 H2]. exists (l1 ++ l2).
  now rewrite H2, H1, app_assoc.
Qed.

Lemma mono_ret {A} (a : A) : mono (ret a).
Proof. intros w. apply extends_refl. Qed.

Lemma mono_raise {A} (e : exn) : mono (@raise A e).
Proof. intros w. apply extends_refl. Qed.

Lemma mono_bind {A B} (c : M A) (k : A -> M B) :
  mono c -> (forall a, mono (k a)) -> mono (bind c k).
Proof.
  intros Hc Hk w. unfold bind. specialize (Hc w).
  destruct (c w) as [a w'|e w'|w'|w']; simpl in *; try assumption.
  eapply extends_trans; [exact Hc | apply Hk].
Qed.

Lemma mono_ctl_recv : mono ctl_recv.
Proof.
  intros w. unfold ctl_recv.
  destruct (ctl_closed w); [apply extends_refl|].
  destruct (ctl_owes w); [apply extends_refl|].
  destruct (ctl_inbox w); [apply extends_refl|].
  now eexists.
Qed.

Lemma mono_ctl_send (p : pyval) : mono (ctl_send p).
Proof.
  intros w. unfold ctl_send.
  destruct (ctl_closed w); [apply extends_refl|].
  destruct (ctl_owes w); [|apply extends_refl].
  now eexists.
Qed.

Lemma mono_render_call (mode snap : pyval) (flag : bool) :
  mono (render_call mode snap flag).
Proof. intros w. rewrite render_call_eq. now eexists. Qed.

Lemma mono_early_stop (a : Analyzer) : mono (early_stop a).
Proof. intros w. rewrite early_stop_eq. now eexists. Qed.

Lemma mono_finish (d : bool) (a : Analyzer) : mono (finish d a).
Proof.
  unfold finish. apply mono_bind.
  - destruct d; [apply mono_early_stop | apply mono_ret].
  - intros a'. apply mono_ret.
Qed.

Lemma mono_ctrl_loop (n : nat) : forall a m, mono (ctrl_loop n a m).
Proof.
  induction n as [|n IH]; intros a m; simpl.
  - destruct (m !! "ctrl"); [|apply mono_ret]. intros w. apply extends_refl.
  - destruct (m !! "ctrl") as [c|]; [|apply mono_ret].
    apply mono_bind.
    + destruct (eq_str c "_render"); [|apply mono_ret].
      destruct (m !! "mode"); [|apply mono_raise].
      apply mono_bind; [apply mono_render_call | intros; apply mono_ctl_send].
    + intros _. destruct (eq_str c "_done").
      * apply mono_bind; [apply mono_ctl_send|]. intros _.
        apply mono_bind; [apply mono_early_stop | intros; apply mono_ret].
      * apply mono_bind; [apply mono_ctl_recv | intros; apply IH].
Qed.

Lemma mono_respond (raw state reward : pyval) (is_done : bool) (r : loop_exit) :
  mono (respond raw state reward is_done r).
Proof.
  destruct r as [a'|a1]; simpl; [apply mono_ret|].
  destruct (message a1 ≫= _); [|apply mono_raise].
  cbv zeta. destruct (last _); [|apply mono_raise].
  apply mono_bind; [apply mono_ctl_send | intros; apply mono_finish].
Qed.

(** ** Render requests inside a tick *)

Lemma render_phase_idle snap rs : forall tail w,
  idle w -> idle (render_phase snap rs tail w).
Proof.
  induction rs as [|r rs IH]; intros tail w Hw; simpl; [assumption|].
  apply IH. destruct Hw as [Hc Ho]. split; simpl; [assumption|reflexivity].
Qed.

Lemma render_phase_inbox snap rs : forall tail w,
  ctl_inbox w = rs ++ tail -> ctl_inbox (render_phase snap rs tail w) = tail.
Proof.
  induction rs as [|r rs IH]; intros tail w Hw; simpl; [assumption|].
  now apply IH.
Qed.

Lemma render_phase_replies snap rs : forall tail w,
  replies (trace (render_phase snap rs tail w)) =
  replies (trace w) ++ render_replies snap rs (renderer w).
Proof.
  induction rs as [|r rs IH]; intros tail w; simpl.
  - now rewrite app_nil_r.
  - rewrite IH. simpl. unfold replies, image.
    rewrite !omap_app. simpl. now rewrite !app_nil_r, <- app_assoc.
Qed.

Lemma render_phase_extends snap rs : forall tail w,
  extends w (render_phase snap rs tail w).
Proof.
  induction rs as [|r rs IH]; intros tail w; simpl; [apply extends_refl|].
  eapply extends_trans; [|apply IH].
  exists [CtlRecv r; Rendered (mode_of r) true;
          CtlSend (image (mode_of r) snap true (received r (rs ++ tail) w))].
  simpl. now rewrite <- !app_assoc.
Qed.

(** One render request: answered, and the loop waits again with one round
    less; nothing of the analyzer but [message] is touched. *)
Lemma await_render (n : nat) (a : Analyzer) (r : Msg) (rest : list Msg) (w : World) :
  is_render r -> idle w -> ctl_inbox w = r :: rest ->
  await (S n) a w = await n a (answer_render (step_to_render a) r rest w).
Proof.
  intros [Hc [mode Hm]] Hidle Hi. unfold await at 1, bind.
  rewrite (ctl_recv_idle w r rest Hidle Hi).
  simpl ctrl_loop. rewrite Hc, Hm. simpl eq_str. unfold bind.
  rewrite render_call_eq.
  rewrite ctl_send_owing; [|simpl; apply Hidle|reflexivity].
  unfold answer_render, mode_of. rewrite Hm. reflexivity.
Qed.

Lemma await_renders (rs : list Msg) : forall n a tail w,
  Forall is_render rs -> idle w -> ctl_inbox w = rs ++ tail ->
  await (length rs + n) a w = await n a (render_phase (step_to_render a) rs tail w).
Proof.
  induction rs as [|r rs IH]; intros n a tail w Hrs Hidle Hi; [reflexivity|].
  inversion Hrs as [|? ? Hr Hrs']; subst. simpl.
  rewrite (await_render _ a r (rs ++ tail) w Hr Hidle Hi).
  apply IH; [assumption| |reflexivity].
  destruct Hidle. split; simpl; [assumption|reflexivity].
Qed.

(** ** A communicated tick *)

Lemma bind_assoc {A B C} (c : M A) (k : A -> M B) (k' : B -> M C) (w : World) :
  bind c (fun a => bind (k a) k') w = bind (bind c k) k' w.
Proof. unfold bind. now destruct (c w). Qed.

(** [next] behind an open gate, in terms of [await]. *)
Lemma next_open (a : Analyzer) (w : World) :
  skip_frame (strategy a) <> 0 -> gate (strategy a) = true ->
  next a w =
  bind (await (length (ctl_inbox w)) (begin_tick a))
       (respond (_get_raw_state (strategy (begin_tick a)))
                (get_state (strategy (begin_tick a)))
                (get_reward (strategy (begin_tick a)))
                (_get_done (strategy a))) w.
Proof.
  intros Hsk Hg. unfold next, gate in *.
  replace (skip_frame (strategy (begin_tick a)) =? 0) with false
    by (symmetry; simpl; now apply Z.eqb_neq).
  simpl iteration. simpl skip_frame. rewrite Hg.
  cbv zeta. unfold await. now rewrite <- bind_assoc.
Qed.

Lemma finish_eq (d : bool) (a : Analyzer) (w : World) :
  finish d a w = Ok (finished d a) (finish_world d a w).
Proof.
  unfold finish, finished, finish_world, bind. destruct d; [|reflexivity].
  now rewrite early_stop_eq.
Qed.

Lemma finished_step (d : bool) (a : Analyzer) :
  step_to_render (finished d a) = step_to_render a.
Proof. now destruct d. Qed.

Lemma finished_info (d : bool) (a : Analyzer) :
  info_list (finished d a) = info_list a.
Proof. now destruct d. Qed.

Lemma replies_finish_world (d : bool) (a : Analyzer) (w : World) :
  replies (trace (finish_world d a w)) = replies (trace w).
Proof.
  destruct d; [|reflexivity]. simpl. unfold replies.
  rewrite omap_app. simpl. now rewrite app_nil_r.
Qed.

(** A communicated tick in which the controller sends the render requests
    [rs] and then the action message [m]. *)
Lemma next_action_tick (a : Analyzer) (w : World) (rs : list Msg) (m : Msg)
    (rest : list Msg) (act : pyval) :
  skip_frame (strategy a) <> 0 -> gate (strategy a) = true -> idle w ->
  ctl_inbox w = rs ++ m :: rest -> Forall is_render rs ->
  m !! "ctrl" = None -> m !! "action" = Some act ->
  next a w =
  Ok (finished (_get_done (strategy a)) (acted a m act))
     (finish_world (_get_done (strategy a)) (acted a m act)
        (replied (tick_tuple a)
           (received m rest (render_phase (step_to_render a) rs (m :: rest) w)))).
Proof.
  intros Hsk Hg Hidle Hi Hrs Hc Ha.
  rewrite next_open by assumption.
  rewrite Hi, length_app. unfold bind at 1.
  rewrite (await_renders rs _ _ (m :: rest) w Hrs Hidle Hi).
  simpl step_to_render.
  pose proof (render_phase_idle (step_to_render a) rs (m :: rest) w Hidle) as Hidle'.
  pose proof (render_phase_inbox (step_to_render a) rs (m :: rest) w Hi) as Hi'.
  unfold await, bind at 1.
  rewrite (ctl_recv_idle _ m rest Hidle' Hi').
  simpl ctrl_loop. rewrite Hc. unfold ret at 1.
  unfold respond.
  change (message (set_message m (begin_tick a)) ≫= lookup "action")
    with (m !! "action").
  rewrite Ha.
  cbv zeta.
  change (info_list (set_strategy _ (set_message m (begin_tick a))))
    with (info_list a ++ [get_info (strategy a)]).
  rewrite last_snoc.
  unfold bind at 1. rewrite ctl_send_owing; [|apply Hidle'|reflexivity].
  rewrite finish_eq. reflexivity.
Qed.

(** ** C2: the info field of the reply *)

(** C2 (as the code has it). On a communicated tick answered with the
    4-tuple, the [info] field is the one-element list holding the record
    of this very tick, the last of the accumulated batch; the whole batch
    (the records kept since the last reply, and this tick's) goes into
    the step backed up for rendering, and the internal batch is empty
    after the reply. *)
Theorem C2_info_is_latest_record (a : Analyzer) (w : World) (m : Msg)
    (rest : list Msg) (act : pyval) :
  skip_frame (strategy a) <> 0 -> gate (strategy a) = true -> idle w ->
  ctl_inbox w = m :: rest ->
  m !! "ctrl" = None -> m !! "action" = Some act ->
  exists a' w' state reward raw,
    next a w = Ok a' w' /\
    replies (trace w') =
      replies (trace w) ++
      [VTuple [state; reward; VBool (_get_done (strategy a));
               VList [get_info (strategy a)]]] /\
    step_to_render a' =
      VTuple [VDict {[ "human" := raw ]}; state; reward;
              VBool (_get_done (strategy a));
              VList (info_list a ++ [get_info (strategy a)])] /\
    info_list a' = [].
Proof.
  intros Hsk Hg Hidle Hi Hc Ha.
  eexists _, _, _, _, _. split.
  - apply (next_action_tick a w [] m rest act); try assumption. constructor.
  - split; [|split].
    + rewrite replies_finish_world. simpl. unfold replies.
      rewrite !omap_app. simpl. rewrite !app_nil_r. reflexivity.
    + rewrite finished_step. reflexivity.
    + rewrite finished_info. reflexivity.
Qed.

(** On a free-running tick the record of the tick is appended to the
    batch and nothing is cleared. *)
Lemma free_tick_accumulates (a : Analyzer) (w : World) :
  skip_frame (strategy a) <> 0 -> gate (strategy a) = false ->
  exists a', next a w = Ok a' w /\
             info_list a' = info_list a ++ [get_info (strategy a)].
Proof.
  intros Hsk Hg. exists (housekeeping (begin_tick a)). split; [|reflexivity].
  unfold next, gate in *.
  replace (skip_frame (strategy (begin_tick a)) =? 0) with false
    by (symmetry; simpl; now apply Z.eqb_neq).
  simpl in *. rewrite Hg. apply orb_false_iff in Hg as [_ ->]. reflexivity.
Qed.

(** ** C3: render requests do not take the agent's turn *)

(** C3. In a communicated tick, every render request received before the
    action message is answered with a rendering, one reply each, and
    changes nothing the tick depends on: with any number of render
    requests in front, the action message is answered with the same
    4-tuple, and the hook ends in the same state (pending and last
    action, tick counter, backed-up step, info batch), as without them. *)
Theorem C3_render_keeps_turn (a : Analyzer) (w : World) (rs : list Msg)
    (m : Msg) (rest : list Msg) (act : pyval) :
  skip_frame (strategy a) <> 0 -> gate (strategy a) = true -> idle w ->
  Forall is_render rs ->
  m !! "ctrl" = None -> m !! "action" = Some act ->
  exists a' w1 w2,
    next a (set_inbox (rs ++ m :: rest) w) = Ok a' w1 /\
    next a (set_inbox (m :: rest) w) = Ok a' w2 /\
    replies (trace w1) =
      replies (trace w) ++
      render_replies (step_to_render a) rs (renderer w) ++ [tick_tuple a] /\
    replies (trace w2) = replies (trace w) ++ [tick_tuple a] /\
    action (strategy a') = act /\
    last_action (strategy a') = act /\
    iteration (strategy a') = iteration (strategy a) + 1.
Proof.
  intros Hsk Hg Hidle Hrs Hc Ha.
  eexists _, _, _. split; [|split].
  - apply (next_action_tick a _ rs m rest act); try assumption; reflexivity.
  - apply (next_action_tick a _ [] m rest act); try assumption;
      [reflexivity | constructor].
  - repeat split.
    + rewrite replies_finish_world. simpl trace. unfold replies at 1.
      rewrite !omap_app. fold (replies (trace (render_phase (step_to_render a) rs
                                                 (m :: rest) (set_inbox (rs ++ m :: rest) w)))).
      rewrite render_phase_replies. simpl. now rewrite app_nil_r, <- app_assoc.
    + rewrite replies_finish_world. simpl. unfold replies.
      rewrite !omap_app. simpl. now rewrite app_nil_r.
    + unfold finished. now destruct (_get_done (strategy a)).
    + unfold finished. now destruct (_get_done (strategy a)).
    + unfold finished. now destruct (_get_done (strategy a)).
Qed.

(** ** C5: a control value the hook does not know *)

(** A message with a [ctrl] value other than [_render] and [_done]: the
    loop goes straight to the next receive, with the request unanswered. *)
Lemma await_unknown_ctrl (n : nat) (a : Analyzer) (m : Msg) (rest : list Msg)
    (c : pyval) (w : World) :
  idle w -> ctl_inbox w = m :: rest ->
  m !! "ctrl" = Some c -> eq_str c "_render" = false -> eq_str c "_done" = false ->
  await (S n) a w = Raise ZMQError_EFSM (received m rest w).
Proof.
  intros Hidle Hi Hc Hr Hd. unfold await, bind at 1.
  rewrite (ctl_recv_idle w m rest Hidle Hi).
  simpl ctrl_loop. rewrite Hc, Hr, Hd. unfold bind, ret.
  rewrite ctl_recv_owing; [reflexivity | apply Hidle | reflexivity].
Qed.

(** C5. In a communicated tick, a message whose [ctrl] value is neither
    [_render] nor [_done] ends the tick with an error raised to the
    caller of [next]: the hook sends no reply to it and asks the socket
    for the next request while this one is unanswered, which the REP
    socket refuses. The tick does not complete and no later message is
    read. *)
Theorem C5_unknown_ctrl_raises (a : Analyzer) (w : World) (rs : list Msg)
    (m : Msg) (rest : list Msg) (c : pyval) :
  skip_frame (strategy a) <> 0 -> gate (strategy a) = true -> idle w ->
  ctl_inbox w = rs ++ m :: rest -> Forall is_render rs ->
  m !! "ctrl" = Some c -> eq_str c "_render" = false -> eq_str c "_done" = false ->
  exists w',
    next a w = Raise ZMQError_EFSM w' /\
    replies (trace w') =
      replies (trace w) ++ render_replies (step_to_render a) rs (renderer w) /\
    last (trace w') = Some (CtlRecv m) /\
    ctl_inbox w' = rest.
Proof.
  intros Hsk Hg Hidle Hi Hrs Hc Hr Hd.
  exists (received m rest (render_phase (step_to_render a) rs (m :: rest) w)).
  split; [|repeat split].
  - rewrite next_open by assumption.
    rewrite Hi, length_app. unfold bind.
    rewrite (await_renders rs _ _ (m :: rest) w Hrs Hidle Hi).
    simpl length.
    rewrite (await_unknown_ctrl _ _ m rest c); try assumption.
    + reflexivity.
    + now apply render_phase_idle.
    + now apply render_phase_inbox.
  - simpl. unfold replies at 1. rewrite omap_app. simpl. rewrite app_nil_r.
    apply render_phase_replies.
  - simpl. apply last_snoc.
Qed.

(** ** The tick on a message with neither [ctrl] nor [action] *)

Lemma next_no_action (a : Analyzer) (w : World) (m : Msg) (rest : list Msg) :
  skip_frame (strategy a) <> 0 -> gate (strategy a) = true -> idle w ->
  ctl_inbox w = m :: rest ->
  m !! "ctrl" = None -> m !! "action" = None ->
  next a w =
  Raise (AssertionError ("No <action> key recieved:" +:+ nl +:+ "COMM recieved: "
                         +:+ repr (VDict m)))
        (received m rest w).
Proof.
  intros Hsk Hg Hidle Hi Hc Ha.
  rewrite next_open by assumption.
  unfold bind, await, bind. rewrite (ctl_recv_idle w m rest Hidle Hi).
  rewrite Hi. simpl ctrl_loop. rewrite Hc. unfold ret, respond.
  change (message (set_message m (begin_tick a)) ≫= lookup "action")
    with (m !! "action").
  rewrite Ha. reflexivity.
Qed.

(** ** Control mode *)

Lemma answer_in_place_idle er m rest w : idle w -> idle (answer_in_place er m rest w).
Proof.
  intros [Hc Ho]. unfold answer_in_place.
  destruct (m !! "ctrl") as [c|]; [|now split].
  destruct (eq_str c "_getstat"); [now split|].
  destruct (eq_str c "_render" && has_key m "mode"); now split.
Qed.

Lemma answer_in_place_inbox er m rest w : ctl_inbox (answer_in_place er m rest w) = rest.
Proof.
  unfold answer_in_place.
  destruct (m !! "ctrl") as [c|]; [|reflexivity].
  destruct (eq_str c "_getstat"); [reflexivity|].
  destruct (eq_str c "_render" && has_key m "mode"); reflexivity.
Qed.

Lemma answer_in_place_renderer er m rest w :
  renderer (answer_in_place er m rest w) = (in_place_reply er m (renderer w)).2.
Proof.
  unfold answer_in_place, in_place_reply.
  destruct (m !! "ctrl") as [c|]; [|reflexivity].
  destruct (eq_str c "_getstat"); [reflexivity|].
  destruct (eq_str c "_render" && has_key m "mode"); reflexivity.
Qed.

Lemma ctl_events_app (t1 t2 : list event) :
  ctl_events (t1 ++ t2) = ctl_events t1 ++ ctl_events t2.
Proof. apply omap_app. Qed.

Lemma answer_in_place_events er m rest w :
  ctl_events (trace (answer_in_place er m rest w)) =
  ctl_events (trace w) ++ [CtlRecv m; CtlSend (in_place_reply er m (renderer w)).1].
Proof.
  unfold answer_in_place, in_place_reply.
  destruct (m !! "ctrl") as [c|].
  - destruct (eq_str c "_getstat").
    + simpl. rewrite !ctl_events_app, <- app_assoc. reflexivity.
    + destruct (eq_str c "_render" && has_key m "mode").
      * simpl. rewrite !ctl_events_app, <- !app_assoc. reflexivity.
      * simpl. rewrite !ctl_events_app, <- app_assoc. reflexivity.
  - simpl. rewrite !ctl_events_app, <- app_assoc. reflexivity.
Qed.

Lemma answer_in_place_data er m rest w :
  data_closed (answer_in_place er m rest w) = data_closed w /\
  data_requests (trace (answer_in_place er m rest w)) = data_requests (trace w).
Proof.
  unfold answer_in_place, data_requests.
  destruct (m !! "ctrl") as [c|].
  - destruct (eq_str c "_getstat");
      [|destruct (eq_str c "_render" && has_key m "mode")];
      simpl; rewrite !omap_app; simpl; now rewrite !app_nil_r.
  - simpl; rewrite !omap_app; simpl; now rewrite !app_nil_r.
Qed.

(** One round of the loop on a request answered in place. *)
Lemma control_loop_in_place (n : nat) (er : Msg) (m : Msg) (rest : list Msg) (w : World) :
  idle w -> ctl_inbox w = m :: rest -> in_place m ->
  control_loop (S n) er w = control_loop n er (answer_in_place er m rest w).
Proof.
  intros Hidle Hi Hp. simpl. unfold bind at 1.
  rewrite (ctl_recv_idle w m rest Hidle Hi).
  unfold in_place in Hp. unfold answer_in_place.
  destruct (m !! "ctrl") as [c|].
  - destruct Hp as [-> ->].
    destruct (eq_str c "_getstat").
    + unfold bind. rewrite ctl_send_owing; [reflexivity|apply Hidle|reflexivity].
    + destruct (eq_str c "_render" && has_key m "mode").
      * unfold bind. rewrite render_call_eq.
        rewrite ctl_send_owing; [reflexivity|apply Hidle|reflexivity].
      * unfold bind. rewrite ctl_send_owing; [reflexivity|apply Hidle|reflexivity].
  - unfold bind. rewrite ctl_send_owing; [reflexivity|apply Hidle|reflexivity].
Qed.

Lemma control_loop_serve (er : Msg) (ms : list Msg) : forall n tail w,
  idle w -> ctl_inbox w = ms ++ tail -> Forall in_place ms ->
  control_loop (length ms + n) er w = control_loop n er (serve er ms tail w).
Proof.
  induction ms as [|m ms IH]; intros n tail w Hidle Hi Hms; [reflexivity|].
  inversion Hms as [|? ? Hm Hms']; subst.
  change (length (m :: ms) + n)%nat with (S (length ms + n)).
  rewrite (control_loop_in_place _ er m (ms ++ tail) w Hidle Hi Hm). simpl serve.
  apply IH; [now apply answer_in_place_idle | apply answer_in_place_inbox | assumption].
Qed.

Lemma serve_idle er ms : forall tail w, idle w -> idle (serve er ms tail w).
Proof.
  induction ms as [|m ms IH]; intros tail w Hw; simpl; [assumption|].
  apply IH. now apply answer_in_place_idle.
Qed.

Lemma serve_inbox er ms : forall tail w,
  ctl_inbox w = ms ++ tail -> ctl_inbox (serve er ms tail w) = tail.
Proof.
  induction ms as [|m ms IH]; intros tail w Hw; simpl; [assumption|].
  apply IH. apply answer_in_place_inbox.
Qed.

Lemma serve_events er ms : forall tail w,
  ctl_events (trace (serve er ms tail w)) =
  ctl_events (trace w) ++ dialogue er ms (renderer w).
Proof.
  induction ms as [|m ms IH]; intros tail w; simpl.
  - now rewrite app_nil_r.
  - rewrite IH, answer_in_place_events, answer_in_place_renderer.
    now rewrite <- app_assoc.
Qed.

Lemma serve_data er ms : forall tail w,
  data_closed (serve er ms tail w) = data_closed w /\
  data_requests (trace (serve er ms tail w)) = data_requests (trace w).
Proof.
  induction ms as [|m ms IH]; intros tail w; simpl; [now split|].
  destruct (IH tail (answer_in_place er m (ms ++ tail) w)) as [-> ->].
  apply answer_in_place_data.
Qed.

(** Comparisons of string literals are evaluated. *)
Ltac eval_eq_str :=
  repeat match goal with
         | |- context [eq_str (VStr ?a) ?b] =>
             let v := eval vm_compute in (eq_str (VStr a) b) in
             change (eq_str (VStr a) b) with v
         end;
  cbv iota.

Lemma control_loop_stop (n : nat) (er : Msg) (m : Msg) (rest : list Msg) (w : World) :
  idle w -> ctl_inbox w = m :: rest -> m !! "ctrl" = Some (VStr "_stop") ->
  control_loop (S n) er w =
  Ok Stopped
     (mkWorld false true rest (data_waiting w) (data_closed w) (exchanges w)
              (draws w) (renderer w)
              (trace w ++ [CtlRecv m; CtlSend (VStr "Exiting."); CtlClose; CtlDestroy])).
Proof.
  intros Hidle Hi Hc. simpl. unfold bind at 1.
  rewrite (ctl_recv_idle w m rest Hidle Hi). rewrite Hc. eval_eq_str.
  unfold bind. rewrite ctl_send_owing; [|apply Hidle|reflexivity].
  simpl. unfold ret. now rewrite <- !app_assoc.
Qed.

Lemma control_loop_reset (n : nat) (er : Msg) (m : Msg) (rest : list Msg)
    (kw : pyval) (w : World) :
  idle w -> ctl_inbox w = m :: rest ->
  m !! "ctrl" = Some (VStr "_reset") -> m !! "kwargs" = Some kw ->
  control_loop (S n) er w =
  Ok (Reset m)
     (replied (VStr ("Preparing new episode with kwargs: " +:+ repr kw))
              (received m rest w)).
Proof.
  intros Hidle Hi Hc Hk. simpl. unfold bind at 1.
  rewrite (ctl_recv_idle w m rest Hidle Hi). rewrite Hc. eval_eq_str. rewrite Hk.
  unfold bind. rewrite ctl_send_owing; [reflexivity|apply Hidle|reflexivity].
Qed.

Lemma control_loop_block (n : nat) (er : Msg) (w : World) :
  idle w -> ctl_inbox w = [] -> control_loop (S n) er w = Block w.
Proof.
  intros Hidle Hi. simpl. unfold bind. now rewrite ctl_recv_empty.
Qed.

(** ** C1: one reply per request, exits on [_stop] and [_reset] only *)

(** C1. In control mode every request that is not [_stop] or [_reset]
    ([_getstat], [_render] with a mode, any other [ctrl] value, a message
    without [ctrl]) is answered in place: on the controller channel each
    such request is followed by exactly one reply before the next receive,
    and the loop goes on in control mode. After any run of such requests
    the loop waits for the next request when none is pending; it returns,
    with one reply and the channel closed, on [_stop]; and it is left for
    the episode, with one reply, on a [_reset] that carries [kwargs]. *)
Theorem C1_control_mode_alternation (er : Msg) (w : World) (ms tail : list Msg) :
  idle w -> ctl_inbox w = ms ++ tail -> Forall in_place ms ->
  let w' := serve er ms tail w in
  idle w' /\ ctl_inbox w' = tail /\
  ctl_events (trace w') = ctl_events (trace w) ++ dialogue er ms (renderer w) /\
  match tail with
  | [] => control_mode er w = Block w'
  | m :: rest =>
      (m !! "ctrl" = Some (VStr "_stop") ->
         exists w'', control_mode er w = Ok Stopped w'' /\
                     ctl_events (trace w'') =
                       ctl_events (trace w') ++ [CtlRecv m; CtlSend (VStr "Exiting.")] /\
                     ctl_closed w'' = true) /\
      (forall kw, m !! "ctrl" = Some (VStr "_reset") -> m !! "kwargs" = Some kw ->
         exists w'', control_mode er w = Ok (Reset m) w'' /\
                     ctl_events (trace w'') =
                       ctl_events (trace w') ++
                       [CtlRecv m;
                        CtlSend (VStr ("Preparing new episode with kwargs: "
                                       +:+ repr kw))] /\
                     idle w'' /\ ctl_inbox w'' = rest)
  end.
Proof.
  intros Hidle Hi Hms w'.
  assert (Hidle' : idle w') by now apply serve_idle.
  assert (Hi' : ctl_inbox w' = tail) by now apply serve_inbox.
  assert (Hrun : control_mode er w = control_loop (S (length tail)) er w').
  { unfold control_mode. rewrite Hi, length_app, <- Nat.add_succ_r.
    now apply control_loop_serve. }
  split; [assumption|]. split; [assumption|]. split; [apply serve_events|].
  destruct tail as [|m rest].
  - rewrite Hrun. now apply control_loop_block.
  - split.
    + intros Hc. eexists. split; [|split].
      * rewrite Hrun. now apply (control_loop_stop _ er m rest).
      * simpl. rewrite ctl_events_app. reflexivity.
      * reflexivity.
    + intros kw Hc Hk. eexists. split; [|split; [|split]].
      * rewrite Hrun. now apply (control_loop_reset _ er m rest kw).
      * simpl. rewrite !ctl_events_app, <- app_assoc. reflexivity.
      * split; [apply Hidle'|reflexivity].
      * reflexivity.
Qed.

(** ** C9: shutdown on [_stop] *)

(** C9 (as the code has it). On [{ctrl: '_stop'}] in control mode the
    server replies with the farewell string, closes the controller socket,
    destroys its context and returns. Nothing is done on the data-provider
    channel: no message is sent on it and its socket is left as it was. *)
Theorem C9_stop_releases_controller_channel (er : Msg) (w : World) (m : Msg)
    (rest : list Msg) :
  idle w -> ctl_inbox w = m :: rest -> m !! "ctrl" = Some (VStr "_stop") ->
  exists w',
    control_mode er w = Ok Stopped w' /\
    trace w' = trace w ++ [CtlRecv m; CtlSend (VStr "Exiting."); CtlClose; CtlDestroy] /\
    ctl_closed w' = true /\
    data_closed w' = data_closed w /\
    data_waiting w' = data_waiting w.
Proof.
  intros Hidle Hi Hc. eexists. split.
  - unfold control_mode. now apply (control_loop_stop _ er m rest).
  - repeat split.
Qed.

(** ** C6: a message with neither [ctrl] nor [action] *)

(** C6 (as the code has it). In control mode a message with neither
    [ctrl] nor [action] is answered with a diagnostic string and the loop
    goes on in control mode. In episode mode the hook sends no reply to
    it: the tick ends with an [AssertionError] raised to the caller. *)
Theorem C6_neither_ctrl_nor_action (m : Msg) (rest : list Msg) (w : World) :
  m !! "ctrl" = None -> m !! "action" = None ->
  idle w -> ctl_inbox w = m :: rest ->
  (forall er n,
     exists s w',
       control_loop (S n) er w = control_loop n er w' /\
       trace w' = trace w ++ [CtlRecv m; CtlSend (VStr s)] /\
       idle w' /\ ctl_inbox w' = rest) /\
  (forall a,
     skip_frame (strategy a) <> 0 -> gate (strategy a) = true ->
     exists msg w',
       next a w = Raise (AssertionError msg) w' /\
       trace w' = trace w ++ [CtlRecv m]).
Proof.
  intros Hc Ha Hidle Hi. split.
  - intros er n. eexists _, _. split; [|split; [|split]].
    + apply (control_loop_in_place n er m rest w Hidle Hi).
      unfold in_place. now rewrite Hc.
    + unfold answer_in_place. rewrite Hc. simpl. rewrite <- app_assoc. reflexivity.
    + apply answer_in_place_idle, Hidle.
    + apply answer_in_place_inbox.
  - intros a Hsk Hg. eexists _, _. split.
    + now apply (next_no_action a w m rest).
    + reflexivity.
Qed.

(** ** C4: the communication gate *)

Lemma next_free_running (a : Analyzer) (w : World) :
  skip_frame (strategy a) <> 0 -> gate (strategy a) = false ->
  next a w = Ok (housekeeping (begin_tick a)) w.
Proof.
  intros Hsk Hg. unfold next, gate in *.
  replace (skip_frame (strategy (begin_tick a)) =? 0) with false
    by (symmetry; simpl; now apply Z.eqb_neq).
  simpl in *. rewrite Hg. apply orb_false_iff in Hg as [_ ->]. reflexivity.
Qed.

Lemma await_done (n : nat) (a : Analyzer) (m : Msg) (rest : list Msg) (w : World) :
  idle w -> ctl_inbox w = m :: rest -> m !! "ctrl" = Some (VStr "_done") ->
  await (S n) a w =
  Ok (Returned (stopped (set_message m a)))
     (rendered (VList (VStr <$> render_at_stop a)) (step_to_render a) false
        (replied (VStr "_DONE SIGNAL RECEIVED") (received m rest w))).
Proof.
  intros Hidle Hi Hc. unfold await, bind at 1.
  rewrite (ctl_recv_idle w m rest Hidle Hi).
  cbn [ctrl_loop]. rewrite Hc. eval_eq_str. unfold bind at 1. unfold ret at 1.
  unfold bind at 1. rewrite ctl_send_owing; [|apply Hidle|reflexivity].
  unfold bind. rewrite early_stop_eq. reflexivity.
Qed.

(** C4 (as the code has it). With a stride other than 0, the hook talks
    to the controller exactly when the tick counter is divisible by the
    stride or the termination flag is set. On any other tick nothing is
    sent or received and the tick ends with the pending action on
    [hold], the counter moved on and the info record of the tick added.
    On a communicated tick the first act is a receive, which waits while
    no request is pending; an action message is answered with the
    4-tuple whose state and reward were taken from the strategy with the
    pending action on [hold], and nothing else is exchanged; a [_done]
    request is acknowledged and leaves the pending action on [hold].
    With stride 0 the gate itself fails with [ZeroDivisionError], flag
    set or not, and nothing is sent or received. *)
Theorem C4_gate_communication (a : Analyzer) (w : World) :
  idle w ->
  let hold := set_action (VStr "hold") (strategy a) in
  (skip_frame (strategy a) = 0 -> next a w = Raise ZeroDivisionError w) /\
  (skip_frame (strategy a) <> 0 ->
   iteration (strategy a) mod skip_frame (strategy a) <> 0 ->
   _get_done (strategy a) = false ->
   exists a',
     next a w = Ok a' w /\
     action (strategy a') = VStr "hold" /\
     last_action (strategy a') = last_action (strategy a) /\
     iteration (strategy a') = iteration (strategy a) + 1 /\
     info_list a' = info_list a ++ [get_info (strategy a)]) /\
  (skip_frame (strategy a) <> 0 ->
   iteration (strategy a) mod skip_frame (strategy a) = 0 \/
   _get_done (strategy a) = true ->
   match ctl_inbox w with
   | [] => next a w = Block w
   | m :: rest =>
       (exists l, trace (world_of (next a w)) = trace w ++ CtlRecv m :: l) /\
       (forall act, m !! "ctrl" = None -> m !! "action" = Some act ->
          exists a' w',
            next a w = Ok a' w' /\
            trace w' =
              trace w ++
              [CtlRecv m;
               CtlSend (VTuple [get_state hold; get_reward hold;
                                VBool (_get_done (strategy a));
                                VList [get_info (strategy a)]])] ++
              (if _get_done (strategy a)
               then [Rendered (VList (VStr <$> render_at_stop a)) false]
               else []) /\
            action (strategy a') = act) /\
       (m !! "ctrl" = Some (VStr "_done") ->
          exists a' w',
            next a w = Ok a' w' /\
            trace w' =
              trace w ++
              [CtlRecv m; CtlSend (VStr "_DONE SIGNAL RECEIVED");
               Rendered (VList (VStr <$> render_at_stop a)) false] /\
            action (strategy a') = VStr "hold")
   end).
Proof.
  intros Hidle hold. split; [|split].
  - intros Hz. unfold next. cbn [begin_tick strategy set_strategy set_action skip_frame].
    rewrite Hz. reflexivity.
  - intros Hsk Hmod Hd.
    assert (Hg : gate (strategy a) = false).
    { unfold gate. rewrite Hd, orb_false_r. now apply Z.eqb_neq. }
    exists (housekeeping (begin_tick a)).
    split; [now apply next_free_running|]. repeat split.
  - intros Hsk Hopen.
    assert (Hg : gate (strategy a) = true).
    { unfold gate. apply orb_true_iff.
      destruct Hopen as [H|H]; [left; now apply Z.eqb_eq|now right]. }
    destruct (ctl_inbox w) as [|m rest] eqn:Hi.
    + rewrite next_open by assumption. unfold bind, await, bind.
      now rewrite ctl_recv_empty.
    + split; [|split].
      * rewrite next_open by assumption. unfold await.
        rewrite <- bind_assoc. unfold bind at 1.
        rewrite (ctl_recv_idle w m rest Hidle Hi).
        match goal with
        | |- context [world_of (?c (received m rest w))] =>
            assert (Hm : mono c)
              by (apply mono_bind; [apply mono_ctrl_loop | apply mono_respond]);
            destruct (Hm (received m rest w)) as [l Hl]
        end.
        exists l. rewrite Hl. cbn [received trace]. now rewrite <- app_assoc.
      * intros act Hc Ha. eexists _, _. split.
        { apply (next_action_tick a w [] m rest act); try assumption. constructor. }
        split.
        { unfold tick_tuple, reply_tuple.
          destruct (_get_done (strategy a));
            cbn [finish_world rendered replied received render_phase trace acted
                 render_at_stop set_info_list set_step_to_render set_strategy
                 set_message begin_tick strategy];
            now rewrite <- !app_assoc. }
        { unfold finished. now destruct (_get_done (strategy a)). }
      * intros Hc. eexists _, _. split.
        { rewrite next_open by assumption. rewrite Hi. unfold bind.
          cbn [length].
          rewrite (await_done _ _ m rest w Hidle Hi Hc). reflexivity. }
        split; [|reflexivity].
        cbn [rendered replied received trace begin_tick render_at_stop
             step_to_render set_strategy set_info_list].
        now rewrite <- !app_assoc.
Qed.

(** ** C10: the socket timeouts *)

Lemma comm_extends (msg : Msg) (w : World) :
  extends w (world_of (_comm_with_timeout msg w)).
Proof.
  unfold _comm_with_timeout.
  destruct (data_closed w || data_waiting w); [now eexists|].
  destruct (provider (exchanges w)); now eexists.
Qed.

(** C10. The [connect_timeout] given to the constructor does not reach
    any socket option: whatever its value, [run] sets the receive timeout
    of the controller socket to -1 and the send timeout of the controller
    socket and both timeouts of the data socket to 60000 ms, from its
    local value of 60 seconds, and goes on in the same way. *)
Theorem C10_connect_timeout_unused (addr daddr : string)
    (timeout tk : option Z) (w : World) :
  connect_timeout (__init__ addr daddr None tk) = 90 /\
  run_setup (__init__ addr daddr timeout tk) w =
    run_setup (__init__ addr daddr None tk) w /\
  exists l,
    trace (world_of (run_setup (__init__ addr daddr timeout tk) w)) =
    trace w ++
    [SetOpt false true (-1); SetOpt false false 60000; Attach false addr;
     SetOpt true true 60000; SetOpt true false 60000; Attach true daddr] ++ l.
Proof.
  split; [reflexivity|]. split; [reflexivity|].
  unfold run_setup, bind, setsockopt, attach. cbv zeta.
  set (w4 := emit _ (emit _ (emit _ (emit _ (emit _ (emit _ w)))))).
  destruct (comm_extends {[ "ctrl" := VStr "ping!" ]} w4) as [l Hl].
  exists l.
  destruct (_comm_with_timeout _ w4) as [resp w5|e w5|w5|w5]; simpl in Hl;
    try (simpl; rewrite Hl; subst w4; simpl; now rewrite <- !app_assoc).
  destruct (str_in (status resp) "ok"); simpl; rewrite Hl; subst w4; simpl;
    now rewrite <- !app_assoc.
Qed.

(** ** The data side only adds to the trace *)

Lemma mono_comm (msg : Msg) : mono (_comm_with_timeout msg).
Proof. intros w. apply comm_extends. Qed.

Lemma mono_sleep_random : mono sleep_random.
Proof. intros w. now eexists. Qed.

Lemma mono_ctl_close : mono ctl_close.
Proof. intros w. now eexists. Qed.

Lemma mono_ctx_destroy : mono ctx_destroy.
Proof. intros w. now eexists. Qed.

Lemma mono_subscript (v : pyval) (k : string) : mono (subscript v k).
Proof.
  unfold subscript. destruct v; try apply mono_raise.
  destruct (d !! k); [apply mono_ret | apply mono_raise].
Qed.

Lemma mono_lift {A} (r : exn + A) : mono (lift r).
Proof. destruct r; [apply mono_raise | apply mono_ret]. Qed.

Lemma mono_attr (name : string) (f : nat -> exn + pyval) (v : pyval) :
  mono (attr name f v).
Proof. destruct v; try apply mono_raise. apply mono_lift. Qed.

Lemma get_data_loop_S (n : nat) (kw : Msg) (wait : float) :
  get_data_loop (S n) kw wait =
  bind (_comm_with_timeout (data_request kw)) (after_exchange n kw wait).
Proof. reflexivity. Qed.

Lemma mono_after_exchange (n : nat) (kw : Msg) (wait : float) (resp : response) :
  (forall wait', mono (get_data_loop n kw wait')) ->
  mono (after_exchange n kw wait resp).
Proof.
  intros IH. unfold after_exchange.
  destruct (str_in (status resp) "ok"); [|apply mono_raise].
  destruct (check_ready (r_message resp)); [|apply mono_ret|apply mono_raise].
  destruct (float_le wait _).
  - apply mono_bind; [apply mono_sleep_random | intros; apply IH].
  - apply mono_bind; [apply mono_comm|]. intros _.
    apply mono_bind; [apply mono_ctl_close|]. intros _.
    apply mono_bind; [apply mono_ctx_destroy|]. intros _. apply mono_raise.
Qed.

Lemma mono_get_data_loop (n : nat) : forall kw wait, mono (get_data_loop n kw wait).
Proof.
  induction n as [|n IH]; intros kw wait; [intros w; apply extends_refl|].
  rewrite get_data_loop_S. apply mono_bind; [apply mono_comm|].
  intros resp. apply mono_after_exchange. intros wait'. apply IH.
Qed.

(** What [get_data] does with the reply that ended the loop. *)
Lemma mono_unpack (resp : response) :
  mono (trial_sample <- subscript (r_message resp) "sample" ;;
        trial_stat <- attr "describe" describe trial_sample ;;
        attr "reset" reset trial_sample ;;;
        dataset_stat <- subscript (r_message resp) "stat" ;;
        ret (trial_sample, trial_stat, dataset_stat)).
Proof.
  apply mono_bind; [apply mono_subscript|]. intros ts.
  apply mono_bind; [apply mono_attr|]. intros st.
  apply mono_bind; [apply mono_attr|]. intros _.
  apply mono_bind; [apply mono_subscript|]. intros ds. apply mono_ret.
Qed.

Lemma mono_get_data (n : nat) (kw : Msg) : mono (get_data n kw).
Proof.
  unfold get_data. apply mono_bind; [apply mono_get_data_loop|].
  intros resp. apply mono_unpack.
Qed.

(** ** C7: waiting for the data provider *)

Lemma comm_reply (msg : Msg) (v : pyval) (w : World) :
  data_idle w -> provider (exchanges w) = Reply v ->
  _comm_with_timeout msg w =
  Ok (mkResponse "ok" v) (set_data false [DataSend msg; DataRecv v] w).
Proof.
  intros [Hc Hw] Hp. unfold _comm_with_timeout. now rewrite Hc, Hw, Hp.
Qed.

Lemma waited_app (wait : float) (j a b : nat) :
  waited wait j (a + b) = waited (waited wait j a) (j + a) b.
Proof.
  revert wait j. induction a as [|a IH]; intros wait j; cbn [waited Nat.add].
  - now rewrite Nat.add_0_r.
  - rewrite IH. now replace (S j + a)%nat with (j + S a)%nat by lia.
Qed.

(** One round of the loop when the provider answers "not ready". *)
Lemma get_data_loop_not_ready (n : nat) (kw : Msg) (wait : float) (v : pyval) (w : World) :
  data_idle w -> provider (exchanges w) = Reply v -> check_ready v = NotReady ->
  get_data_loop (S n) kw wait w =
  (if float_le wait (float_of_int 300) then
     pause <- sleep_random ;;
     get_data_loop n kw (float_add wait pause)
   else
     _ <- _comm_with_timeout stop_msg ;;
     ctl_close ;;;
     ctx_destroy ;;;
     raise fatal)
    (set_data false [DataSend (data_request kw); DataRecv v] w).
Proof.
  intros Hidle Hv Hchk. cbn [get_data_loop].
  unfold bind at 1. rewrite (comm_reply _ v w Hidle Hv).
  cbn [status r_message]. rewrite Hchk. reflexivity.
Qed.

Lemma get_data_loop_pause (n : nat) (kw : Msg) (wait : float) (v : pyval) (w : World) :
  data_idle w -> provider (exchanges w) = Reply v -> check_ready v = NotReady ->
  float_le wait (float_of_int 300) = true ->
  get_data_loop (S n) kw wait w =
  get_data_loop n kw (float_add wait (pause_of_draw (draws w))) (paused kw v w).
Proof.
  intros Hidle Hv Hchk Hle.
  rewrite (get_data_loop_not_ready n kw wait v w Hidle Hv Hchk), Hle.
  unfold bind, sleep_random, paused, set_data, pause_of_draw.
  cbn [ctl_owes ctl_closed ctl_inbox data_waiting data_closed exchanges draws
       renderer trace].
  now rewrite <- app_assoc.
Qed.

Lemma get_data_loop_fatal (n : nat) (kw : Msg) (wait : float) (v v2 : pyval) (w : World) :
  data_idle w -> provider (exchanges w) = Reply v -> check_ready v = NotReady ->
  provider (S (exchanges w)) = Reply v2 ->
  float_le wait (float_of_int 300) = false ->
  get_data_loop (S n) kw wait w = Raise fatal (gave_up kw v v2 w).
Proof.
  intros Hidle Hv Hchk Hv2 Hgt.
  rewrite (get_data_loop_not_ready n kw wait v w Hidle Hv Hchk), Hgt.
  unfold bind at 1.
  rewrite (comm_reply stop_msg v2); [|destruct Hidle; now split|exact Hv2].
  unfold bind, ctl_close, ctx_destroy, raise, gave_up, set_data.
  cbn [ctl_owes ctl_closed ctl_inbox data_waiting data_closed exchanges draws
       renderer trace].
  now rewrite <- !app_assoc.
Qed.

Lemma sleeps_app (t1 t2 : list event) : sleeps (t1 ++ t2) = sleeps t1 ++ sleeps t2.
Proof. apply omap_app. Qed.

Lemma data_requests_app (t1 t2 : list event) :
  data_requests (t1 ++ t2) = data_requests t1 ++ data_requests t2.
Proof. apply omap_app. Qed.

(** The loop gives up at the first attempt that finds the accumulated
    wait above the budget: after [k] pauses if the wait is within the
    budget at the first [k] attempts and above it at the next. *)
Lemma get_data_loop_gives_up (kw : Msg) (k : nat) : forall wait w,
  never_ready -> data_idle w ->
  (forall k', (k' < k)%nat ->
     float_le (waited wait (draws w) k') (float_of_int 300) = true) ->
  float_le (waited wait (draws w) k) (float_of_int 300) = false ->
  exists w' v,
    (forall n, (k < n)%nat -> get_data_loop n kw wait w = Raise fatal w') /\
    ctl_closed w' = true /\
    sleeps (trace w') = sleeps (trace w) ++ map random_draw (seq (draws w) k) /\
    data_requests (trace w') =
      data_requests (trace w) ++ replicate (S k) (data_request kw) ++ [stop_msg] /\
    exists pre, trace w' =
      trace w ++ pre ++ [DataSend stop_msg; DataRecv v; CtlClose; CtlDestroy].
Proof.
  induction k as [|k IH]; intros wait w Hnr Hidle Hin Hout.
  all: destruct (Hnr (exchanges w)) as [v [Hv Hchk]].
  - destruct (Hnr (S (exchanges w))) as [v2 [Hv2 _]].
    exists (gave_up kw v v2 w), v2. split; [|split; [|split; [|split]]].
    + intros [|n] Hn; [lia|]. now apply get_data_loop_fatal.
    + reflexivity.
    + cbn [gave_up trace seq map]. rewrite sleeps_app. cbn [sleeps omap].
      reflexivity.
    + cbn [gave_up trace replicate]. rewrite data_requests_app. reflexivity.
    + exists [DataSend (data_request kw); DataRecv v]. reflexivity.
  - destruct (IH (float_add wait (pause_of_draw (draws w))) (paused kw v w) Hnr)
      as (w' & v' & Hrun & Hcl & Hsl & Hrq & pre & Htr).
    { destruct Hidle. now split. }
    { intros k' Hk'. cbn [paused draws]. apply (Hin (S k')). lia. }
    { exact Hout. }
    exists w', v'. split; [|split; [|split; [|split]]].
    + intros [|n] Hn; [lia|].
      rewrite (get_data_loop_pause n kw wait v w Hidle Hv Hchk (Hin O ltac:(lia))).
      apply Hrun. lia.
    + exact Hcl.
    + rewrite Hsl. cbn [paused trace draws seq map].
      rewrite sleeps_app. cbn [sleeps omap]. now rewrite <- app_assoc.
    + rewrite Hrq. cbn [paused trace]. rewrite data_requests_app.
      cbn [data_requests omap replicate]. now rewrite <- !app_assoc.
    + exists ([DataSend (data_request kw); DataRecv v;
               Sleep (random_draw (draws w))] ++ pre).
      rewrite Htr. cbn [paused trace]. now rewrite <- !app_assoc.
Qed.

(** While the accumulated wait never gets above the budget the loop goes
    on: no bound on the number of rounds is enough. *)
Lemma get_data_loop_stalls (kw : Msg) (n : nat) : forall wait w,
  never_ready -> data_idle w ->
  (forall k, float_le (waited wait (draws w) k) (float_of_int 300) = true) ->
  diverges (get_data_loop n kw wait w) /\
  ctl_closed (world_of (get_data_loop n kw wait w)) = ctl_closed w /\
  stop_msg ∉ data_requests (drop (length (trace w))
                                 (trace (world_of (get_data_loop n kw wait w)))).
Proof.
  induction n as [|n IH]; intros wait w Hnr Hidle Hin.
  - cbn [get_data_loop world_of diverges]. rewrite drop_all.
    split; [exact I|]. split; [reflexivity|]. apply not_elem_of_nil.
  - destruct (Hnr (exchanges w)) as [v [Hv Hchk]].
    rewrite (get_data_loop_pause n kw wait v w Hidle Hv Hchk (Hin O)).
    destruct (IH (float_add wait (pause_of_draw (draws w))) (paused kw v w) Hnr)
      as (Hd & Hc & Hs).
    { destruct Hidle. now split. }
    { intros k. apply (Hin (S k)). }
    split; [exact Hd|]. split; [exact Hc|].
    destruct (mono_get_data_loop n kw (float_add wait (pause_of_draw (draws w)))
                (paused kw v w)) as [l Hl].
    rewrite Hl in Hs |- *. rewrite drop_app_length in Hs.
    cbn [paused trace]. rewrite <- app_assoc, drop_app_length.
    rewrite data_requests_app. intros Hin'.
    apply elem_of_app in Hin' as [Hin'|Hin']; [|contradiction].
    cbn in Hin'. apply list_elem_of_singleton in Hin'.
    apply (f_equal (fun m : Msg => m !! "kwargs")) in Hin'.
    vm_compute in Hin'. discriminate Hin'.
Qed.

Lemma get_data_gives_up (kw : Msg) (k : nat) (w : World) :
  never_ready -> data_idle w ->
  (forall k', (k' < k)%nat ->
     float_le (waited (float_of_int 0) (draws w) k') (float_of_int 300) = true) ->
  float_le (waited (float_of_int 0) (draws w) k) (float_of_int 300) = false ->
  exists w' v,
    (forall n, (k < n)%nat -> get_data n kw w = Raise fatal w') /\
    ctl_closed w' = true /\
    sleeps (trace w') = sleeps (trace w) ++ map random_draw (seq (draws w) k) /\
    data_requests (trace w') =
      data_requests (trace w) ++ replicate (S k) (data_request kw) ++ [stop_msg] /\
    exists pre, trace w' =
      trace w ++ pre ++ [DataSend stop_msg; DataRecv v; CtlClose; CtlDestroy].
Proof.
  intros Hnr Hidle Hin Hout.
  destruct (get_data_loop_gives_up kw k (float_of_int 0) w Hnr Hidle Hin Hout)
    as (w' & v & Hrun & Hrest).
  exists w', v. split; [|exact Hrest].
  intros n Hn. unfold get_data, bind. now rewrite (Hrun n Hn).
Qed.

Lemma get_data_stalls (kw : Msg) (w : World) :
  never_ready -> data_idle w ->
  (forall k, float_le (waited (float_of_int 0) (draws w) k) (float_of_int 300) = true) ->
  forall n,
    diverges (get_data n kw w) /\
    ctl_closed (world_of (get_data n kw w)) = ctl_closed w /\
    stop_msg ∉ data_requests (drop (length (trace w)) (trace (world_of (get_data n kw w)))).
Proof.
  intros Hnr Hidle Hin n.
  destruct (get_data_loop_stalls kw n (float_of_int 0) w Hnr Hidle Hin) as (Hd & Hc & Hs).
  unfold get_data, bind.
  destruct (get_data_loop n kw (float_of_int 0) w); try contradiction.
  now split.
Qed.

(** C7 (as the code has it). If every exchange with the data provider
    succeeds and every reply carries the not-ready marker, [get_data]
    pauses after each attempt for the drawn duration and adds the pause
    to the accumulated wait, a float. It gives up at the first attempt
    that finds the accumulated wait above 300 seconds: it has then made
    that many pauses, sends [{ctrl: '_stop'}] to the data provider,
    closes the controller socket, destroys its context and fails with
    [RuntimeError]. As long as the accumulated wait is not above 300 the
    loop goes on; if the float sum never gets there, [get_data] does not
    return. *)
Theorem C7_get_data_gives_up (kw : Msg) (w : World) :
  never_ready -> data_idle w ->
  (forall k,
     (forall k', (k' < k)%nat ->
        float_le (waited (float_of_int 0) (draws w) k') (float_of_int 300) = true) ->
     float_le (waited (float_of_int 0) (draws w) k) (float_of_int 300) = false ->
     exists w' v,
       (forall n, (k < n)%nat ->
          get_data n kw w =
          Raise (RuntimeError "Failed to assert Domain dataset is ready. Exiting.") w') /\
       ctl_closed w' = true /\
       sleeps (trace w') = sleeps (trace w) ++ map random_draw (seq (draws w) k) /\
       data_requests (trace w') =
         data_requests (trace w) ++
         replicate (S k) {[ "ctrl" := VStr "_get_data"; "kwargs" := VDict kw ]} ++
         [{[ "ctrl" := VStr "_stop" ]}] /\
       exists pre, trace w' =
         trace w ++ pre ++
         [DataSend {[ "ctrl" := VStr "_stop" ]}; DataRecv v; CtlClose; CtlDestroy]) /\
  ((forall k, float_le (waited (float_of_int 0) (draws w) k) (float_of_int 300) = true) ->
   forall n, diverges (get_data n kw w)).
Proof.
  intros Hnr Hidle. split.
  - intros k Hin Hout. exact (get_data_gives_up kw k w Hnr Hidle Hin Hout).
  - intros Hin n. exact (proj1 (get_data_stalls kw w Hnr Hidle Hin n)).
Qed.

(** ** C8: when a new trial sample is requested *)

Lemma comm_first_event (msg : Msg) (w : World) :
  exists resp w1 e l1,
    _comm_with_timeout msg w = Ok resp w1 /\
    trace w1 = trace w ++ e :: l1 /\
    (e = DataSend msg \/ exists st, e = DataFail st).
Proof.
  unfold _comm_with_timeout.
  destruct (data_closed w || data_waiting w); [eexists _, _, _, []; eauto|].
  destruct (provider (exchanges w)); eexists _, _, _, _;
    (split; [reflexivity|split; [reflexivity|eauto]]).
Qed.

(** [get_data] starts with an exchange on the data socket. *)
Lemma get_data_starts_exchange (n : nat) (kw : Msg) (w : World) :
  exists e l,
    trace (world_of (get_data (S n) kw w)) = trace w ++ e :: l /\
    (e = DataSend (data_request kw) \/ exists st, e = DataFail st).
Proof.
  destruct (comm_first_event (data_request kw) w) as (resp & w1 & e & l1 & Hc & Ht & He).
  assert (Hm : mono (resp' <- after_exchange n kw (float_of_int 0) resp ;;
                     trial_sample <- subscript (r_message resp') "sample" ;;
                     trial_stat <- attr "describe" describe trial_sample ;;
                     attr "reset" reset trial_sample ;;;
                     dataset_stat <- subscript (r_message resp') "stat" ;;
                     ret (trial_sample, trial_stat, dataset_stat))).
  { apply mono_bind; [|apply mono_unpack].
    apply mono_after_exchange. intros wait'. apply mono_get_data_loop. }
  destruct (Hm w1) as [l Hl].
  exists e, (l1 ++ l). split; [|exact He].
  unfold get_data. rewrite get_data_loop_S, <- bind_assoc.
  unfold bind at 1. rewrite Hc. rewrite Hl, Ht. now rewrite <- app_assoc.
Qed.

Lemma world_of_bind {A B} (c : M A) (k : A -> M B) (w : World) :
  (forall a, mono (k a)) ->
  extends (world_of (c w)) (world_of (bind c k w)).
Proof.
  intros Hk. unfold bind. destruct (c w) as [a w'|e w'|w'|w']; simpl;
    [apply Hk|apply extends_refl..].
Qed.

(** So does the branch of [run] that requests a new trial. *)
Lemma fetch_trial_starts_exchange (n : nat) (tc : pydict) (w : World) :
  other_keys tc = false ->
  exists e l,
    trace (world_of (fetch_trial (S n) tc w)) = trace w ++ e :: l /\
    (e = DataSend (data_request (str_items tc)) \/ exists st, e = DataFail st).
Proof.
  intros Hk. unfold fetch_trial, call_get_data. rewrite Hk.
  destruct (get_data_starts_exchange n (str_items tc) w) as (e & l & Ht & He).
  match goal with
  | |- context [bind ?c ?k w] =>
      destruct (world_of_bind c k w) as [l' Hl']
  end.
  { intros r. apply mono_bind; [apply mono_attr|]. intros _.
    apply mono_bind; [apply mono_attr|]. intros _. apply mono_ret. }
  exists e, (l ++ l'). split; [|exact He].
  rewrite Hl', Ht. now rewrite <- app_assoc.
Qed.

Lemma sim_refl (w : World) : sim w w.
Proof. repeat split. Qed.

Lemma without_get_new_request (kw : Msg) :
  without_get_new (data_request kw) = data_request (delete "get_new" kw).
Proof.
  unfold without_get_new, data_request.
  rewrite lookup_insert_ne by discriminate.
  rewrite lookup_singleton_eq.
  rewrite insert_insert_ne by discriminate.
  now rewrite insert_singleton_eq.
Qed.

Lemma sim_trace_app (w1 w2 : World) (l1 l2 : list event) :
  erase_get_new <$> trace w1 = erase_get_new <$> trace w2 ->
  erase_get_new <$> l1 = erase_get_new <$> l2 ->
  erase_get_new <$> (trace w1 ++ l1) = erase_get_new <$> (trace w2 ++ l2).
Proof. intros H1 H2. now rewrite !fmap_app, H1, H2. Qed.

Ltac sim_fields H :=
  destruct H as (Ho & Hc & Hi & Hdw & Hdc & Hx & Hd & Hr & Ht).

Lemma comm_sim (m1 m2 : Msg) (w1 w2 : World) :
  sim w1 w2 -> without_get_new m1 = without_get_new m2 ->
  exists resp w1' w2',
    _comm_with_timeout m1 w1 = Ok resp w1' /\
    _comm_with_timeout m2 w2 = Ok resp w2' /\ sim w1' w2'.
Proof.
  intros H Hm. sim_fields H. unfold _comm_with_timeout.
  rewrite <- Hdc, <- Hdw, <- Hx.
  destruct (data_closed w1 || data_waiting w1).
  - eexists _, _, _. split; [reflexivity|]. split; [reflexivity|].
    unfold sim, emit; cbn -[erase_get_new fmap]. repeat split; try assumption.
    now apply sim_trace_app.
  - destruct (provider (exchanges w1)); eexists _, _, _;
      (split; [reflexivity|]); (split; [reflexivity|]);
      unfold sim, set_data; cbn -[erase_get_new fmap];
      repeat split; try assumption; try (now f_equal);
      apply sim_trace_app; try assumption; cbn -[without_get_new]; now rewrite ?Hm.
Qed.

Lemma rsim_bind {A B} (c1 c2 : M A) (k1 k2 : A -> M B) (w1 w2 : World) :
  rsim (c1 w1) (c2 w2) ->
  (forall a u1 u2, sim u1 u2 -> rsim (k1 a u1) (k2 a u2)) ->
  rsim (bind c1 k1 w1) (bind c2 k2 w2).
Proof.
  intros Hc Hk. unfold bind.
  destruct (c1 w1), (c2 w2); simpl in Hc; try contradiction; try assumption.
  destruct Hc as [<- Hs]. now apply Hk.
Qed.

Lemma comm_rsim (m1 m2 : Msg) (w1 w2 : World) :
  sim w1 w2 -> without_get_new m1 = without_get_new m2 ->
  rsim (_comm_with_timeout m1 w1) (_comm_with_timeout m2 w2).
Proof.
  intros H Hm.
  destruct (comm_sim m1 m2 w1 w2 H Hm) as (resp & w1' & w2' & -> & -> & H').
  now split.
Qed.

Lemma sleep_rsim (w1 w2 : World) : sim w1 w2 -> rsim (sleep_random w1) (sleep_random w2).
Proof.
  intros H. sim_fields H. unfold sleep_random. rewrite Hd. split; [reflexivity|].
  unfold sim; cbn -[erase_get_new fmap]. repeat split; try assumption; try (now f_equal).
  now apply sim_trace_app.
Qed.

Lemma close_rsim (w1 w2 : World) : sim w1 w2 -> rsim (ctl_close w1) (ctl_close w2).
Proof.
  intros H. sim_fields H. split; [reflexivity|].
  unfold sim; cbn -[erase_get_new fmap]. repeat split; try assumption.
  now apply sim_trace_app.
Qed.

Lemma destroy_rsim (w1 w2 : World) : sim w1 w2 -> rsim (ctx_destroy w1) (ctx_destroy w2).
Proof.
  intros H. sim_fields H. split; [reflexivity|].
  unfold sim; cbn -[erase_get_new fmap]. repeat split; try assumption.
  now apply sim_trace_app.
Qed.

Lemma lift_rsim {A} (r : exn + A) (w1 w2 : World) :
  sim w1 w2 -> rsim (lift r w1) (lift r w2).
Proof. intros H. destruct r; now split. Qed.

Lemma attr_rsim (name : string) (f : nat -> exn + pyval) (v : pyval) (w1 w2 : World) :
  sim w1 w2 -> rsim (attr name f v w1) (attr name f v w2).
Proof. intros H. destruct v; try (now split). now apply lift_rsim. Qed.

Lemma subscript_rsim (v : pyval) (k : string) (w1 w2 : World) :
  sim w1 w2 -> rsim (subscript v k w1) (subscript v k w2).
Proof.
  intros H. unfold subscript. destruct v; try (now split).
  destruct (d !! k); now split.
Qed.

Lemma get_data_loop_sim (kw1 kw2 : Msg) (n : nat) : forall wait w1 w2,
  delete "get_new" kw1 = delete "get_new" kw2 ->
  sim w1 w2 ->
  rsim (get_data_loop n kw1 wait w1) (get_data_loop n kw2 wait w2).
Proof.
  induction n as [|n IH]; intros wait w1 w2 Hkw H; [exact H|].
  rewrite !get_data_loop_S. apply rsim_bind.
  { apply comm_rsim; [assumption|]. now rewrite !without_get_new_request, Hkw. }
  intros resp u1 u2 Hu. unfold after_exchange.
  destruct (str_in (status resp) "ok"); [|now split].
  destruct (check_ready (r_message resp)); [|now split|now split].
  destruct (float_le wait _).
  - apply rsim_bind; [now apply sleep_rsim|]. intros pause v1 v2 Hv. now apply IH.
  - apply rsim_bind; [now apply comm_rsim|]. intros _ v1 v2 Hv.
    apply rsim_bind; [now apply close_rsim|]. intros _ x1 x2 Hx.
    apply rsim_bind; [now apply destroy_rsim|]. intros _ y1 y2 Hy. now split.
Qed.

Lemma get_data_sim (kw1 kw2 : Msg) (n : nat) (w : World) :
  delete "get_new" kw1 = delete "get_new" kw2 ->
  rsim (get_data n kw1 w) (get_data n kw2 w).
Proof.
  intros Hkw. unfold get_data. apply rsim_bind.
  { apply get_data_loop_sim; [exact Hkw | apply sim_refl]. }
  intros resp u1 u2 Hu. apply rsim_bind; [now apply subscript_rsim|].
  intros ts v1 v2 Hv. apply rsim_bind; [now apply attr_rsim|].
  intros st x1 x2 Hx. apply rsim_bind; [now apply attr_rsim|].
  intros _ y1 y2 Hy. apply rsim_bind; [now apply subscript_rsim|].
  intros ds z1 z2 Hz. now split.
Qed.

Lemma fetch_trial_sim (tc1 tc2 : pydict) (n : nat) (w : World) :
  other_keys tc1 = false -> other_keys tc2 = false ->
  delete "get_new" (str_items tc1) = delete "get_new" (str_items tc2) ->
  rsim (fetch_trial n tc1 w) (fetch_trial n tc2 w).
Proof.
  intros H1 H2 Hkw. unfold fetch_trial, call_get_data. rewrite H1, H2.
  apply rsim_bind; [now apply get_data_sim|].
  intros r u1 u2 Hu. apply rsim_bind; [now apply attr_rsim|].
  intros _ v1 v2 Hv. apply rsim_bind; [now apply attr_rsim|].
  intros _ x1 x2 Hx. now split.
Qed.

Lemma resolve_trial_parsed (n : nat) (si : Msg)
    (trial_sample trial_stat dataset_stat : pyval) (w : World)
    (ec tc : pydict) (g : pyval) :
  update_config si "episode_config" = inr ec ->
  update_config si "trial_config" = inr tc ->
  str_items tc !! "get_new" = Some g ->
  resolve_trial n si trial_sample trial_stat dataset_stat w =
  (if truthy g || is_none trial_sample then fetch_trial n tc
   else attr "filename" filename trial_sample ;;;
        ret (trial_sample, trial_stat, dataset_stat)) w.
Proof.
  intros He Ht Hg. unfold resolve_trial, bind at 1. rewrite He.
  cbn [lift ret]. unfold bind at 1. rewrite Ht. cbn [lift ret].
  now rewrite Hg.
Qed.

Lemma attr_world (name : string) (f : nat -> exn + pyval) (v : pyval) (w : World) :
  world_of (attr name f v w) = w.
Proof. destruct v; try reflexivity. cbn [attr]. now destruct (f handle). Qed.


(** ** The loop bounds of [next] and [control_mode] are never hit *)

Lemma ctrl_loop_total (n : nat) : forall a m w,
  (length (ctl_inbox w) < n)%nat -> ~ diverges (ctrl_loop n a m w).
Proof.
  induction n as [|n IH]; intros a m w Hn; [lia|].
  cbn [ctrl_loop]. destruct (m !! "ctrl") as [c|]; [|intros []].
  assert (Hrecv : forall a' u, ctl_inbox u = ctl_inbox w ->
            ~ diverges (bind ctl_recv (fun m' => ctrl_loop n (set_message m' a') m') u)).
  { intros a' u Hu. unfold bind, ctl_recv.
    destruct (ctl_closed u); [intros []|].
    destruct (ctl_owes u); [intros []|].
    destruct (ctl_inbox u) as [|m' rest] eqn:Hi; [intros []|].
    apply IH. simpl. rewrite <- Hu in Hn. simpl in Hn. lia. }
  assert (Hrest : forall u, ctl_inbox u = ctl_inbox w ->
            ~ diverges ((if eq_str c "_done"
                         then ctl_send (VStr "_DONE SIGNAL RECEIVED") ;;;
                              a' <- early_stop a ;; ret (Returned a')
                         else m' <- ctl_recv ;; ctrl_loop n (set_message m' a) m') u)).
  { intros u Hu. destruct (eq_str c "_done"); [|now apply Hrecv].
    unfold bind, ctl_send.
    destruct (ctl_closed u); [intros []|].
    destruct (ctl_owes u); [|intros []].
    rewrite early_stop_eq. intros []. }
  unfold bind at 1.
  destruct (eq_str c "_render"); [|now apply Hrest].
  destruct (m !! "mode") as [mode|]; [|intros []].
  unfold bind at 1. rewrite render_call_eq. unfold ctl_send.
  cbn [ctl_closed ctl_owes rendered].
  destruct (ctl_closed w); [intros []|].
  destruct (ctl_owes w); [|intros []].
  now apply Hrest.
Qed.

Lemma next_total (a : Analyzer) (w : World) : ~ diverges (next a w).
Proof.
  unfold next.
  destruct (skip_frame (strategy (begin_tick a)) =? 0); [intros []|].
  destruct (_ || _); [|rewrite finish_eq; intros []].
  cbv zeta. unfold bind at 1. unfold ctl_recv.
  destruct (ctl_closed w); [intros []|].
  destruct (ctl_owes w); [intros []|].
  destruct (ctl_inbox w) as [|m rest] eqn:Hi; [intros []|].
  unfold bind at 1.
  match goal with
  | |- context [ctrl_loop ?n ?b m ?u] =>
      pose proof (ctrl_loop_total n b m u) as Ht;
      destruct (ctrl_loop n b m u) as [r u'|e u'|u'|u']
  end; [|intros []|intros []|].
  - destruct r as [a'|a1]; simpl; [intros []|].
    destruct (message a1 ≫= _); [|intros []].
    destruct (last _); [|intros []].
    unfold bind, ctl_send.
    destruct (ctl_closed u'); [intros []|].
    destruct (ctl_owes u'); [|intros []].
    rewrite finish_eq. intros [].
  - intros _. apply Ht; [|exact I]. simpl. lia.
Qed.

Lemma control_loop_total (er : Msg) (n : nat) : forall w,
  (length (ctl_inbox w) < n)%nat -> ~ diverges (control_loop n er w).
Proof.
  induction n as [|n IH]; intros w Hn; [lia|].
  cbn [control_loop]. unfold bind at 1. unfold ctl_recv.
  destruct (ctl_closed w) eqn:Hc; [intros []|].
  destruct (ctl_owes w); [intros []|].
  destruct (ctl_inbox w) as [|m rest] eqn:Hi; [intros []|].
  simpl in Hn.
  assert (Hgo : forall p u, ctl_inbox u = rest -> ctl_owes u = true ->
            ~ diverges (bind (ctl_send p) (fun _ => control_loop n er) u)).
  { intros p u Hu Ho. unfold bind, ctl_send. rewrite Ho.
    destruct (ctl_closed u); [intros []|]. apply IH. simpl. rewrite Hu. lia. }
  destruct (m !! "ctrl") as [c|]; [|now apply Hgo].
  destruct (eq_str c "_stop").
  { unfold bind, ctl_send. cbn [ctl_closed ctl_owes]. intros []. }
  destruct (eq_str c "_reset").
  { destruct (m !! "kwargs"); [|intros []].
    unfold bind, ctl_send. cbn [ctl_closed ctl_owes]. intros []. }
  destruct (eq_str c "_getstat"); [now apply Hgo|].
  destruct (eq_str c "_render" && has_key m "mode"); [|now apply Hgo].
  unfold bind at 1. rewrite render_call_eq. now apply Hgo.
Qed.

Lemma control_mode_total (er : Msg) (w : World) : ~ diverges (control_mode er w).
Proof. unfold control_mode. apply control_loop_total. lia. Qed.

(** * Further properties of the hook *)

(** ** What a tick leaves alone *)

Lemma keeps_ret {B A} (f : World -> B) (a : A) : keeps f (ret a).
Proof. intros w. reflexivity. Qed.

Lemma keeps_raise {B A} (f : World -> B) (e : exn) : keeps f (@raise A e).
Proof. intros w. reflexivity. Qed.

Lemma keeps_bind {B A C} (f : World -> B) (c : M A) (k : A -> M C) :
  keeps f c -> (forall a, keeps f (k a)) -> keeps f (bind c k).
Proof.
  intros Hc Hk w. unfold bind. specialize (Hc w).
  destruct (c w) as [a w'|e w'|w'|w']; simpl in *; try assumption.
  now rewrite Hk.
Qed.

Lemma data_events_app (t1 t2 : list event) :
  data_events (t1 ++ t2) = data_events t1 ++ data_events t2.
Proof. apply omap_app. Qed.

Lemma keeps_ctl_recv : keeps beyond_hook ctl_recv.
Proof.
  intros w. unfold ctl_recv.
  destruct (ctl_closed w) eqn:Hc; [reflexivity|].
  destruct (ctl_owes w); [reflexivity|].
  destruct (ctl_inbox w); [reflexivity|].
  unfold beyond_hook, data_side. cbn [world_of data_waiting data_closed exchanges
                                       draws trace ctl_closed].
  now rewrite data_events_app, app_nil_r, Hc.
Qed.

Lemma keeps_ctl_send (p : pyval) : keeps beyond_hook (ctl_send p).
Proof.
  intros w. unfold ctl_send.
  destruct (ctl_closed w) eqn:Hc; [reflexivity|].
  destruct (ctl_owes w); [|reflexivity].
  unfold beyond_hook, data_side. cbn [world_of data_waiting data_closed exchanges
                                       draws trace ctl_closed].
  now rewrite data_events_app, app_nil_r, Hc.
Qed.

Lemma keeps_render_call (mode snap : pyval) (flag : bool) :
  keeps beyond_hook (render_call mode snap flag).
Proof.
  intros w. rewrite render_call_eq.
  unfold beyond_hook, data_side, rendered.
  cbn [world_of data_waiting data_closed exchanges draws trace ctl_closed].
  now rewrite data_events_app, app_nil_r.
Qed.

Lemma keeps_early_stop (a : Analyzer) : keeps beyond_hook (early_stop a).
Proof.
  unfold early_stop. apply keeps_bind; [apply keeps_render_call|].
  intros _. apply keeps_ret.
Qed.

Lemma keeps_finish (d : bool) (a : Analyzer) : keeps beyond_hook (finish d a).
Proof.
  unfold finish. apply keeps_bind.
  - destruct d; [apply keeps_early_stop | apply keeps_ret].
  - intros a'. apply keeps_ret.
Qed.

Lemma keeps_ctrl_loop (n : nat) : forall a m, keeps beyond_hook (ctrl_loop n a m).
Proof.
  induction n as [|n IH]; intros a m; cbn [ctrl_loop].
  - destruct (m !! "ctrl"); [|apply keeps_ret]. intros w. reflexivity.
  - destruct (m !! "ctrl") as [c|]; [|apply keeps_ret].
    apply keeps_bind.
    + destruct (eq_str c "_render"); [|apply keeps_ret].
      destruct (m !! "mode"); [|apply keeps_raise].
      apply keeps_bind; [apply keeps_render_call | intros; apply keeps_ctl_send].
    + intros _. destruct (eq_str c "_done").
      * apply keeps_bind; [apply keeps_ctl_send|]. intros _.
        apply keeps_bind; [apply keeps_early_stop | intros; apply keeps_ret].
      * apply keeps_bind; [apply keeps_ctl_recv | intros; apply IH].
Qed.

Lemma keeps_respond (raw state reward : pyval) (is_done : bool) (r : loop_exit) :
  keeps beyond_hook (respond raw state reward is_done r).
Proof.
  destruct r as [a'|a1]; cbn [respond]; [apply keeps_ret|].
  destruct (message a1 ≫= _); [|apply keeps_raise].
  cbv zeta. destruct (last _); [|apply keeps_raise].
  apply keeps_bind; [apply keeps_ctl_send | intros; apply keeps_finish].
Qed.

(** Whatever the controller sends and however the tick ends, [next]
    does nothing on the data side (no exchange with the data provider,
    no pause, no draw of the generator) and does not close the
    controller socket. *)
Theorem next_leaves_data_side (a : Analyzer) (w : World) :
  data_side (world_of (next a w)) = data_side w /\
  ctl_closed (world_of (next a w)) = ctl_closed w.
Proof.
  assert (H : beyond_hook (world_of (next a w)) = beyond_hook w).
  { unfold next.
    destruct (skip_frame (strategy (begin_tick a)) =? 0); [reflexivity|].
    destruct (_ || _); [|apply keeps_finish].
    cbv zeta.
    apply (keeps_bind beyond_hook ctl_recv); [apply keeps_ctl_recv|].
    intros m. apply keeps_bind; [apply keeps_ctrl_loop | apply keeps_respond]. }
  split; [exact (f_equal fst H) | exact (f_equal snd H)].
Qed.

(** ** The controller socket after a tick *)

Lemma ctrl_loop_exit (n : nat) : forall a m w r w',
  ctl_closed w = false -> ctl_owes w = true ->
  ctrl_loop n a m w = Ok r w' ->
  ctl_closed w' = false /\
  ctl_owes w' = match r with Returned _ => false | Fallthrough _ => true end.
Proof.
  induction n as [|n IH]; intros a m w r w' Hc Ho H; cbn [ctrl_loop] in H.
  - destruct (m !! "ctrl"); [discriminate|]. injection H as <- <-. now split.
  - destruct (m !! "ctrl") as [c|]; [|injection H as <- <-; now split].
    unfold bind at 1 in H.
    destruct (eq_str c "_render") eqn:Hr.
    + destruct (m !! "mode") as [mode|]; [|discriminate].
      unfold bind at 1 in H. rewrite render_call_eq in H.
      rewrite ctl_send_owing in H by assumption.
      apply eq_str_true in Hr. subst c.
      change (eq_str (VStr "_render") "_done") with false in H. cbv iota in H.
      unfold bind, ctl_recv in H.
      cbn [ctl_closed ctl_owes ctl_inbox replied rendered] in H. rewrite Hc in H.
      destruct (ctl_inbox w) as [|m' rest]; [discriminate|].
      apply IH in H; [assumption|reflexivity..].
    + unfold ret at 1 in H. destruct (eq_str c "_done").
      * unfold bind at 1 in H. rewrite ctl_send_owing in H by assumption.
        unfold bind in H. rewrite early_stop_eq in H. unfold ret in H.
        injection H as <- <-. now split.
      * unfold bind in H. rewrite ctl_recv_owing in H by assumption. discriminate.
Qed.

(** A tick that returns leaves the controller socket as it found it:
    open and with no reply owed. *)
Theorem next_returns_idle (a a' : Analyzer) (w w' : World) :
  idle w -> next a w = Ok a' w' -> idle w'.
Proof.
  intros [Hc Ho] H. unfold next in H.
  destruct (skip_frame (strategy (begin_tick a)) =? 0); [discriminate|].
  destruct (_ || _).
  - cbv zeta in H. unfold bind at 1 in H. unfold ctl_recv in H.
    rewrite Hc, Ho in H.
    destruct (ctl_inbox w) as [|m rest]; [discriminate|].
    unfold bind at 1 in H.
    match type of H with
    | context [ctrl_loop ?n ?b m ?u] =>
        destruct (ctrl_loop n b m u) as [r u'|e u'|u'|u'] eqn:E; try discriminate
    end.
    apply ctrl_loop_exit in E as [Hc' Ho'];
      [|cbn [ctl_closed]; first [reflexivity|exact Hc]|reflexivity].
    destruct r as [a1|a1]; cbn [respond] in H.
    + injection H as <- <-. now split.
    + destruct (message a1 ≫= _); [|discriminate].
      cbv zeta in H. destruct (last _); [|discriminate].
      unfold bind in H. rewrite ctl_send_owing in H by assumption.
      rewrite finish_eq in H. injection H as <- <-.
      match goal with |- idle (finish_world ?d _ _) => destruct d end; now split.
  - rewrite finish_eq in H. injection H as <- <-.
    match goal with |- idle (finish_world ?d _ _) => destruct d end; now split.
Qed.

(** ** Forced and natural termination *)

(** A [_done] request, after any number of render requests, ends the
    episode inside the tick: it is acknowledged with one string reply,
    the final views are rendered without being sent, the position is
    closed and the engine told to stop. No 4-tuple is sent, the tick
    counter does not move and the record of the tick stays in the info
    batch. *)
Theorem next_done_request (a : Analyzer) (w : World) (rs : list Msg) (m : Msg)
    (rest : list Msg) :
  skip_frame (strategy a) <> 0 -> gate (strategy a) = true -> idle w ->
  ctl_inbox w = rs ++ m :: rest -> Forall is_render rs ->
  m !! "ctrl" = Some (VStr "_done") ->
  exists a' w',
    next a w = Ok a' w' /\
    replies (trace w') =
      replies (trace w) ++ render_replies (step_to_render a) rs (renderer w)
      ++ [VStr "_DONE SIGNAL RECEIVED"] /\
    last (trace w') = Some (Rendered (VList (VStr <$> render_at_stop a)) false) /\
    engine (strategy a') = runstop (close_position (engine (strategy a))) /\
    iteration (strategy a') = iteration (strategy a) /\
    info_list a' = info_list a ++ [get_info (strategy a)] /\
    ctl_inbox w' = rest.
Proof.
  intros Hsk Hg Hidle Hi Hrs Hc.
  eexists _, _. split.
  - rewrite next_open by assumption.
    rewrite Hi, length_app. unfold bind.
    rewrite (await_renders rs _ _ (m :: rest) w Hrs Hidle Hi).
    cbn [length].
    rewrite (await_done _ _ m rest); [reflexivity| |  |assumption].
    + now apply render_phase_idle.
    + now apply render_phase_inbox.
  - cbn [trace rendered replied received ctl_inbox begin_tick set_info_list
         set_strategy step_to_render render_at_stop].
    split; [|split; [apply last_snoc|repeat split]].
    + unfold replies at 1. rewrite !omap_app.
      fold (replies (trace (render_phase (step_to_render a) rs (m :: rest) w))).
      rewrite render_phase_replies. cbn [omap]. cbn.
      now rewrite !app_nil_r, <- app_assoc.
Qed.


(** A render request without [mode] inside a tick: the subscript fails
    with [KeyError] before anything is rendered or sent. *)
Theorem next_render_without_mode (a : Analyzer) (w : World) (rs : list Msg)
    (m : Msg) (rest : list Msg) :
  skip_frame (strategy a) <> 0 -> gate (strategy a) = true -> idle w ->
  ctl_inbox w = rs ++ m :: rest -> Forall is_render rs ->
  m !! "ctrl" = Some (VStr "_render") -> m !! "mode" = None ->
  exists w',
    next a w = Raise (KeyError "mode") w' /\
    replies (trace w') =
      replies (trace w) ++ render_replies (step_to_render a) rs (renderer w) /\
    last (trace w') = Some (CtlRecv m).
Proof.
  intros Hsk Hg Hidle Hi Hrs Hc Hm.
  exists (received m rest (render_phase (step_to_render a) rs (m :: rest) w)).
  split; [|split].
  - rewrite next_open by assumption.
    rewrite Hi, length_app. unfold bind at 1.
    rewrite (await_renders rs _ _ (m :: rest) w Hrs Hidle Hi).
    cbn [length]. unfold await, bind at 1.
    rewrite (ctl_recv_idle _ m rest);
      [|now apply render_phase_idle|now apply render_phase_inbox].
    cbn [ctrl_loop]. rewrite Hc. eval_eq_str. rewrite Hm. reflexivity.
  - cbn [trace received]. unfold replies at 1. rewrite omap_app. cbn [omap].
    rewrite app_nil_r. apply render_phase_replies.
  - apply last_snoc.
Qed.

(** ** Free-running ticks between two communicated ticks *)

Lemma free_ticks (k : nat) : forall a w,
  (forall s, _get_done s = false) ->
  (forall s, iteration (advance s) = iteration s) ->
  (forall s, skip_frame (advance s) = skip_frame s) ->
  skip_frame (strategy a) <> 0 ->
  (forall j : nat, (j < k)%nat ->
     (iteration (strategy a) + Z.of_nat j) mod skip_frame (strategy a) <> 0) ->
  exists a',
    run_ticks k a w = Ok a' w /\
    iteration (strategy a') = iteration (strategy a) + Z.of_nat k /\
    skip_frame (strategy a') = skip_frame (strategy a) /\
    exists recs, length recs = k /\ info_list a' = info_list a ++ recs.
Proof.
  induction k as [|k IH]; intros a w Hnd Hit Hsf Hsk Hfree.
  - exists a. split; [reflexivity|]. split; [simpl; lia|]. split; [reflexivity|].
    exists []. split; [reflexivity|]. now rewrite app_nil_r.
  - assert (Hg : gate (strategy a) = false).
    { unfold gate. rewrite Hnd, orb_false_r. apply Z.eqb_neq.
      specialize (Hfree O). rewrite Z.add_0_r in Hfree. apply Hfree. lia. }
    cbn [run_ticks]. unfold bind. rewrite (next_free_running a w Hsk Hg).
    set (a1 := set_strategy (advance (strategy (housekeeping (begin_tick a))))
                            (housekeeping (begin_tick a))).
    assert (Hi1 : iteration (strategy a1) = iteration (strategy a) + 1).
    { subst a1. cbn [strategy set_strategy]. rewrite Hit. reflexivity. }
    assert (Hs1 : skip_frame (strategy a1) = skip_frame (strategy a)).
    { subst a1. cbn [strategy set_strategy]. rewrite Hsf. reflexivity. }
    destruct (IH a1 w Hnd Hit Hsf) as (a' & Hrun & Hi & Hs & recs & Hlen & Hrecs).
    { now rewrite Hs1. }
    { intros j Hj. rewrite Hi1, Hs1.
      replace (iteration (strategy a) + 1 + Z.of_nat j)
        with (iteration (strategy a) + Z.of_nat (S j)) by lia.
      apply Hfree. lia. }
    exists a'. split; [exact Hrun|]. split; [lia|]. split; [congruence|].
    exists (get_info (strategy a) :: recs). split; [simpl; lia|].
    rewrite Hrecs. subst a1. cbn [info_list set_strategy housekeeping begin_tick
                                   set_info_list].
    now rewrite <- app_assoc.
Qed.

(** With stride [S], after a communicated tick at a counter that is a
    multiple of [S], the next [S - 1] ticks run free: nothing is sent or
    received, one info record per tick is added to the batch, and the
    tick after them is communicated again. The engine is assumed to
    leave the counter and the stride alone between two ticks, and the
    episode not to end meanwhile. *)
Theorem skip_frame_cadence (a : Analyzer) (w : World) (q : Z) :
  (forall s, _get_done s = false) ->
  (forall s, iteration (advance s) = iteration s) ->
  (forall s, skip_frame (advance s) = skip_frame s) ->
  0 < skip_frame (strategy a) ->
  iteration (strategy a) = q * skip_frame (strategy a) + 1 ->
  exists a',
    run_ticks (Z.to_nat (skip_frame (strategy a) - 1)) a w = Ok a' w /\
    iteration (strategy a') = (q + 1) * skip_frame (strategy a) /\
    gate (strategy a') = true /\
    length (info_list a') =
      (length (info_list a) + Z.to_nat (skip_frame (strategy a) - 1))%nat.
Proof.
  intros Hnd Hit Hsf Hpos Hq.
  destruct (free_ticks (Z.to_nat (skip_frame (strategy a) - 1)) a w Hnd Hit Hsf)
    as (a' & Hrun & Hi & Hs & recs & Hlen & Hrecs).
  { lia. }
  { intros j Hj. rewrite Hq.
    replace (q * skip_frame (strategy a) + 1 + Z.of_nat j)
      with (1 + Z.of_nat j + q * skip_frame (strategy a)) by lia.
    rewrite Z_mod_plus_full, Z.mod_small; lia. }
  exists a'. split; [exact Hrun|]. split; [lia|]. split.
  - unfold gate. apply orb_true_iff. left. apply Z.eqb_eq.
    rewrite Hs, Hi, Hq.
    replace (q * skip_frame (strategy a) + 1 +
             Z.of_nat (Z.to_nat (skip_frame (strategy a) - 1)))
      with ((q + 1) * skip_frame (strategy a)) by lia.
    apply Z_mod_mult.
  - rewrite Hrecs, length_app. lia.
Qed.

(** * Further properties of the data side *)

(** ** [get_data]: the provider cannot be reached *)

(** An exchange that fails, at the first attempt or after any number of
    pauses, ends [get_data] at once with [ConnectionError]: the request
    is not repeated, no [_stop] is sent, nothing is slept and the
    controller socket is not touched. *)
Theorem get_data_unreachable (n : nat) (kw : Msg) (wait : float) (w : World) :
  (forall v, provider (exchanges w) <> Reply v) ->
  exists st w',
    get_data_loop (S n) kw wait w = Raise (ConnectionError (unreachable_msg st)) w' /\
    st <> "ok"%string /\
    (data_requests (trace w') = data_requests (trace w) \/
     data_requests (trace w') = data_requests (trace w) ++ [data_request kw]) /\
    sleeps (trace w') = sleeps (trace w) /\
    ctl_side w' = ctl_side w /\
    (exchanges w' <= S (exchanges w))%nat.
Proof.
  intros Hp. rewrite get_data_loop_S. unfold bind, _comm_with_timeout.
  destruct (data_closed w || data_waiting w);
    [|destruct (provider (exchanges w)) eqn:E; [| | | |now contradiction (Hp v)]];
    eexists _, _; cbn [status after_exchange];
    (split; [reflexivity|]); (split; [discriminate|]);
    cbn [trace emit set_data exchanges];
    unfold ctl_side; cbn [ctl_owes ctl_closed ctl_inbox trace emit set_data];
    rewrite ?data_requests_app, ?sleeps_app, ?ctl_events_app;
    cbn [data_requests sleeps ctl_events omap]; rewrite ?app_nil_r;
    (split; [first [now left | now right]|]); repeat split; lia.
Qed.

(** ** [get_data]: the provider becomes ready *)

Lemma get_data_loop_ready (n : nat) (kw : Msg) (wait : float) (v : pyval) (w : World) :
  data_idle w -> provider (exchanges w) = Reply v -> check_ready v = Break ->
  get_data_loop (S n) kw wait w =
  Ok (mkResponse "ok" v) (set_data false [DataSend (data_request kw); DataRecv v] w).
Proof.
  intros Hidle Hv Hchk. rewrite get_data_loop_S. unfold bind.
  rewrite (comm_reply _ v w Hidle Hv). unfold after_exchange.
  cbn [status r_message]. now rewrite Hchk.
Qed.

Lemma get_data_loop_retries (kw : Msg) (vr : pyval) (K : nat) : forall wait w,
  data_idle w ->
  (forall i, (i < K)%nat ->
     exists v, provider (exchanges w + i) = Reply v /\ check_ready v = NotReady) ->
  provider (exchanges w + K) = Reply vr -> check_ready vr = Break ->
  (forall k, (k < K)%nat ->
     float_le (waited wait (draws w) k) (float_of_int 300) = true) ->
  exists w',
    (forall n, (K < n)%nat -> get_data_loop n kw wait w = Ok (mkResponse "ok" vr) w') /\
    sleeps (trace w') = sleeps (trace w) ++ map random_draw (seq (draws w) K) /\
    data_requests (trace w') =
      data_requests (trace w) ++ replicate (S K) (data_request kw) /\
    ctl_side w' = ctl_side w /\
    data_idle w'.
Proof.
  induction K as [|K IH]; intros wait w Hidle Hnr Hr Hchk Hw.
  - rewrite Nat.add_0_r in Hr. eexists. split; [|split; [|split; [|split]]].
    + intros [|n] Hn; [lia|]. now apply get_data_loop_ready.
    + cbn [trace set_data seq map]. rewrite sleeps_app. cbn. reflexivity.
    + cbn [trace set_data replicate]. rewrite data_requests_app. reflexivity.
    + unfold ctl_side. cbn [ctl_owes ctl_closed ctl_inbox trace set_data].
      rewrite ctl_events_app. cbn. now rewrite app_nil_r.
    + destruct Hidle. now split.
  - destruct (Hnr O) as (v & Hv & Hvc); [lia|]. rewrite Nat.add_0_r in Hv.
    destruct (IH (float_add wait (pause_of_draw (draws w))) (paused kw v w))
      as (w' & Hrun & Hsl & Hrq & Hctl & Hid).
    { destruct Hidle. now split. }
    { intros i Hi. cbn [paused exchanges].
      replace (S (exchanges w) + i)%nat with (exchanges w + S i)%nat by lia.
      apply Hnr. lia. }
    { cbn [paused exchanges].
      replace (S (exchanges w) + K)%nat with (exchanges w + S K)%nat by lia.
      exact Hr. }
    { exact Hchk. }
    { intros k Hk. cbn [paused draws]. apply (Hw (S k)). lia. }
    exists w'. split; [|split; [|split; [|split]]].
    + intros [|n] Hn; [lia|].
      rewrite (get_data_loop_pause n kw wait v w Hidle Hv Hvc).
      * apply Hrun. lia.
      * apply (Hw O). lia.
    + rewrite Hsl. cbn [paused trace draws seq map].
      rewrite sleeps_app. cbn [sleeps omap]. now rewrite <- app_assoc.
    + rewrite Hrq. cbn [paused trace]. rewrite data_requests_app.
      cbn [data_requests omap replicate]. now rewrite <- app_assoc.
    + rewrite Hctl. unfold ctl_side. cbn [paused ctl_owes ctl_closed ctl_inbox trace].
      rewrite ctl_events_app. cbn. now rewrite app_nil_r.
    + exact Hid.
Qed.

(** If the provider answers "not ready" [K] times and then sends a reply
    with a sample object and [stat], the accumulated wait, a float, is
    within the budget before each of the [K] pauses, and the sample's
    [describe()] and [reset()] return, then [get_data] returns the
    sample, its description and the dataset statistics after exactly [K]
    pauses and [K + 1] identical requests; no [_stop] is sent and the
    controller socket is not touched. *)
Theorem get_data_after_retries (kw d : Msg) (K : nat) (w : World)
    (h : nat) (trial_stat r dataset_stat : pyval) :
  data_idle w ->
  (forall i, (i < K)%nat ->
     exists v, provider (exchanges w + i) = Reply v /\ check_ready v = NotReady) ->
  provider (exchanges w + K) = Reply (VDict d) -> check_ready (VDict d) = Break ->
  d !! "sample" = Some (VObj h) -> describe h = inr trial_stat -> reset h = inr r ->
  d !! "stat" = Some dataset_stat ->
  (forall k, (k < K)%nat ->
     float_le (waited (float_of_int 0) (draws w) k) (float_of_int 300) = true) ->
  exists w',
    (forall n, (K < n)%nat ->
       get_data n kw w = Ok (VObj h, trial_stat, dataset_stat) w') /\
    sleeps (trace w') = sleeps (trace w) ++ map random_draw (seq (draws w) K) /\
    data_requests (trace w') =
      data_requests (trace w) ++
      replicate (S K) {[ "ctrl" := VStr "_get_data"; "kwargs" := VDict kw ]} /\
    ctl_side w' = ctl_side w.
Proof.
  intros Hidle Hnr Hr Hchk Hs Hde Hre Hd Hw.
  destruct (get_data_loop_retries kw (VDict d) K (float_of_int 0) w Hidle Hnr Hr Hchk Hw)
    as (w' & Hrun & Hsl & Hrq & Hctl & _).
  exists w'. split; [|split; [|split]]; try assumption.
  intros n Hn. unfold get_data, bind. rewrite (Hrun n Hn).
  cbn [r_message subscript]. rewrite Hs. unfold ret at 1. cbn [attr lift].
  rewrite Hde. unfold ret at 1. rewrite Hre. unfold ret at 1. now rewrite Hd.
Qed.

(** What [get_data] makes of a reply that does not carry the marker, in
    the order of the code: a reply that is no dict, or whose [ctrl] is of
    a type without [in], is a [TypeError]; a dict without [sample] is a
    [KeyError]; a [sample] that is no object has no [describe]
    ([AttributeError]); what [describe()] or, after it, [reset()] raises
    is passed on; only then [stat] is read, and a dict without it is a
    [KeyError]. Nothing is retried. *)
Theorem get_data_malformed_reply (n : nat) (kw : Msg) (v : pyval) (w : World) :
  data_idle w -> provider (exchanges w) = Reply v ->
  let w' := set_data false
              [DataSend {[ "ctrl" := VStr "_get_data"; "kwargs" := VDict kw ]};
               DataRecv v] w in
  (forall e, check_ready v = Fault e ->
     get_data (S n) kw w = Raise e w' /\ e = TypeError) /\
  (forall d, v = VDict d -> check_ready v = Break -> d !! "sample" = None ->
     get_data (S n) kw w = Raise (KeyError "sample") w') /\
  (forall d ts, v = VDict d -> check_ready v = Break -> d !! "sample" = Some ts ->
     (forall h, ts <> VObj h) ->
     get_data (S n) kw w = Raise (AttributeError "describe") w') /\
  (forall d h e, v = VDict d -> check_ready v = Break ->
     d !! "sample" = Some (VObj h) -> describe h = inl e ->
     get_data (S n) kw w = Raise e w') /\
  (forall d h st e, v = VDict d -> check_ready v = Break ->
     d !! "sample" = Some (VObj h) -> describe h = inr st -> reset h = inl e ->
     get_data (S n) kw w = Raise e w') /\
  (forall d h st r, v = VDict d -> check_ready v = Break ->
     d !! "sample" = Some (VObj h) -> describe h = inr st -> reset h = inr r ->
     d !! "stat" = None ->
     get_data (S n) kw w = Raise (KeyError "stat") w').
Proof.
  intros Hidle Hv w'. split; [|split; [|split; [|split; [|split]]]].
  - intros e He. split.
    + unfold get_data, bind at 1. rewrite get_data_loop_S. unfold bind.
      rewrite (comm_reply _ v w Hidle Hv). unfold after_exchange.
      cbn [status r_message]. now rewrite He.
    + unfold check_ready in He. destruct v; try (now injection He as <-).
      destruct (d !! "ctrl") as [c|]; [|discriminate].
      destruct c; try (now injection He as <-);
        match type of He with (if ?b then _ else _) = _ => destruct b end;
        discriminate.
  - intros d -> Hchk Hs. unfold get_data, bind.
    rewrite (get_data_loop_ready n kw _ (VDict d) w Hidle Hv Hchk).
    cbn [r_message subscript]. now rewrite Hs.
  - intros d ts -> Hchk Hs Hno. unfold get_data, bind.
    rewrite (get_data_loop_ready n kw _ (VDict d) w Hidle Hv Hchk).
    cbn [r_message subscript]. rewrite Hs. unfold ret at 1.
    destruct ts; try reflexivity. now contradiction (Hno handle).
  - intros d h e -> Hchk Hs Hde. unfold get_data, bind.
    rewrite (get_data_loop_ready n kw _ (VDict d) w Hidle Hv Hchk).
    cbn [r_message subscript]. rewrite Hs. unfold ret at 1. cbn [attr lift].
    now rewrite Hde.
  - intros d h st e -> Hchk Hs Hde Hre. unfold get_data, bind.
    rewrite (get_data_loop_ready n kw _ (VDict d) w Hidle Hv Hchk).
    cbn [r_message subscript]. rewrite Hs. unfold ret at 1. cbn [attr lift].
    rewrite Hde. unfold ret at 1. now rewrite Hre.
  - intros d h st r -> Hchk Hs Hde Hre Hd. unfold get_data, bind.
    rewrite (get_data_loop_ready n kw _ (VDict d) w Hidle Hv Hchk).
    cbn [r_message subscript]. rewrite Hs. unfold ret at 1. cbn [attr lift].
    rewrite Hde. unfold ret at 1. rewrite Hre. unfold ret at 1. now rewrite Hd.
Qed.

(** * Further properties of control mode and of [run] *)

Lemma keeps_data_recv : keeps data_side ctl_recv.
Proof. intros w. exact (f_equal fst (keeps_ctl_recv w)). Qed.

Lemma keeps_data_send (p : pyval) : keeps data_side (ctl_send p).
Proof. intros w. exact (f_equal fst (keeps_ctl_send p w)). Qed.

Lemma keeps_data_render (mode snap : pyval) (flag : bool) :
  keeps data_side (render_call mode snap flag).
Proof. intros w. exact (f_equal fst (keeps_render_call mode snap flag w)). Qed.

Lemma keeps_data_close : keeps data_side ctl_close.
Proof.
  intros w. unfold data_side, ctl_close.
  cbn [world_of data_waiting data_closed exchanges draws trace].
  now rewrite data_events_app, app_nil_r.
Qed.

Lemma keeps_data_destroy : keeps data_side ctx_destroy.
Proof.
  intros w. unfold data_side, ctx_destroy.
  cbn [world_of data_waiting data_closed exchanges draws trace].
  now rewrite data_events_app, app_nil_r.
Qed.

(** Whatever the controller sends, control mode does nothing on the
    data side: no request goes to the data provider, not even on
    [_stop], and the data socket is left as it was. *)
Theorem control_mode_leaves_data_side (er : Msg) (w : World) :
  data_side (world_of (control_mode er w)) = data_side w.
Proof.
  unfold control_mode. generalize (S (length (ctl_inbox w))). intros n.
  revert w. induction n as [|n IH]; intros w; [reflexivity|].
  cbn [control_loop].
  apply (keeps_bind data_side ctl_recv); [apply keeps_data_recv|].
  intros m. destruct (m !! "ctrl") as [c|].
  - destruct (eq_str c "_stop").
    { apply keeps_bind; [apply keeps_data_send|]. intros _.
      apply keeps_bind; [apply keeps_data_close|]. intros _.
      apply keeps_bind; [apply keeps_data_destroy|]. intros _. apply keeps_ret. }
    destruct (eq_str c "_reset").
    { destruct (m !! "kwargs"); [|apply keeps_raise].
      apply keeps_bind; [apply keeps_data_send|]. intros _. apply keeps_ret. }
    destruct (eq_str c "_getstat").
    { apply keeps_bind; [apply keeps_data_send|]. intros _ u. apply IH. }
    destruct (eq_str c "_render" && has_key m "mode").
    { apply keeps_bind; [apply keeps_data_render|]. intros img.
      apply keeps_bind; [apply keeps_data_send|]. intros _ u. apply IH. }
    apply keeps_bind; [apply keeps_data_send|]. intros _ u. apply IH.
  - apply keeps_bind; [apply keeps_data_send|]. intros _ u. apply IH.
Qed.

(** A [_reset] without [kwargs] is not answered: building the reply
    fails with [KeyError], which ends [run]. *)
Theorem control_reset_without_kwargs (er : Msg) (ms : list Msg) (m : Msg)
    (rest : list Msg) (w : World) :
  idle w -> ctl_inbox w = ms ++ m :: rest -> Forall in_place ms ->
  m !! "ctrl" = Some (VStr "_reset") -> m !! "kwargs" = None ->
  exists w',
    control_mode er w = Raise (KeyError "kwargs") w' /\
    ctl_events (trace w') =
      ctl_events (trace w) ++ dialogue er ms (renderer w) ++ [CtlRecv m] /\
    ctl_closed w' = false.
Proof.
  intros Hidle Hi Hms Hc Hk.
  exists (received m rest (serve er ms (m :: rest) w)).
  pose proof (serve_idle er ms (m :: rest) w Hidle) as Hidle'.
  pose proof (serve_inbox er ms (m :: rest) w Hi) as Hi'.
  split; [|split].
  - unfold control_mode. rewrite Hi, length_app, <- Nat.add_succ_r.
    rewrite (control_loop_serve er ms _ (m :: rest) w Hidle Hi Hms).
    cbn [length control_loop]. unfold bind at 1.
    rewrite (ctl_recv_idle _ m rest Hidle' Hi'). rewrite Hc. eval_eq_str.
    now rewrite Hk.
  - cbn [trace received]. rewrite ctl_events_app, serve_events.
    cbn. now rewrite <- app_assoc.
  - apply Hidle'.
Qed.

(** In control mode a [_render] request without [mode] is not a render
    request: the renderer is not called and the reply is the usage hint. *)
Theorem control_render_without_mode (er : Msg) (n : nat) (m : Msg)
    (rest : list Msg) (w : World) :
  idle w -> ctl_inbox w = m :: rest ->
  m !! "ctrl" = Some (VStr "_render") -> m !! "mode" = None ->
  control_loop (S n) er w = control_loop n er (replied usage_hint (received m rest w)) /\
  renderer (replied usage_hint (received m rest w)) = renderer w /\
  trace (replied usage_hint (received m rest w)) =
    trace w ++ [CtlRecv m; CtlSend usage_hint].
Proof.
  intros Hidle Hi Hc Hm. split; [|split].
  - rewrite (control_loop_in_place n er m rest w Hidle Hi).
    + unfold answer_in_place, has_key. rewrite Hc, Hm. eval_eq_str. reflexivity.
    + unfold in_place. rewrite Hc. now split.
  - reflexivity.
  - cbn [trace replied received]. now rewrite <- app_assoc.
Qed.

(** ** The start of [run] *)

Lemma mono_control_loop (er : Msg) (n : nat) : mono (control_loop n er).
Proof.
  induction n as [|n IH]; [intros w; apply extends_refl|].
  cbn [control_loop]. apply mono_bind; [apply mono_ctl_recv|].
  intros m. destruct (m !! "ctrl") as [c|].
  - destruct (eq_str c "_stop").
    { apply mono_bind; [apply mono_ctl_send|]. intros _.
      apply mono_bind; [apply mono_ctl_close|]. intros _.
      apply mono_bind; [apply mono_ctx_destroy|]. intros _. apply mono_ret. }
    destruct (eq_str c "_reset").
    { destruct (m !! "kwargs"); [|apply mono_raise].
      apply mono_bind; [apply mono_ctl_send|]. intros _. apply mono_ret. }
    destruct (eq_str c "_getstat").
    { apply mono_bind; [apply mono_ctl_send|]. intros _. apply IH. }
    destruct (eq_str c "_render" && has_key m "mode").
    { apply mono_bind; [apply mono_render_call|]. intros img.
      apply mono_bind; [apply mono_ctl_send|]. intros _. apply IH. }
    apply mono_bind; [apply mono_ctl_send|]. intros _. apply IH.
  - apply mono_bind; [apply mono_ctl_send|]. intros _. apply IH.
Qed.

Lemma str_in_ok : str_in "ok" "ok" = true.
Proof. reflexivity. Qed.

Lemma run_setup_answered (self : BTgymServer) (v : pyval) (w : World) :
  data_idle w -> provider (exchanges w) = Reply v ->
  run_setup self w = Ok tt (set_up self v w).
Proof.
  intros Hidle Hv. unfold run_setup, bind, setsockopt, attach. cbv zeta.
  rewrite (comm_reply _ v); [|exact Hidle|exact Hv].
  cbn [status]. rewrite str_in_ok. reflexivity.
Qed.

(** [run] pings the data provider before it listens to the controller.
    If the ping is not answered, [run] ends with [ConnectionError] and
    no request of the controller is ever received. If it is answered,
    whatever the answer, control mode starts with an empty result
    record: a first [_getstat] is answered with the empty dict. *)
Theorem run_start_ping (self : BTgymServer) (w : World) :
  data_idle w ->
  ((forall v, provider (exchanges w) <> Reply v) ->
   exists msg w',
     run_start self w = Raise (ConnectionError msg) w' /\
     ctl_side w' = ctl_side w) /\
  (forall v m rest,
     provider (exchanges w) = Reply v -> idle w -> ctl_inbox w = m :: rest ->
     m !! "ctrl" = Some (VStr "_getstat") ->
     exists l,
       replies (trace (world_of (run_start self w))) =
       replies (trace w) ++ VDict ∅ :: l).
Proof.
  intros [Hdc Hdw]. split.
  - intros Hp. unfold run_start, bind at 1.
    unfold run_setup, bind, setsockopt, attach. cbv zeta.
    unfold _comm_with_timeout. cbn [data_closed data_waiting exchanges emit].
    rewrite Hdc, Hdw. cbn [orb].
    destruct (provider (exchanges w)) eqn:E; [| | | |now contradiction (Hp v)];
      eexists _, _; cbn [status]; (split; [reflexivity|]);
      unfold ctl_side; cbn [ctl_owes ctl_closed ctl_inbox trace emit set_data];
      rewrite !ctl_events_app; cbn [ctl_events omap list_omap];
      now rewrite !app_nil_r.
  - intros v m rest Hv Hidle Hi Hc.
    unfold run_start, bind. rewrite (run_setup_answered self v w); [|now split|exact Hv].
    unfold control_mode.
    change (ctl_inbox (set_up self v w)) with (ctl_inbox w). rewrite Hi. cbn [length].
    rewrite (control_loop_in_place _ ∅ m rest (set_up self v w));
      [|exact Hidle|exact Hi|unfold in_place; rewrite Hc; now split].
    destruct (mono_control_loop ∅ (S (length rest))
                (answer_in_place ∅ m rest (set_up self v w))) as [l Hl].
    exists (replies l). rewrite Hl. unfold answer_in_place. rewrite Hc. eval_eq_str.
    cbn [trace replied received set_up set_data emit]. unfold replies.
    rewrite !omap_app. cbn [omap list_omap]. rewrite !app_nil_r.
    now rewrite <- !app_assoc.
Qed.

(** ** The trial configuration of a reset *)

Lemma set_item_over (u c : pydict) (k v : pyval) (u' : pydict) :
  set_item u k v = inr u' -> set_item (over u c) k v = inr (over u' c).
Proof.
  unfold set_item, over. destruct k; cbn [str_items other_keys];
    try (destruct (hashable _); [|discriminate]);
    intros H; injection H as <-; cbn [str_items other_keys]; try reflexivity.
  now rewrite insert_union_l.
Qed.

Lemma merge_seq_over (c : pydict) (items : list pyval) : forall u u',
  merge_seq u items = inr u' -> merge_seq (over u c) items = inr (over u' c).
Proof.
  induction items as [|item items IH]; intros u u' H; cbn [merge_seq] in *.
  - now injection H as <-.
  - destruct (as_pair item) as [e|[k v]]; [discriminate|].
    destruct (set_item u k v) as [e|u1] eqn:E; [discriminate|].
    rewrite (set_item_over u c k v u1 E). now apply IH.
Qed.

Lemma over_no_items (c : pydict) : over no_items c = c.
Proof.
  destruct c as [m b]. unfold over, no_items. cbn [str_items other_keys orb].
  now rewrite (left_id_L ∅ (∪)).
Qed.

(** [c.update(x)] is [c.update(dict(x))]: what [x] gives as a dict of
    its own is laid over [c]. *)
Lemma dict_update_over (c : pydict) (x : pyval) (u : pydict) :
  dict_update no_items x = inr u -> dict_update c x = inr (over u c).
Proof.
  intros H.
  assert (Hseq : forall items, merge_seq no_items items = inr u ->
                               merge_seq c items = inr (over u c)).
  { intros items Hi. rewrite <- (over_no_items c) at 1. now apply merge_seq_over. }
  destruct x; cbn [dict_update sequence] in *; try discriminate; try (now apply Hseq).
  injection H as <-. unfold over, no_items. cbn [str_items other_keys orb].
  now rewrite (right_id_L ∅ (∪)).
Qed.

(** A reset whose [kwargs] has no [trial_config], or whose
    [trial_config], a dict or a sequence of key/value pairs, does not
    set [get_new], is decided by the default configuration: if the
    default asks for a new trial, one is fetched at every such reset
    although a trial is at hand; if it does not, the trial at hand is
    kept and nothing is sent. If neither the request nor the default has
    [get_new], the reset fails with [KeyError] before anything is sent
    to the data provider. *)
Theorem resolve_trial_default (n : nat) (si kw : Msg) (ec : pydict)
    (trial_sample trial_stat dataset_stat : pyval) (w : World) :
  si !! "kwargs" = Some (VDict kw) ->
  update_config si "episode_config" = inr ec ->
  (kw !! "trial_config" = None \/
   exists x u, kw !! "trial_config" = Some x /\
               dict_update no_items x = inr u /\ str_items u !! "get_new" = None) ->
  trial_sample <> VNone ->
  match DataSampleConfig !! "get_new" with
  | Some g =>
      if truthy g
      then exists tc,
             update_config si "trial_config" = inr tc /\
             str_items tc !! "get_new" = Some g /\
             resolve_trial n si trial_sample trial_stat dataset_stat w
             = fetch_trial n tc w
      else world_of (resolve_trial n si trial_sample trial_stat dataset_stat w) = w /\
           forall h name, trial_sample = VObj h -> filename h = inr name ->
             resolve_trial n si trial_sample trial_stat dataset_stat w
             = Ok (trial_sample, trial_stat, dataset_stat) w
  | None =>
      resolve_trial n si trial_sample trial_stat dataset_stat w
      = Raise (KeyError "get_new") w
  end.
Proof.
  intros Hk Hec Ht Hn.
  assert (Htc : exists tc, update_config si "trial_config" = inr tc /\
                           str_items tc !! "get_new" = DataSampleConfig !! "get_new").
  { unfold update_config. rewrite Hk. destruct Ht as [->|(x & u & -> & Hu & Hg)].
    - now eexists.
    - exists (over u (mkDict DataSampleConfig false)).
      split; [exact (dict_update_over _ x u Hu)|].
      cbn [over str_items]. rewrite lookup_union, Hg.
      now destruct (DataSampleConfig !! "get_new"). }
  destruct Htc as (tc & Htc & Hg).
  destruct (DataSampleConfig !! "get_new") as [g|] eqn:Hd.
  - rewrite (resolve_trial_parsed n si _ _ _ w ec tc g Hec Htc Hg).
    replace (is_none trial_sample) with false by (now destruct trial_sample).
    rewrite orb_false_r. destruct (truthy g).
    + now exists tc.
    + split.
      * unfold bind. pose proof (attr_world "filename" filename trial_sample w) as Hw.
        destruct (attr "filename" filename trial_sample w); cbn [world_of] in Hw; now subst.
      * intros h name -> Hfn. unfold bind. cbn [attr]. now rewrite Hfn.
  - unfold resolve_trial, bind at 1. rewrite Hec. cbn [lift ret].
    unfold bind at 1. rewrite Htc. cbn [lift ret]. now rewrite Hg.
Qed.

(** ** The result record of an episode *)

Lemma remove_first_spec (x : string) (l : list string) :
  match remove_first x l with
  | Some r => exists l1 l2, l = l1 ++ x :: l2 /\ r = l1 ++ l2 /\ x ∉ l1
  | None => x ∉ l
  end.
Proof.
  induction l as [|y l IH]; cbn [remove_first].
  - apply not_elem_of_nil.
  - destruct (String.eqb_spec y x) as [->|Hne].
    + exists [], l. repeat split. apply not_elem_of_nil.
    + destruct (remove_first x l) as [r|].
      * destruct IH as (l1 & l2 & -> & -> & Hn).
        exists (y :: l1), l2. repeat split.
        intros [Heq|Hin]%elem_of_cons; [congruence|contradiction].
      * intros [Heq|Hin]%elem_of_cons; [congruence|contradiction].
Qed.

Lemma foldl_insert_lookup (f : string -> pyval) (l : list string) :
  forall (r : Msg) (k : string),
    foldl (fun r name => <[name := f name]> r) r l !! k =
    if bool_decide (k ∈ l) then Some (f k) else r !! k.
Proof.
  induction l as [|y l IH]; intros r k; cbn [foldl].
  - rewrite bool_decide_eq_false_2; [reflexivity|apply not_elem_of_nil].
  - rewrite IH. destruct (decide (k ∈ l)) as [Hin|Hnin].
    + rewrite !bool_decide_eq_true_2; [reflexivity|now right|assumption].
    + rewrite (bool_decide_eq_false_2 (k ∈ l)) by assumption.
      destruct (decide (k = y)) as [->|Hne].
      * rewrite bool_decide_eq_true_2 by now left. apply lookup_insert_eq.
      * rewrite bool_decide_eq_false_2.
        -- now apply lookup_insert_ne.
        -- intros [Heq|Hin]%elem_of_cons; [congruence|contradiction].
Qed.

(** At the end of an episode the result record, which is kept over the
    whole session, gets the entries [episode], [runtime] and [length]
    and one entry per analyzer other than the hook's own; an analyzer
    named like one of the three takes that entry. Entries of earlier
    episodes that are not written again stay in the record. With the
    analyzer names pairwise different, nothing is written for
    [_env_analyzer]. Without an analyzer of that name the collection
    fails with [ValueError] and the record is not changed. *)
Theorem collect_results_entries (er : Msg) (number : Z) (elapsed len : pyval)
    (names : list string) :
  ("_env_analyzer" ∉ names ->
     collect_results er number elapsed len names = inl ValueError) /\
  ("_env_analyzer" ∈ names ->
     exists res rest,
       collect_results er number elapsed len names = inr res /\
       remove_first "_env_analyzer" names = Some rest /\
       (forall k, k ∈ rest -> res !! k = Some (get_analysis k)) /\
       ("episode" ∉ rest -> res !! "episode" = Some (VInt number)) /\
       ("runtime" ∉ rest -> res !! "runtime" = Some elapsed) /\
       ("length" ∉ rest -> res !! "length" = Some len) /\
       (forall k, k ∉ rest -> k <> "episode" -> k <> "runtime" -> k <> "length" ->
                  res !! k = er !! k) /\
       (NoDup names -> res !! "_env_analyzer" = er !! "_env_analyzer")).
Proof.
  unfold collect_results.
  pose proof (remove_first_spec "_env_analyzer" names) as Hspec.
  destruct (remove_first "_env_analyzer" names) as [rest|].
  - destruct Hspec as (l1 & l2 & Hn & Hr & Hl1). split.
    + intros Hnin. exfalso. apply Hnin. rewrite Hn.
      apply elem_of_app. right. now left.
    + intros _. eexists _, rest. split; [reflexivity|]. split; [reflexivity|].
      assert (Hout : forall k, k ∉ rest ->
                foldl (fun r name => <[name := get_analysis name]> r)
                      (<["length" := len]>
                         (<["runtime" := elapsed]>
                            (<["episode" := VInt number]> er))) rest !! k =
                <["length" := len]>
                  (<["runtime" := elapsed]> (<["episode" := VInt number]> er)) !! k).
      { intros k Hk. rewrite foldl_insert_lookup.
        now rewrite bool_decide_eq_false_2. }
      split; [|split; [|split; [|split; [|split]]]].
      * intros k Hk. rewrite foldl_insert_lookup.
        now rewrite bool_decide_eq_true_2.
      * intros Hk. rewrite (Hout _ Hk).
        rewrite lookup_insert_ne by discriminate.
        rewrite lookup_insert_ne by discriminate. apply lookup_insert_eq.
      * intros Hk. rewrite (Hout _ Hk).
        rewrite lookup_insert_ne by discriminate. apply lookup_insert_eq.
      * intros Hk. rewrite (Hout _ Hk). apply lookup_insert_eq.
      * intros k Hk H1 H2 H3. rewrite (Hout _ Hk).
        rewrite !lookup_insert_ne by congruence. reflexivity.
      * intros Hnd.
        assert (Hk : "_env_analyzer" ∉ rest).
        { rewrite Hn in Hnd. apply NoDup_app in Hnd as (_ & _ & Hnd2).
          apply NoDup_cons in Hnd2 as [Hnot _].
          rewrite Hr. intros [Hin|Hin]%elem_of_app; contradiction. }
        rewrite (Hout _ Hk). rewrite !lookup_insert_ne by discriminate. reflexivity.
  - split; [reflexivity|]. intros Hin. contradiction.
Qed.

(** ** The modes rendered at the end of an episode *)

(** The hook renders at the end of an episode the renderer's modes in
    their order without the first ['episode']; a list without it is
    taken as it is. With pairwise different modes ['episode'] is never
    rendered at the end, and every other mode is. *)
Theorem analyzer_init_render_at_stop (modes : list string) (s : Strategy) :
  ("episode" ∉ modes -> render_at_stop (analyzer_init modes s) = modes) /\
  ("episode" ∈ modes ->
     exists l1 l2, modes = l1 ++ "episode" :: l2 /\ ("episode" ∉ l1) /\
                   render_at_stop (analyzer_init modes s) = l1 ++ l2) /\
  (NoDup modes ->
     forall m, m ∈ render_at_stop (analyzer_init modes s) <->
               m ∈ modes /\ m <> "episode") /\
  info_list (analyzer_init modes s) = [] /\
  message (analyzer_init modes s) = None.
Proof using Type.
  unfold analyzer_init. cbn [render_at_stop info_list message].
  pose proof (remove_first_spec "episode" modes) as Hspec.
  destruct (remove_first "episode" modes) as [r|]; cbn [default].
  - destruct Hspec as (l1 & l2 & Hm & Hr & Hl1).
    split; [|split; [|split; [|split; reflexivity]]].
    + intros Hn. exfalso. apply Hn. rewrite Hm. apply elem_of_app. right. left.
    + intros _. exists l1, l2. split; [exact Hm|]. split; [exact Hl1|exact Hr].
    + intros Hnd m. rewrite Hm in Hnd. rewrite Hm.
      apply NoDup_app in Hnd as (_ & Hdis & Hnd2).
      apply NoDup_cons in Hnd2 as [Hnot _].
      unfold id. rewrite Hr, !elem_of_app, elem_of_cons. split.
      * intros [Hin|Hin].
        -- split; [left; exact Hin|]. intros Heq. apply Hl1. rewrite <- Heq. exact Hin.
        -- split; [right; right; exact Hin|]. intros Heq. apply Hnot.
           rewrite <- Heq. exact Hin.
      * intros [[Hin|[Heq|Hin]] Hne];
          [left; exact Hin | exfalso; exact (Hne Heq) | right; exact Hin].
  - split; [|split; [|split; [|split; reflexivity]]].
    + reflexivity.
    + intros Hin. exfalso. exact (Hspec Hin).
    + intros _ m. split.
      * intros Hin. split; [exact Hin|]. intros Heq. apply Hspec.
        rewrite <- Heq. exact Hin.
      * intros [Hin _]. exact Hin.
Qed.


End Server.

Arguments Ok {Renderer A} a w.
Arguments Raise {Renderer A} e w.
Arguments Block {Renderer A} w.
Arguments idle {Renderer} w.
Arguments data_idle {Renderer} w.
Arguments world_of {Renderer A} r.
Arguments trace {Renderer} w.
Arguments ctl_inbox {Renderer} w.
Arguments ctl_closed {Renderer} w.
Arguments data_closed {Renderer} w.
Arguments mkWorld {Renderer}.
Arguments mkStrategy {Engine}.
Arguments mkAnalyzer {Engine}.
Arguments strategy {Engine} a.
Arguments skip_frame {Engine} s.
Arguments iteration {Engine} s.
Arguments info_list {Engine} a.
Arguments step_to_render {Engine} a.
Arguments gate {Engine}.
Arguments rsim {Renderer A}.
Arguments diverges {Renderer A} r.
Arguments action {Engine} s.

(** * A concrete engine and concrete sessions

    The general statements above are instantiated on a small engine: the
    termination flag is never set, the info record of a tick is its
    counter, the state is ten times the counter, the renderer returns
    the requested mode tagged as an image. *)

Definition demo_render (r : unit) (mode snap : pyval) (send_img : bool) : pyval * unit :=
  (VTuple [VStr "image"; mode], tt).
Definition demo_repr (v : pyval) : string := "<message>".
Definition demo_done (s : Strategy unit) : bool := false.
Definition demo_info (s : Strategy unit) : pyval := VInt (iteration s).
Definition demo_raw (s : Strategy unit) : pyval := VStr "raw".
Definition demo_state (s : Strategy unit) : pyval := VInt (10 * iteration s).
Definition demo_reward (s : Strategy unit) : pyval := VInt 0.

Definition demo_next : Analyzer unit -> M unit (Analyzer unit) :=
  next unit demo_render demo_repr unit demo_done demo_info demo_raw demo_state
       demo_reward id id.

Definition demo_done_now (s : Strategy unit) : bool := true.

(** The hook of an episode that has just come to its end. *)
Definition demo_last_next : Analyzer unit -> M unit (Analyzer unit) :=
  next unit demo_render demo_repr unit demo_done_now demo_info demo_raw demo_state
       demo_reward id id.

Definition demo_control : Msg -> M unit ctl_exit :=
  control_mode unit demo_render demo_repr.

(** A fresh world: both sockets open, nothing owed, nothing logged. *)
Definition demo_world (inbox : list Msg) : World unit :=
  mkWorld false false inbox false false 0%nat 0%nat tt [].

(** The analyzer at tick [tick] with stride 2 and the batch [infos]. *)
Definition demo_analyzer (tick : Z) (infos : list pyval) : Analyzer unit :=
  mkAnalyzer None VNone ["human"%string] infos
             (mkStrategy (VStr "buy") (VStr "buy") tick 2 "-" tt).

Definition msg_action (act : string) : Msg := {[ "action" := VStr act ]}.
Definition msg_ctrl (c : string) : Msg := {[ "ctrl" := VStr c ]}.
Definition msg_render : Msg := {[ "ctrl" := VStr "_render"; "mode" := VStr "human" ]}.
Definition msg_other : Msg := {[ "mode" := VStr "human" ]}.
Definition msg_reset (get_new : bool) : Msg :=
  {[ "ctrl" := VStr "_reset";
     "kwargs" := VDict {[ "trial_config" := VDict {[ "get_new" := VBool get_new ]} ]} ]}.

(** The default sampling configuration of the [datafeed] module. *)
Definition demo_config : Msg :=
  {[ "get_new" := VBool true; "sample_type" := VInt 0; "timestamp" := VNone;
     "b_alpha" := VInt 1; "b_beta" := VInt 1 ]}.

(** A provider that is never ready, one that answers at once, and a
    generator whose every pause is 1.5 seconds. *)
Definition busy_provider (i : nat) : xchg :=
  Reply (VDict {[ "ctrl" := VStr "Dataset not ready" ]}).
Definition ready_provider (i : nat) : xchg :=
  Reply (VDict {[ "sample" := VObj 1; "stat" := VObj 2 ]}).
Definition demo_draw (j : nat) : Z := 3 * 2 ^ 51.

(** The objects of the concrete sessions: object 1 is a data sample,
    described by object 3 and read from the file [trial.csv]; no other
    object has the methods of a sample. Dicts are iterated in the order
    of their keys. *)
Definition demo_describe (h : nat) : exn + pyval :=
  match h with
  | 1%nat => inr (VObj 3)
  | _ => inl (AttributeError "describe")
  end.
Definition demo_reset (h : nat) : exn + pyval :=
  match h with
  | 1%nat => inr VNone
  | _ => inl (AttributeError "reset")
  end.
Definition demo_set_logger (h : nat) : exn + pyval :=
  match h with
  | 1%nat => inr VNone
  | _ => inl (AttributeError "set_logger")
  end.
Definition demo_filename (h : nat) : exn + pyval :=
  match h with
  | 1%nat => inr (VStr "trial.csv")
  | _ => inl (AttributeError "filename")
  end.
Definition demo_keys (d : Msg) : list string := (map_to_list d).*1.

Definition demo_get_data (provider : nat -> xchg) (draw : nat -> Z)
    : nat -> Msg -> M unit (pyval * pyval * pyval) :=
  get_data unit provider draw demo_describe demo_reset.

Definition demo_resolve : nat -> Msg -> pyval -> pyval -> pyval
                          -> M unit (pyval * pyval * pyval) :=
  resolve_trial unit ready_provider demo_draw demo_describe demo_reset
                demo_set_logger demo_filename demo_config demo_keys.

Definition demo_update_config : Msg -> string -> exn + pydict :=
  update_config demo_config demo_keys.

(** A generator that draws 0.75 (a pause of 1.5 seconds) two hundred
    times and [2^-53] (a pause of [2^-52] seconds) from then on. *)
Definition stalling_draw (j : nat) : Z :=
  if (j <? 200)%nat then 3 * 2 ^ 51 else 1.

(** The trial configuration a reset with the given [get_new] leads to. *)
Definition trial_config_of (get_new : bool) : Msg :=
  {[ "get_new" := VBool get_new ]} ∪ demo_config.

(** The exception a computation ended with, if any. *)
Definition raised {R A} (r : result R A) : option exn :=
  match r with
  | Raise e _ => Some e
  | _ => None
  end.

(** ** C4 on a free-running and on a communicated tick *)

Lemma C4_witness :
  idle (demo_world [msg_action "buy"]) /\
  (exists a',
     demo_next (demo_analyzer 1 []) (demo_world [msg_action "buy"])
     = Ok a' (demo_world [msg_action "buy"]) /\
     action (strategy a') = VStr "hold") /\
  (exists a' w',
     demo_next (demo_analyzer 2 []) (demo_world [msg_action "buy"]) = Ok a' w' /\
     trace w' =
       [CtlRecv (msg_action "buy");
        CtlSend (VTuple [VInt 20; VInt 0; VBool false; VList [VInt 2]])] /\
     action (strategy a') = VStr "buy").
Proof.
  assert (Hidle : idle (demo_world [msg_action "buy"])) by (split; reflexivity).
  split; [exact Hidle|]. split.
  - destruct (C4_gate_communication unit demo_render demo_repr unit demo_done demo_info
                demo_raw demo_state demo_reward id id (demo_analyzer 1 []) _ Hidle)
      as (_ & Hfree & _).
    destruct Hfree as (a' & Hrun & Hact & _);
      [discriminate | discriminate | reflexivity |].
    exists a'. split; [exact Hrun | exact Hact].
  - destruct (C4_gate_communication unit demo_render demo_repr unit demo_done demo_info
                demo_raw demo_state demo_reward id id (demo_analyzer 2 []) _ Hidle)
      as (_ & _ & Hopen).
    destruct Hopen as (_ & Haction & _); [discriminate | left; reflexivity |].
    destruct (Haction (VStr "buy")) as (a' & w' & Hrun & Htr & Hact);
      [reflexivity | reflexivity |].
    exists a', w'. split; [exact Hrun|]. split; [exact Htr | exact Hact].
Defined.

(** With stride 0 and the termination flag set, a request pending: the
    tick fails at the gate and nothing is received or sent. *)
Lemma C4_counterexample :
  let a := mkAnalyzer None VNone ["human"%string] []
                      (mkStrategy (VStr "buy") (VStr "buy") 3 0 "-" tt) in
  let w := demo_world [msg_action "buy"] in
  demo_done_now (strategy a) = true /\
  idle w /\
  demo_last_next a w = Raise ZeroDivisionError w /\
  trace w = [].
Proof.
  cbv zeta. split; [reflexivity|]. split; [split; reflexivity|].
  split; reflexivity.
Qed.

(** ** C2 on two ticks with stride 2 *)

Lemma C2_witness :
  gate demo_done (strategy (demo_analyzer 2 [VInt 1])) = true /\
  msg_action "buy" !! "ctrl" = None /\
  exists a' w' state reward raw,
    demo_next (demo_analyzer 2 [VInt 1]) (demo_world [msg_action "buy"]) = Ok a' w' /\
    replies (trace w') = [VTuple [state; reward; VBool false; VList [VInt 2]]] /\
    step_to_render a' =
      VTuple [VDict {[ "human" := raw ]}; state; reward; VBool false;
              VList [VInt 1; VInt 2]] /\
    info_list a' = [].
Proof.
  split; [reflexivity|]. split; [reflexivity|].
  apply (C2_info_is_latest_record unit demo_render demo_repr unit demo_done
           demo_info demo_raw demo_state demo_reward id id
           (demo_analyzer 2 [VInt 1]) (demo_world [msg_action "buy"])
           (msg_action "buy") [] (VStr "buy")).
  - simpl. lia.
  - reflexivity.
  - split; reflexivity.
  - reflexivity.
  - reflexivity.
  - reflexivity.
Defined.

(** With stride 2, the tick at counter 1 runs free and the tick at
    counter 2 is communicated: two records are in the batch, the reply
    carries the second one only. *)
Lemma C2_counterexample :
  exists a1 w1 a2 w2 human,
    demo_next (demo_analyzer 1 []) (demo_world [msg_action "buy"]) = Ok a1 w1 /\
    trace w1 = [] /\
    demo_next a1 w1 = Ok a2 w2 /\
    step_to_render a2 =
      VTuple [human; VInt 20; VInt 0; VBool false; VList [VInt 1; VInt 2]] /\
    replies (trace w2) = [VTuple [VInt 20; VInt 0; VBool false; VList [VInt 2]]] /\
    VList [VInt 2] <> VList [VInt 1; VInt 2].
Proof.
  eexists _, _, _, _, _.
  split; [vm_compute; reflexivity|].
  split; [reflexivity|].
  split; [vm_compute; reflexivity|].
  split; [reflexivity|].
  split; [reflexivity|].
  discriminate.
Qed.

(** ** C3 with two render requests in front of the action *)

Lemma C3_witness :
  Forall is_render [msg_render; msg_render] /\
  exists a' w1 w2,
    demo_next (demo_analyzer 2 [VInt 1])
              (demo_world [msg_render; msg_render; msg_action "sell"]) = Ok a' w1 /\
    demo_next (demo_analyzer 2 [VInt 1]) (demo_world [msg_action "sell"]) = Ok a' w2 /\
    replies (trace w1) =
      [VTuple [VStr "image"; VStr "human"]; VTuple [VStr "image"; VStr "human"];
       VTuple [VInt 20; VInt 0; VBool false; VList [VInt 2]]] /\
    replies (trace w2) = [VTuple [VInt 20; VInt 0; VBool false; VList [VInt 2]]].
Proof.
  assert (Hr : is_render msg_render) by (split; [reflexivity | eexists; reflexivity]).
  assert (Hrs : Forall is_render [msg_render; msg_render])
    by (constructor; [exact Hr | constructor; [exact Hr | constructor]]).
  split; [exact Hrs|].
  destruct (C3_render_keeps_turn unit demo_render demo_repr unit demo_done
              demo_info demo_raw demo_state demo_reward id id
              (demo_analyzer 2 [VInt 1]) (demo_world [])
              [msg_render; msg_render] (msg_action "sell") [] (VStr "sell"))
    as (a' & w1 & w2 & H1 & H2 & H3 & H4 & _).
  - simpl. lia.
  - reflexivity.
  - split; reflexivity.
  - exact Hrs.
  - reflexivity.
  - reflexivity.
  - exists a', w1, w2. split; [exact H1|]. split; [exact H2|].
    split; [rewrite H3; reflexivity | rewrite H4; reflexivity].
Defined.

(** ** C5 with a [_getstat] sent in the middle of a tick *)

Lemma C5_witness :
  eq_str (VStr "_getstat") "_render" = false /\
  eq_str (VStr "_getstat") "_done" = false /\
  exists w',
    demo_next (demo_analyzer 2 [])
              (demo_world [msg_render; msg_ctrl "_getstat"; msg_action "buy"])
    = Raise ZMQError_EFSM w' /\
    replies (trace w') = [VTuple [VStr "image"; VStr "human"]] /\
    last (trace w') = Some (CtlRecv (msg_ctrl "_getstat")) /\
    ctl_inbox w' = [msg_action "buy"].
Proof.
  split; [reflexivity|]. split; [reflexivity|].
  apply (C5_unknown_ctrl_raises unit demo_render demo_repr unit demo_done
           demo_info demo_raw demo_state demo_reward id id
           (demo_analyzer 2 [])
           (demo_world [msg_render; msg_ctrl "_getstat"; msg_action "buy"])
           [msg_render] (msg_ctrl "_getstat") [msg_action "buy"] (VStr "_getstat")).
  - simpl. lia.
  - reflexivity.
  - split; reflexivity.
  - reflexivity.
  - constructor; [|constructor].
    split; [reflexivity | eexists; reflexivity].
  - reflexivity.
  - reflexivity.
  - reflexivity.
Defined.

(** ** C1 and C9 on a control-mode session that ends with [_stop] *)

Lemma C1_witness :
  Forall in_place [msg_ctrl "_getstat"; msg_render; msg_ctrl "ping"; msg_action "buy"] /\
  exists w'',
    demo_control ∅
      (demo_world [msg_ctrl "_getstat"; msg_render; msg_ctrl "ping";
                   msg_action "buy"; msg_ctrl "_stop"; msg_ctrl "_getstat"])
    = Ok Stopped w'' /\
    length (replies (trace w'')) = 5%nat /\
    ctl_closed w'' = true /\
    ctl_inbox w'' = [msg_ctrl "_getstat"].
Proof.
  assert (Hms : Forall in_place
                  [msg_ctrl "_getstat"; msg_render; msg_ctrl "ping"; msg_action "buy"]).
  { constructor; [split; reflexivity|].
    constructor; [split; reflexivity|].
    constructor; [split; reflexivity|].
    constructor; [exact I|constructor]. }
  split; [exact Hms|].
  destruct (C1_control_mode_alternation unit demo_render demo_repr ∅
              (demo_world [msg_ctrl "_getstat"; msg_render; msg_ctrl "ping";
                           msg_action "buy"; msg_ctrl "_stop"; msg_ctrl "_getstat"])
              [msg_ctrl "_getstat"; msg_render; msg_ctrl "ping"; msg_action "buy"]
              [msg_ctrl "_stop"; msg_ctrl "_getstat"])
    as (_ & _ & _ & Hstop & _).
  - split; reflexivity.
  - reflexivity.
  - exact Hms.
  - destruct (Hstop eq_refl) as (w'' & Hrun & _ & _).
    exists w''. vm_compute in Hrun. injection Hrun as <-.
    repeat split.
Defined.

Lemma C9_witness :
  msg_ctrl "_stop" !! "ctrl" = Some (VStr "_stop") /\
  exists w',
    demo_control ∅ (demo_world [msg_ctrl "_stop"]) = Ok Stopped w' /\
    trace w' = [CtlRecv (msg_ctrl "_stop"); CtlSend (VStr "Exiting."); CtlClose; CtlDestroy] /\
    ctl_closed w' = true /\
    data_closed w' = false.
Proof.
  split; [reflexivity|].
  destruct (C9_stop_releases_controller_channel unit demo_render demo_repr ∅
              (demo_world [msg_ctrl "_stop"]) (msg_ctrl "_stop") [])
    as (w' & Hrun & Htr & Hcl & Hd & _).
  - split; reflexivity.
  - reflexivity.
  - reflexivity.
  - exists w'. split; [exact Hrun|]. split; [exact Htr|]. split; [exact Hcl|exact Hd].
Defined.

(** After [_stop] the controller socket is closed; the data socket is
    still open and nothing was sent on it. *)
Lemma C9_counterexample :
  exists w',
    demo_control ∅ (demo_world [msg_ctrl "_stop"]) = Ok Stopped w' /\
    ctl_closed w' = true /\
    data_closed w' = false /\
    data_requests (trace w') = [].
Proof.
  eexists. split; [vm_compute; reflexivity|]. repeat split.
Qed.

(** ** C6 in both modes *)

Lemma C6_witness :
  msg_other !! "ctrl" = None /\ msg_other !! "action" = None /\
  (exists s w',
     control_loop unit demo_render demo_repr 1 ∅ (demo_world [msg_other]) =
     control_loop unit demo_render demo_repr 0 ∅ w' /\
     trace w' = [CtlRecv msg_other; CtlSend (VStr s)]) /\
  (exists msg w',
     demo_next (demo_analyzer 2 []) (demo_world [msg_other]) =
     Raise (AssertionError msg) w' /\
     trace w' = [CtlRecv msg_other]).
Proof.
  split; [reflexivity|]. split; [reflexivity|].
  destruct (C6_neither_ctrl_nor_action unit demo_render demo_repr unit demo_done
              demo_info demo_raw demo_state demo_reward id id
              msg_other [] (demo_world [msg_other]))
    as [Hctl Hep].
  - reflexivity.
  - reflexivity.
  - split; reflexivity.
  - reflexivity.
  - split.
    + destruct (Hctl ∅ 0%nat) as (s & w' & H1 & H2 & _).
      exists s, w'. split; [exact H1|exact H2].
    + apply (Hep (demo_analyzer 2 [])); [simpl; lia|reflexivity].
Defined.

(** In episode mode the message gets no reply at all: the tick ends with
    the assertion error. *)
Lemma C6_counterexample :
  exists msg w',
    demo_next (demo_analyzer 2 []) (demo_world [msg_other]) =
    Raise (AssertionError msg) w' /\
    trace w' = [CtlRecv msg_other] /\
    replies (trace w') = [].
Proof.
  eexists _, _. split; [vm_compute; reflexivity|]. split; reflexivity.
Qed.

(** ** C7 against a provider that is never ready *)

Lemma bounded_check (f : nat -> bool) (n : nat) :
  forallb f (seq 0 n) = true -> forall k, (k < n)%nat -> f k = true.
Proof.
  intros H k Hk. rewrite forallb_forall in H. apply H.
  apply in_seq. lia.
Qed.

(** With pauses of 1.5 seconds the accumulated wait is 300.0 after 200
    pauses and 301.5 after 201: the loop gives up after 201 pauses. *)
Lemma C7_witness :
  never_ready busy_provider /\ data_idle (demo_world []) /\
  exists w' v,
    (forall n, (201 < n)%nat ->
       demo_get_data busy_provider demo_draw n demo_config (demo_world [])
       = Raise (RuntimeError "Failed to assert Domain dataset is ready. Exiting.") w') /\
    ctl_closed w' = true /\
    sleeps (trace w') = map demo_draw (seq 0 201) /\
    exists pre, trace w' =
      pre ++ [DataSend {[ "ctrl" := VStr "_stop" ]}; DataRecv v; CtlClose; CtlDestroy].
Proof.
  assert (Hnr : never_ready busy_provider).
  { intros i. eexists. split; reflexivity. }
  assert (Hidle : data_idle (demo_world [])) by (split; reflexivity).
  split; [exact Hnr|]. split; [exact Hidle|].
  destruct (C7_get_data_gives_up unit busy_provider demo_draw demo_describe demo_reset
              demo_config (demo_world []) Hnr Hidle) as [Hup _].
  destruct (Hup 201%nat) as (w' & v & Hrun & Hcl & Hsl & _ & pre & Htr).
  - apply (bounded_check
             (fun k => float_le (waited demo_draw (float_of_int 0) 0 k) (float_of_int 300))).
    vm_compute. reflexivity.
  - vm_compute. reflexivity.
  - exists w', v. split; [exact Hrun|]. split; [exact Hcl|]. split; [exact Hsl|].
    exists pre. exact Htr.
Defined.

Lemma stalled_at_300 (b : nat) : forall j, (200 <= j)%nat ->
  waited stalling_draw (float_of_int 300) j b = float_of_int 300.
Proof.
  induction b as [|b IH]; intros j Hj; cbn [waited]; [reflexivity|].
  unfold pause_of_draw, stalling_draw.
  replace (j <? 200)%nat with false by (symmetry; apply Nat.ltb_ge; lia).
  change (float_add (float_of_int 300) (float_mul (random_float 1) (float_of_int 2)))
    with (float_of_int 300).
  apply IH. lia.
Qed.

Lemma stalling_within_budget (k : nat) :
  float_le (waited stalling_draw (float_of_int 0) 0 k) (float_of_int 300) = true.
Proof.
  destruct (Nat.lt_ge_cases k 201) as [Hk|Hk].
  - revert k Hk.
    apply (bounded_check
             (fun k => float_le (waited stalling_draw (float_of_int 0) 0 k)
                                (float_of_int 300))).
    vm_compute. reflexivity.
  - replace k with (200 + (k - 200))%nat by lia.
    rewrite waited_app.
    change (waited stalling_draw (float_of_int 0) 0 200) with (float_of_int 300).
    rewrite stalled_at_300 by lia. reflexivity.
Qed.

(** Every exchange succeeds with a reply that carries the marker and
    every pause is positive, yet [get_data] never gives up: after two
    hundred pauses of 1.5 seconds the accumulated wait is the float
    300.0, which a pause of [2^-52] seconds does not change, and
    [300.0 <= 300] holds. Whatever the number of rounds, the loop is
    still running: no [_stop] was sent, the controller socket is open. *)
Lemma C7_counterexample :
  never_ready busy_provider /\ positive_draws stalling_draw /\
  data_idle (demo_world []) /\
  forall n,
    let r := demo_get_data busy_provider stalling_draw n demo_config (demo_world []) in
    diverges r /\ ctl_closed (world_of r) = false /\
    stop_msg ∉ data_requests (trace (world_of r)).
Proof.
  assert (Hnr : never_ready busy_provider).
  { intros i. eexists. split; reflexivity. }
  assert (Hidle : data_idle (demo_world [])) by (split; reflexivity).
  split; [exact Hnr|]. split.
  { intros j. unfold stalling_draw. destruct (j <? 200)%nat; split; reflexivity. }
  split; [exact Hidle|].
  intros n. cbv zeta.
  exact (get_data_stalls unit busy_provider stalling_draw demo_describe demo_reset
           demo_config (demo_world []) Hnr Hidle stalling_within_budget n).
Qed.

(** ** C8 on a fresh session *)



(** * The further properties on concrete sessions *)

Arguments ctl_side {Renderer} w.
Arguments data_side {Renderer} w.
Arguments render_at_stop {Engine} a.
Arguments engine {Engine} s.

(** An analyzer with stride 4, just after the communicated tick 4. *)
Definition demo_analyzer4 : Analyzer unit :=
  mkAnalyzer None VNone ["human"%string] []
             (mkStrategy (VStr "hold") (VStr "hold") 5 4 "-" tt).

(** Providers: one whose receive times out, one that answers with a
    string, one that is not ready twice and then sends the sample. *)
Definition dead_provider (i : nat) : xchg := RecvTimeout.
Definition odd_provider (i : nat) : xchg := Reply (VStr "pong").
Definition slow_provider (i : nat) : xchg :=
  match i with
  | O | S O => Reply (VDict {[ "ctrl" := VStr "Dataset not ready" ]})
  | _ => Reply (VDict {[ "sample" := VObj 1; "stat" := VObj 2 ]})
  end.

Definition demo_server : BTgymServer :=
  __init__ "tcp://127.0.0.1:5500" "tcp://127.0.0.1:4999" None None.

Definition msg_bare_reset : Msg := {[ "ctrl" := VStr "_reset"; "kwargs" := VDict ∅ ]}.

(** A reset whose trial configuration is a list of key/value pairs. *)
Definition msg_pairs_reset : Msg :=
  {[ "ctrl" := VStr "_reset";
     "kwargs" := VDict {[ "trial_config" :=
                            VList [VTuple [VStr "sample_type"; VInt 1]] ]} ]}.

(** A provider whose sample is the name of a file. *)
Definition text_provider (i : nat) : xchg :=
  Reply (VDict {[ "sample" := VStr "data.csv"; "stat" := VObj 2 ]}).

Example analyzer_init_modes :
  render_at_stop (analyzer_init unit ["human"; "episode"; "agent"]%string
                                (mkStrategy VNone VNone 0 1 "-" tt))
  = ["human"; "agent"]%string /\
  render_at_stop (analyzer_init unit ["episode"; "human"; "episode"]%string
                                (mkStrategy VNone VNone 0 1 "-" tt))
  = ["human"; "episode"]%string.
Proof. split; reflexivity. Qed.

Lemma next_returns_idle_witness :
  exists a' w',
    demo_next (demo_analyzer 2 []) (demo_world [msg_render; msg_action "buy"]) = Ok a' w' /\
    idle w'.
Proof.
  destruct (demo_next (demo_analyzer 2 []) (demo_world [msg_render; msg_action "buy"]))
    as [a' w'|e w'|w'|w'] eqn:E; try (vm_compute in E; discriminate E).
  exists a', w'. split; [reflexivity|].
  apply (next_returns_idle unit demo_render demo_repr unit demo_done demo_info
           demo_raw demo_state demo_reward id id
           (demo_analyzer 2 []) a'
           (demo_world [msg_render; msg_action "buy"]) w').
  - split; reflexivity.
  - exact E.
Defined.

Lemma next_done_request_witness :
  exists a' w',
    demo_next (demo_analyzer 2 [VInt 1])
              (demo_world [msg_render; msg_ctrl "_done"; msg_ctrl "_getstat"])
    = Ok a' w' /\
    replies (trace w') =
      [VTuple [VStr "image"; VStr "human"]; VStr "_DONE SIGNAL RECEIVED"] /\
    iteration (strategy a') = 2 /\
    info_list a' = [VInt 1; VInt 2] /\
    ctl_inbox w' = [msg_ctrl "_getstat"].
Proof.
  destruct (next_done_request unit demo_render demo_repr unit demo_done demo_info
              demo_raw demo_state demo_reward id id
              (demo_analyzer 2 [VInt 1])
              (demo_world [msg_render; msg_ctrl "_done"; msg_ctrl "_getstat"])
              [msg_render] (msg_ctrl "_done") [msg_ctrl "_getstat"])
    as (a' & w' & H1 & H2 & _ & _ & H5 & H6 & H7).
  - simpl. lia.
  - reflexivity.
  - split; reflexivity.
  - reflexivity.
  - constructor; [|constructor]. split; [reflexivity | eexists; reflexivity].
  - reflexivity.
  - exists a', w'. split; [exact H1|]. split; [rewrite H2; reflexivity|].
    split; [exact H5|]. split; [exact H6|exact H7].
Defined.


Lemma next_render_without_mode_witness :
  exists w',
    demo_next (demo_analyzer 2 []) (demo_world [msg_ctrl "_render"; msg_action "buy"])
    = Raise (KeyError "mode") w' /\
    replies (trace w') = [].
Proof.
  destruct (next_render_without_mode unit demo_render demo_repr unit demo_done
              demo_info demo_raw demo_state demo_reward id id
              (demo_analyzer 2 [])
              (demo_world [msg_ctrl "_render"; msg_action "buy"])
              [] (msg_ctrl "_render") [msg_action "buy"])
    as (w' & H1 & H2 & _).
  - simpl. lia.
  - reflexivity.
  - split; reflexivity.
  - reflexivity.
  - constructor.
  - reflexivity.
  - reflexivity.
  - exists w'. split; [exact H1|exact H2].
Defined.

Lemma skip_frame_cadence_witness :
  exists a',
    run_ticks unit demo_render demo_repr unit demo_done demo_info demo_raw
              demo_state demo_reward id id id 3 demo_analyzer4 (demo_world [])
    = Ok a' (demo_world []) /\
    iteration (strategy a') = 8 /\
    gate demo_done (strategy a') = true /\
    length (info_list a') = 3%nat.
Proof.
  apply (skip_frame_cadence unit demo_render demo_repr unit demo_done demo_info
           demo_raw demo_state demo_reward id id id demo_analyzer4 (demo_world []) 1).
  - intros s. reflexivity.
  - intros s. reflexivity.
  - intros s. reflexivity.
  - simpl. lia.
  - reflexivity.
Defined.

Lemma get_data_unreachable_witness :
  exists st w',
    get_data_loop unit dead_provider demo_draw 1 demo_config (float_of_int 0)
                  (demo_world [])
    = Raise (ConnectionError (unreachable_msg st)) w' /\
    sleeps (trace w') = [] /\
    ctl_side w' = ctl_side (demo_world []).
Proof.
  destruct (get_data_unreachable unit dead_provider demo_draw 0 demo_config
              (float_of_int 0) (demo_world []))
    as (st & w' & H1 & _ & _ & H4 & H5 & _).
  - intros v. discriminate.
  - exists st, w'. split; [exact H1|]. split; [exact H4|exact H5].
Defined.

Lemma get_data_after_retries_witness :
  exists w',
    (forall n, (2 < n)%nat ->
       demo_get_data slow_provider demo_draw n demo_config (demo_world [])
       = Ok (VObj 1, VObj 3, VObj 2) w') /\
    sleeps (trace w') = [demo_draw 0; demo_draw 1] /\
    length (data_requests (trace w')) = 3%nat.
Proof.
  destruct (get_data_after_retries unit slow_provider demo_draw demo_describe demo_reset
              demo_config {[ "sample" := VObj 1; "stat" := VObj 2 ]} 2
              (demo_world []) 1 (VObj 3) VNone (VObj 2))
    as (w' & H1 & H2 & H3 & _).
  - split; reflexivity.
  - intros i Hi. destruct i as [|[|i]]; [eexists; split; reflexivity..|lia].
  - reflexivity.
  - reflexivity.
  - reflexivity.
  - reflexivity.
  - reflexivity.
  - reflexivity.
  - intros k Hk. destruct k as [|[|k]]; [vm_compute; reflexivity..|lia].
  - exists w'. split; [exact H1|]. split; [exact H2|]. rewrite H3. reflexivity.
Defined.

(** A reply that is a string, and a reply whose sample is a string. *)
Lemma get_data_malformed_reply_witness :
  (exists w',
     demo_get_data odd_provider demo_draw 1 demo_config (demo_world [])
     = Raise TypeError w') /\
  (exists w',
     demo_get_data text_provider demo_draw 1 demo_config (demo_world [])
     = Raise (AttributeError "describe") w').
Proof.
  split.
  - destruct (get_data_malformed_reply unit odd_provider demo_draw demo_describe
                demo_reset 0 demo_config (VStr "pong") (demo_world []))
      as (H1 & _).
    + split; reflexivity.
    + reflexivity.
    + eexists. apply (H1 TypeError). reflexivity.
  - destruct (get_data_malformed_reply unit text_provider demo_draw demo_describe
                demo_reset 0 demo_config
                (VDict {[ "sample" := VStr "data.csv"; "stat" := VObj 2 ]})
                (demo_world []))
      as (_ & _ & H3 & _).
    + split; reflexivity.
    + reflexivity.
    + eexists.
      apply (H3 {[ "sample" := VStr "data.csv"; "stat" := VObj 2 ]} (VStr "data.csv"));
        try reflexivity.
      intros h. discriminate.
Defined.

Lemma control_reset_without_kwargs_witness :
  exists w',
    demo_control ∅ (demo_world [msg_ctrl "_getstat"; msg_ctrl "_reset"])
    = Raise (KeyError "kwargs") w' /\
    ctl_closed w' = false.
Proof.
  destruct (control_reset_without_kwargs unit demo_render demo_repr ∅
              [msg_ctrl "_getstat"] (msg_ctrl "_reset") []
              (demo_world [msg_ctrl "_getstat"; msg_ctrl "_reset"]))
    as (w' & H1 & _ & H3).
  - split; reflexivity.
  - reflexivity.
  - constructor; [split; reflexivity|constructor].
  - reflexivity.
  - reflexivity.
  - exists w'. split; [exact H1|exact H3].
Defined.

Lemma control_render_without_mode_witness :
  exists w',
    control_loop unit demo_render demo_repr 1 ∅ (demo_world [msg_ctrl "_render"])
    = control_loop unit demo_render demo_repr 0 ∅ w' /\
    trace w' = [CtlRecv (msg_ctrl "_render"); CtlSend usage_hint].
Proof.
  destruct (control_render_without_mode unit demo_render demo_repr ∅ 0
              (msg_ctrl "_render") [] (demo_world [msg_ctrl "_render"]))
    as (H1 & _ & H3).
  - split; reflexivity.
  - reflexivity.
  - reflexivity.
  - reflexivity.
  - eexists. split; [exact H1|exact H3].
Defined.

Lemma run_start_ping_witness :
  (exists msg w',
     run_start unit demo_render dead_provider demo_repr demo_server
               (demo_world [msg_ctrl "_getstat"])
     = Raise (ConnectionError msg) w' /\
     ctl_inbox w' = [msg_ctrl "_getstat"]) /\
  (exists l,
     replies (trace (world_of
       (run_start unit demo_render odd_provider demo_repr demo_server
                  (demo_world [msg_ctrl "_getstat"]))))
     = VDict ∅ :: l).
Proof.
  split.
  - destruct (run_start_ping unit demo_render dead_provider demo_repr demo_server
                (demo_world [msg_ctrl "_getstat"])) as [Hdead _].
    + split; reflexivity.
    + destruct Hdead as (msg & w' & H1 & H2); [intros v; discriminate|].
      exists msg, w'. split; [exact H1|].
      exact (f_equal (fun x => snd (fst x)) H2).
  - destruct (run_start_ping unit demo_render odd_provider demo_repr demo_server
                (demo_world [msg_ctrl "_getstat"])) as [_ Hok].
    + split; reflexivity.
    + apply (Hok (VStr "pong") (msg_ctrl "_getstat") []); try reflexivity.
      split; reflexivity.
Defined.

(** A reset whose trial configuration is a list with one pair that
    sets [sample_type]: the default [get_new] asks for a new trial. *)
Lemma resolve_trial_default_witness :
  exists tc,
    demo_update_config msg_pairs_reset "trial_config" = inr tc /\
    str_items tc !! "get_new" = Some (VBool true) /\
    str_items tc !! "sample_type" = Some (VInt 1) /\
    demo_resolve 1 msg_pairs_reset (VObj 1) (VObj 3) (VObj 2) (demo_world [])
    = fetch_trial unit ready_provider demo_draw demo_describe demo_reset
                  demo_set_logger demo_filename 1 tc (demo_world []).
Proof.
  pose proof (resolve_trial_default unit ready_provider demo_draw demo_describe
                demo_reset demo_set_logger demo_filename demo_config demo_keys 1
                msg_pairs_reset
                {[ "trial_config" := VList [VTuple [VStr "sample_type"; VInt 1]] ]}
                (mkDict demo_config false) (VObj 1) (VObj 3) (VObj 2)
                (demo_world [])) as H.
  destruct H as (tc & Htc & Hg & Hrun).
  - reflexivity.
  - vm_compute. reflexivity.
  - right. exists (VList [VTuple [VStr "sample_type"; VInt 1]]),
                  (mkDict {[ "sample_type" := VInt 1 ]} false).
    split; [reflexivity|]. split; reflexivity.
  - discriminate.
  - exists tc. split; [exact Htc|]. split; [exact Hg|]. split; [|exact Hrun].
    assert (Hc : demo_update_config msg_pairs_reset "trial_config"
                 = inr (mkDict (<["sample_type" := VInt 1]> demo_config) false))
      by (vm_compute; reflexivity).
    unfold demo_update_config in Hc. rewrite Hc in Htc. injection Htc as <-.
    vm_compute. reflexivity.
Defined.
